(** * GAR quantile-fit step: parameter validation and regressor transforms

    A shallow embedding of [GAR/quantfit/quantfit_main.py]:
    - [read_parameters_quantfit]: the synthesis of the regressor dictionary
      (keys [regressor + '_trans_' + str(i) + '_' + transform]);
    - [check_parameters_quantfit]: the validator, with its in-place updates
      of the parameter dictionary and its calls to [show_message];
    - the transform loop of [run_quantfit] ([shift], [rolling(..).mean()],
      [**], [diff], [pct_change] on the columns of the data frame);
    - the dictionaries of [prerun_quantfit], [run_quantfit] and
      [do_quantfit]: the merge of the global parameters, the sheet names
      copied to the output and those named in the closing message;
    and of [GAR/segment/plot_partition.py]: the tick labels and the
    normalised loadings of [partition_plot].

    Python dictionaries keep insertion order, so they are association lists
    here.  Python floats are embedded by their exact value (see [float64]). *)

From Stdlib Require Import ZArith QArith Qabs Qfield List String Ascii Bool Lia Lqa.
From Stdlib Require Import DecimalString DecimalNat.
Import ListNotations.

Local Open Scope string_scope.
Local Open Scope list_scope.

(* ================================================================== *)
(** ** Numbers *)

(** A Python float / numpy float64 cell.  A finite double is embedded by the
    rational it denotes; [NaN] is also what pandas uses for a missing cell.
    Comparisons and equality are the exact ones of IEEE 754; arithmetic on
    finite values is carried out exactly (rounding and overflow are not
    modelled, nor is the sign of zero). *)
Inductive float64 : Type :=
| NaN
| Inf (negative : bool)
| Fin (q : Q).

(** [pandas.isna] on a float cell. *)
Definition isna (x : float64) : bool :=
  match x with NaN => true | _ => false end.

Definition is_finite (x : float64) : bool :=
  match x with Fin _ => true | _ => false end.

Definition Qltb (a b : Q) : bool := negb (Qle_bool b a).

(** [x < y] *)
Definition f_lt (x y : float64) : bool :=
  match x, y with
  | NaN, _ | _, NaN => false
  | Inf true, Inf true => false
  | Inf true, _ => true
  | _, Inf true => false
  | Inf false, _ => false
  | Fin _, Inf false => true
  | Fin a, Fin b => Qltb a b
  end.

(** [x == y] *)
Definition f_eq (x y : float64) : bool :=
  match x, y with
  | Fin a, Fin b => Qeq_bool a b
  | Inf s, Inf s' => Bool.eqb s s'
  | _, _ => false
  end.

Definition f_add (x y : float64) : float64 :=
  match x, y with
  | NaN, _ | _, NaN => NaN
  | Inf s, Inf s' => if Bool.eqb s s' then Inf s else NaN
  | Inf s, Fin _ => Inf s
  | Fin _, Inf s => Inf s
  | Fin a, Fin b => Fin (a + b)
  end.

(** [x - y] *)
Definition f_sub (x y : float64) : float64 :=
  match x, y with
  | NaN, _ | _, NaN => NaN
  | Inf s, Inf s' => if Bool.eqb s s' then NaN else Inf s
  | Inf s, Fin _ => Inf s
  | Fin _, Inf s => Inf (negb s)
  | Fin a, Fin b => Fin (a - b)
  end.

(** [x / y], with the result pandas and numpy give for a zero divisor:
    [0/0] is NaN, any other finite value over zero is an infinity. *)
Definition f_div (x y : float64) : float64 :=
  match x, y with
  | NaN, _ | _, NaN => NaN
  | Inf _, Inf _ => NaN
  | Inf s, Fin b => Inf (xorb s (Qltb b 0))
  | Fin _, Inf _ => Fin 0
  | Fin a, Fin b =>
      if Qeq_bool b 0
      then (if Qeq_bool a 0 then NaN else Inf (Qltb a 0))
      else Fin (a / b)
  end.

(** [x ** k] for an integer exponent [k]: [x ** 0] is 1 for every [x],
    NaN included. *)
Definition f_pow (x : float64) (k : Z) : float64 :=
  if (k =? 0)%Z then Fin 1 else
  match x with
  | NaN => NaN
  | Inf s => if (k <? 0)%Z then Fin 0 else Inf (s && Z.odd k)
  | Fin a =>
      if Qeq_bool a 0 && (k <? 0)%Z then Inf false else Fin (Qpower a k)
  end.

(** Truncation toward zero: Python's [int(x)] on a finite float. *)
Definition Qtrunc (q : Q) : Z := Z.quot (Qnum q) (Zpos (Qden q)).


(** The doubles denoted by the float literals of the source. *)
Definition lit_1E_5 : Q := 5902958103587057 # 590295810358705651712.
Definition lit_0_10 : Q := 3602879701896397 # 36028797018963968.
Definition lit_0_25 : Q := 1 # 4.
Definition lit_0_50 : Q := 1 # 2.
Definition lit_0_75 : Q := 3 # 4.
Definition lit_0_90 : Q := 8106479329266893 # 9007199254740992.

(* ================================================================== *)
(** ** Python values and dictionaries *)

(** The content of an option cell: [None], a float, an int or a str. *)
Inductive pyval : Type :=
| PyNone
| PyFloat (x : float64)
| PyInt (n : Z)
| PyStr (s : string).

(** The inner dictionary of one regressor, [{'transform': .., 'option': ..}].
    The transform is a string: [read_parameters_quantfit] concatenates it
    into the key, which fails on anything else. *)
Record regspec : Type := mkRegspec { transform : string; option_ : pyval }.

Definition regdict : Type := list (string * regspec).

(** The values stored in the parameter dictionary. *)
Inductive value : Type :=
| VNone
| VStr (s : string)
| VList (l : list float64)
| VDict (r : regdict).

Definition pydict : Type := list (string * value).

Section Dict.
Context {V : Type}.

(** [d[k]], [None] standing for KeyError. *)
Fixpoint dict_get (k : string) (d : list (string * V)) : option V :=
  match d with
  | [] => None
  | (k', v) :: d' => if String.eqb k k' then Some v else dict_get k d'
  end.

(** [k in d] *)
Definition dict_mem (k : string) (d : list (string * V)) : bool :=
  match dict_get k d with Some _ => true | None => false end.

(** [d[k] = v]: an existing key keeps its position, a new one goes last. *)
Fixpoint dict_set (k : string) (v : V) (d : list (string * V))
  : list (string * V) :=
  match d with
  | [] => [(k, v)]
  | (k', v') :: d' =>
      if String.eqb k k' then (k', v) :: d' else (k', v') :: dict_set k v d'
  end.

(** [list(d.keys())] *)
Definition dict_keys (d : list (string * V)) : list string := map fst d.
End Dict.

(** [x in l] for a list of strings. *)
Definition str_in (x : string) (l : list string) : bool :=
  existsb (String.eqb x) l.

(** [x in l] for a float [x] that is not NaN and a list of floats. *)
Definition float_in (x : float64) (l : list float64) : bool :=
  existsb (f_eq x) l.

(** [s.find(sub) != -1] *)
Definition str_contains (sub s : string) : bool :=
  match String.index 0 sub s with Some _ => true | None => false end.

(* ================================================================== *)
(** ** Messages, exceptions and the validator's monad *)

(** The messages [check_parameters_quantfit] builds, by their content (the
    rendering as text, [str(val)] of a float list, is not modelled). *)
Inductive message : Type :=
| KeyNotFound (key : string)
| QuantlistOutOfRange (val : list float64)
| QuantlistMissing (_val : float64) (val : list float64)
| TransformInvalid (regressor transform : string)
| OptionMustNotBeSet (regressor transform : string)
| OptionMustBeInt (regressor transform : string) (option : pyval)
| InputSheetMissing (sheetname : string)
| NoSheetCalled (key : string)
| SheetIsInput (key val : string).

Inductive exn : Type :=
| KeyError (key : string)
| TypeError
| ValueError
| OverflowError.

(** The dictionary passed by the caller, which the validator updates in
    place, and the messages handed to [show_message] so far. *)
Record state : Type := mkState { params : pydict; shown : list message }.

(** How a run ends: normally, by a halting [show_message] (the
    ConfigurationError of the specification), or by an uncaught exception. *)
Inductive outcome (A : Type) : Type :=
| Done (a : A) (s : state)
| Halted (m : message) (s : state)
| Raised (e : exn) (s : state).
Arguments Done {A} a s.
Arguments Halted {A} m s.
Arguments Raised {A} e s.

Definition M (A : Type) : Type := state -> outcome A.

Definition ret {A} (a : A) : M A := fun s => Done a s.

Definition bind {A B} (c : M A) (f : A -> M B) : M B :=
  fun s =>
    match c s with
    | Done a s' => f a s'
    | Halted m s' => Halted m s'
    | Raised e s' => Raised e s'
    end.

Notation "x <- c ;; k" := (bind c (fun x => k))
  (at level 61, c at next level, right associativity).
Notation "c ;; k" := (bind c (fun _ => k))
  (at level 61, right associativity).

Definition raise {A} (e : exn) : M A := fun s => Raised e s.

Definition get_params : M pydict := fun s => Done (params s) s.

Definition put_params (d : pydict) : M unit :=
  fun s => Done tt (mkState d (shown s)).

Definition when (b : bool) (c : M unit) : M unit :=
  if b then c else ret tt.

(** [for a in l: body(a)] *)
Fixpoint for_each {A} (l : list A) (body : A -> M unit) : M unit :=
  match l with
  | [] => ret tt
  | a :: l' => body a ;; for_each l' body
  end.

(** Modelled from the spec: [show_message] of [GAR.globals], which is not
    among the sources.  The notification sink receives the message; with
    [halt=True] it terminates processing (a fatal configuration error);
    called without [halt], as in the loop over the keys, it returns and the
    caller goes on. *)
Definition show_message (m : message) (halt : bool) : M unit :=
  fun s =>
    let s' := mkState (params s) (shown s ++ [m]) in
    if halt then Halted m s' else Done tt s'.

(* ================================================================== *)
(** ** [check_parameters_quantfit] *)

Definition necessary_vals : list float64 :=
  [Fin lit_0_10; Fin lit_0_25; Fin lit_0_50; Fin lit_0_75; Fin lit_0_90].

Definition valid_transforms : list string :=
  ["None"; "Lagged"; "MVA"; "Power"; "Diff"; "ChangeRate"].

Definition option_transforms : list string :=
  ["Lagged"; "MVA"; "Power"; "Diff"; "ChangeRate"].

Definition input_sheets : list string :=
  ["Readme"; "Input_parameters"; "Partition_groups"; "Data"; "Processing_Log"].

(** [d[key]] on the caller's dictionary. *)
Definition getitem (key : string) : M value :=
  d <- get_params ;;
  match dict_get key d with
  | Some v => ret v
  | None => raise (KeyError key)
  end.

(** [dict_input_quantfit[key] = v] *)
Definition setitem (key : string) (v : value) : M unit :=
  d <- get_params ;; put_params (dict_set key v d).

(** Lines 194-198: the loop that looks for every key. *)
Definition check_keys_exist (keys : list string) : M unit :=
  for_each keys (fun key =>
    d <- get_params ;;
    when (negb (dict_mem key d)) (show_message (KeyNotFound key) false)).

(** Lines 204-218: the block for [key == 'quantlist']. *)
Definition check_quantlist (val : value) : M unit :=
  match val with
  | VList l =>
      when (negb (forallb (fun v => f_lt (Fin 0) v) l
                  && forallb (fun v => f_lt v (Fin 1)) l))
           (show_message (QuantlistOutOfRange l) true) ;;
      for_each necessary_vals (fun _val =>
        when (negb (float_in _val l))
             (show_message (QuantlistMissing _val l) true))
  | _ => raise TypeError
  end.

(** [val[regressor]], where [val] is the dictionary stored under
    ['regressors'] itself (the loop variable is an alias of it, so the entry
    is read from the current state). *)
Definition get_regressor (regressor : string) : M regspec :=
  v <- getitem "regressors" ;;
  match v with
  | VDict r =>
      match dict_get regressor r with
      | Some e => ret e
      | None => raise (KeyError regressor)
      end
  | _ => raise TypeError
  end.

(** [dict_input_quantfit['regressors'][regressor]['option'] = o] *)
Definition set_regressor_option (regressor : string) (o : pyval) : M unit :=
  v <- getitem "regressors" ;;
  match v with
  | VDict r =>
      match dict_get regressor r with
      | Some e =>
          setitem "regressors"
                  (VDict (dict_set regressor (mkRegspec (transform e) o) r))
      | None => raise (KeyError regressor)
      end
  | _ => raise TypeError
  end.

(** [int(option)]: a finite float is truncated toward zero, NaN and the
    infinities raise.  The validator calls it on floats only (any other
    option has halted it before); a str is taken not to be a numeral. *)
Definition py_int (option : pyval) : M Z :=
  match option with
  | PyFloat (Fin q) => ret (Qtrunc q)
  | PyFloat NaN => raise ValueError
  | PyFloat (Inf _) => raise OverflowError
  | PyInt n => ret n
  | PyNone => raise TypeError
  | PyStr _ => raise ValueError
  end.

(** [type(option) != float or abs(int(option) - option) > 1E-5].  The
    integer part of a double and its distance to the double are themselves
    doubles, so the subtraction is exact. *)
Definition not_intlike (option : pyval) : M bool :=
  match option with
  | PyFloat x =>
      n <- py_int option ;;
      match x with
      | Fin q => ret (Qltb lit_1E_5 (Qabs (inject_Z n - q)))
      | _ => ret true
      end
  | _ => ret true
  end.

(** Lines 226-229. *)
Definition check_transform (regressor transform : string) : M unit :=
  when (negb (str_in transform valid_transforms))
       (show_message (TransformInvalid regressor transform) true).

(** Lines 231-235. *)
Definition check_no_option (regressor transform : string) (option : pyval)
  : M unit :=
  when (str_in transform ["None"])
       (when (match option with PyNone => false | _ => true end)
             (show_message (OptionMustNotBeSet regressor transform) true)).

(** Lines 237-244. *)
Definition check_int_option (regressor transform : string) (option : pyval)
  : M unit :=
  when (str_in transform option_transforms)
       (bad <- not_intlike option ;;
        when bad
             (show_message (OptionMustBeInt regressor transform option) true) ;;
        n <- py_int option ;;
        set_regressor_option regressor (PyInt n)).

(** Lines 223-244: the body of [for regressor in val]. *)
Definition check_regressor (regressor : string) : M unit :=
  e <- get_regressor regressor ;;
  check_transform regressor (transform e) ;;
  check_no_option regressor (transform e) (option_ e) ;;
  check_int_option regressor (transform e) (option_ e).

(** Lines 220-244: the block for [key == 'regressors'].  A value that is not
    a dictionary fails as soon as the loop body indexes it. *)
Definition check_regressors (val : value) : M unit :=
  match val with
  | VDict r => for_each (dict_keys r) check_regressor
  | VStr "" | VList [] => ret tt
  | _ => raise TypeError
  end.

(** Lines 246-257: [key == 'sheet_input'].  [sheetnames] are the names of
    the sheets of the workbook [wb]. *)
Definition check_sheet_input (sheetnames : list string) (key : string)
           (val : value) : M unit :=
  match val with
  | VNone =>
      let sheetname := "Output_partitions" in
      setitem key (VStr sheetname) ;;
      when (negb (str_in sheetname sheetnames))
           (show_message (InputSheetMissing sheetname) true)
  | _ => ret tt
  end.

(** Lines 259-277: the other keys that contain ['sheet_']. *)
Definition check_sheet_output (key : string) (val : value) : M unit :=
  match val with
  | VNone =>
      if String.eqb key "sheet_quantreg"
      then setitem key (VStr "Quant reg coefficients")
      else if String.eqb key "sheet_cond_quant"
      then setitem key (VStr "Conditional quantiles")
      else show_message (NoSheetCalled key) true
  | VStr s =>
      when (str_in s input_sheets) (show_message (SheetIsInput key s) true)
  | _ => ret tt
  end.

(** Lines 201-277: the body of the second [for key in keys]. *)
Definition check_key (sheetnames : list string) (key : string) : M unit :=
  val <- getitem key ;;
  when (String.eqb key "quantlist") (check_quantlist val) ;;
  when (String.eqb key "regressors") (check_regressors val) ;;
  if String.eqb key "sheet_input"
  then check_sheet_input sheetnames key val
  else when (str_contains "sheet_" key) (check_sheet_output key val).

Definition check_parameters_quantfit (sheetnames : list string)
           (keys : list string) : M unit :=
  check_keys_exist keys ;;
  for_each keys (check_key sheetnames).

(** A call on the caller's dictionary, nothing shown yet. *)
Definition validate (sheetnames : list string) (d : pydict)
           (keys : list string) : outcome unit :=
  check_parameters_quantfit sheetnames keys (mkState d []).

(** The keys [prerun_quantfit] passes. *)
Definition quantfit_keys : list string :=
  ["quantlist"; "regressors"; "sheet_input"; "sheet_quantreg";
   "sheet_cond_quant"].

(* ================================================================== *)
(** ** [read_parameters_quantfit]: the regressor dictionary *)

(** [str(i)] for a loop index. *)
Definition str_of_nat (i : nat) : string :=
  NilEmpty.string_of_uint (Nat.to_uint i).

(** [regressor+'_trans_'+str(iregressor)+'_'+transform] *)
Definition regressor_key (regressor : string) (iregressor : nat)
           (transform : string) : string :=
  regressor ++ "_trans_" ++ str_of_nat iregressor ++ "_" ++ transform.

(** One row of the sheet: the regressor in column A, its transform in
    column B and its option in column D. *)
Definition row : Type := (string * string * pyval)%type.

(** Lines 159-170, from index [i] on, into the dictionary built so far. *)
Fixpoint read_regressors_from (i : nat) (rows : list row) (d : regdict)
  : regdict :=
  match rows with
  | [] => d
  | (regressor, transform, option) :: rows' =>
      read_regressors_from (S i) rows'
        (dict_set (regressor_key regressor i transform)
                  (mkRegspec transform option) d)
  end.

Definition read_regressors (rows : list row) : regdict :=
  read_regressors_from 0 rows [].

(** The dictionary [read_parameters_quantfit] returns, from the cells of the
    sheet: the quantile list, the rows of the regressors, the two output
    sheets and the input sheet, stored in that order. *)
Definition read_parameters_quantfit (quantlist : value) (rows : list row)
           (sheet_quantreg sheet_cond_quant sheet_input : value) : pydict :=
  [("quantlist", quantlist);
   ("regressors", VDict (read_regressors rows));
   ("sheet_quantreg", sheet_quantreg);
   ("sheet_cond_quant", sheet_cond_quant);
   ("sheet_input", sheet_input)].

(* ================================================================== *)
(** ** The transform loop of [run_quantfit] *)

Definition series : Type := list float64.

(** The numeric columns of the data frame, by name.  The transforms are
    positional, so the date index is left out. *)
Definition frame : Type := list (string * series).

(** [Series.shift(periods)]: the values move down by [periods] rows (up for
    a negative number), the freed rows hold NaN. *)
Definition shift (periods : Z) (x : series) : series :=
  if (0 <=? periods)%Z
  then firstn (List.length x) (repeat NaN (Z.to_nat periods) ++ x)
  else let k := Z.to_nat (- periods) in
       skipn k x ++ repeat NaN (Nat.min k (List.length x)).

(** Row by row application of a binary operation to two aligned columns. *)
Fixpoint map2 {A B C} (f : A -> B -> C) (x : list A) (y : list B) : list C :=
  match x, y with
  | a :: x', b :: y' => f a b :: map2 f x' y'
  | _, _ => []
  end.

(** [Series.diff(periods)] is [x - x.shift(periods)]. *)
Definition diff (periods : Z) (x : series) : series :=
  map2 f_sub x (shift periods x).

(** [fillna(method='pad')]: a missing cell takes the last value seen. *)
Fixpoint pad_from (last : float64) (x : series) : series :=
  match x with
  | [] => []
  | a :: x' =>
      if isna a then last :: pad_from last x' else a :: pad_from a x'
  end.

Definition pad (x : series) : series := pad_from NaN x.

(** [Series.pct_change(periods)] with its default [fill_method='pad']:
    [data / data.shift(periods) - 1] on the padded column. *)
Definition pct_change (periods : Z) (x : series) : series :=
  let data := pad x in
  map2 (fun a b => f_sub (f_div a b) (Fin 1)) data (shift periods data).

(** The rows [t-w+1 .. t] of [x] (fewer at the start of the column). *)
Definition window_at (w : nat) (x : series) (t : nat) : series :=
  skipn (t + 1 - w) (firstn (t + 1) x).

Definition f_sum (l : series) : float64 := fold_left f_add l (Fin 0).

(** The mean of the observations of a window: NaN unless there are at least
    [min_periods] of them.  The rolling aggregations of pandas turn
    infinities into NaN first, so the observations are the finite cells. *)
Definition mean_min_periods (min_periods : nat) (win : series) : float64 :=
  let obs := filter is_finite win in
  let nobs := List.length obs in
  if (min_periods <=? nobs)%nat && (0 <? nobs)%nat
  then f_div (f_sum obs) (Fin (inject_Z (Z.of_nat nobs)))
  else NaN.

(** [Series.rolling(window=w).mean()], with the default
    [min_periods = window]. *)
Definition rolling_mean (w : nat) (x : series) : series :=
  map (fun t => mean_min_periods w (window_at w x t)) (seq 0 (List.length x)).

(** [Series ** k] *)
Definition power (k : Z) (x : series) : series :=
  map (fun a => f_pow a k) x.

(** [s.split(sep)[0]]: what comes before the first occurrence of [sep]. *)
Fixpoint split_head (sep s : string) : string :=
  match s with
  | EmptyString => EmptyString
  | String c s' =>
      if String.prefix sep s then EmptyString else String c (split_head sep s')
  end.

Inductive run_error : Type :=
| NoColumn (name : string)      (* KeyError on [df_quantfit[reg_short]] *)
| NegativeWindow                (* ValueError of [rolling] *)
| OptionNotInt (option : pyval) (* not left by the validator: not modelled *).

(** The column a transform computes from the column [x] (lines 342-353);
    [None] when the transform is none of the six, for which the loop adds
    no column. *)
Definition transform_series (transform : string) (opt : pyval)
           (x : series) : run_error + option series :=
  if String.eqb transform "None" then inr (Some x)
  else if str_in transform option_transforms then
    match opt with
    | PyInt k =>
        if String.eqb transform "Lagged" then inr (Some (shift k x))
        else if String.eqb transform "MVA" then
          if (k <? 0)%Z then inl NegativeWindow
          else inr (Some (rolling_mean (Z.to_nat k) x))
        else if String.eqb transform "Power" then inr (Some (power k x))
        else if String.eqb transform "Diff" then inr (Some (diff k x))
        else inr (Some (pct_change k x))
    | _ => inl (OptionNotInt opt)
    end
  else inr None.

(** Lines 340-353: one column per regressor, in the order of [regressors],
    each computed from the column named by the part of the key before
    ['_trans_'].  The source column is looked up only in the branch of one
    of the six transforms. *)
Fixpoint add_regressors (regs : regdict) (regressors : list string)
         (df : frame) : run_error + frame :=
  match regressors with
  | [] => inr df
  | reg_long :: rest =>
      let reg_short := split_head "_trans_" reg_long in
      match dict_get reg_long regs with
      | None => inl (NoColumn reg_long)
      | Some e =>
          if str_in (transform e) valid_transforms then
            match dict_get reg_short df with
            | None => inl (NoColumn reg_short)
            | Some x =>
                match transform_series (transform e) (option_ e) x with
                | inl err => inl err
                | inr None => add_regressors regs rest df
                | inr (Some col) =>
                    add_regressors regs rest (dict_set reg_long col df)
                end
            end
          else add_regressors regs rest df
      end
  end.

(** Lines 336-353 of [run_quantfit]. *)
Definition run_transforms (regs : regdict) (df : frame)
  : run_error + frame :=
  add_regressors regs (dict_keys regs) df.

(* ================================================================== *)
(** ** The properties stated about the validator *)

(** A cell lies strictly between 0 and 1: it is a finite number [q] with
    [0 < q < 1]. *)
Definition strictly_in_unit (x : float64) : Prop :=
  exists q, x = Fin q /\ 0 < q /\ q < 1.

(** The level [c] occurs in the list, by exact equality of the numbers. *)
Definition present (c : Q) (l : list float64) : Prop :=
  exists q, In (Fin q) l /\ q == c.

(** All five levels of [necessary_vals] occur in the list. *)
Definition canonical_present (l : list float64) : Prop :=
  present lit_0_10 l /\ present lit_0_25 l /\ present lit_0_50 l
  /\ present lit_0_75 l /\ present lit_0_90 l.

Definition valid_quantlist (l : list float64) : Prop :=
  Forall strictly_in_unit l /\ canonical_present l.

(** The state once one more message has been shown. *)
Definition shows (m : message) (s : state) : state :=
  mkState (params s) (shown s ++ [m]).

(** The state a run ends in, however it ends. *)
Definition final_state {A} (o : outcome A) : state :=
  match o with
  | Done _ s | Halted _ s | Raised _ s => s
  end.

(** The name [check_parameters_quantfit] gives to a sheet left unspecified. *)
Definition default_sheet (key : string) : option string :=
  if String.eqb key "sheet_input" then Some "Output_partitions"
  else if String.eqb key "sheet_quantreg" then Some "Quant reg coefficients"
  else if String.eqb key "sheet_cond_quant" then Some "Conditional quantiles"
  else None.

(** What the validator may have done to the option of a regressor: nothing,
    or, for a transform that takes an option, replaced a float by its
    integer part. *)
Definition option_updated (e e' : regspec) : Prop :=
  option_ e' = option_ e
  \/ (str_in (transform e) option_transforms = true
      /\ exists q, option_ e = PyFloat (Fin q)
                   /\ option_ e' = PyInt (Qtrunc q)).

Definition regspec_updated (p p' : string * regspec) : Prop :=
  fst p' = fst p /\ transform (snd p') = transform (snd p)
  /\ option_updated (snd p) (snd p').

(** What the validator may have done to the value stored under [key]. *)
Definition value_updated (key : string) (v v' : value) : Prop :=
  v' = v
  \/ (exists name, v = VNone /\ default_sheet key = Some name
                   /\ v' = VStr name)
  \/ (exists r r', key = "regressors" /\ v = VDict r /\ v' = VDict r'
                   /\ Forall2 regspec_updated r r').

Definition entry_updated (p p' : string * value) : Prop :=
  fst p' = fst p /\ value_updated (fst p) (snd p) (snd p').

(** The dictionary [d'] is [d] up to the updates of the validator: the same
    keys in the same order, each value as it was or updated as above. *)
Definition params_updated (d d' : pydict) : Prop :=
  Forall2 entry_updated d d'.

(** Run from the state [s], the computation [c] leaves the dictionary as it
    was up to the updates of the validator, however it ends. *)
Definition frames {A} (c : M A) (s : state) : Prop :=
  params_updated (params s) (params (final_state (c s))).

(** The messages of the first loop: one for each key that is not found. *)
Definition missing_keys (d : pydict) (keys : list string) : list message :=
  map KeyNotFound (filter (fun key => negb (dict_mem key d)) keys).

(** The option [x] lies at the integer [n] or beyond it, on the side away
    from zero, by at most the tolerance. *)
Definition just_beyond (n : Z) (x : Q) : Prop :=
  (0 <= inject_Z n /\ inject_Z n <= x /\ x <= inject_Z n + lit_1E_5)
  \/ (inject_Z n <= 0 /\ inject_Z n - lit_1E_5 <= x /\ x <= inject_Z n).

(** The option [x] is farther than the tolerance from every integer. *)
Definition far_from_integers (x : Q) : Prop :=
  forall n : Z, lit_1E_5 < Qabs (x - inject_Z n).

(** The option [x] is within the tolerance of the integer [n]. *)
Definition within_tolerance (n : Z) (x : Q) : Prop :=
  Qabs (x - inject_Z n) <= lit_1E_5.

(* ================================================================== *)
(** ** Sample inputs *)

(** The doubles denoted by [0.9000001] and [2.999999]. *)
Definition lit_0_9000001 : Q := 4053240114993409 # 4503599627370496.
Definition lit_2_999999 : Q := 3377698594627965 # 1125899906842624.

(** A sheet with two regressors, as read by [read_parameters_quantfit]. *)
Definition sample_rows : list row :=
  [("gdp", "Lagged", PyFloat (Fin 2)); ("credit", "None", PyNone)].

Definition sample_params : pydict :=
  read_parameters_quantfit (VList necessary_vals) sample_rows
    VNone (VStr "Conditional quantiles") (VStr "Output_partitions").

(** The same dictionary once validated. *)
Definition sample_params_validated : pydict :=
  [("quantlist", VList necessary_vals);
   ("regressors",
    VDict [("gdp_trans_0_Lagged", mkRegspec "Lagged" (PyInt 2));
           ("credit_trans_1_None", mkRegspec "None" PyNone)]);
   ("sheet_quantreg", VStr "Quant reg coefficients");
   ("sheet_cond_quant", VStr "Conditional quantiles");
   ("sheet_input", VStr "Output_partitions")].

(** The sample without its quantile list. *)
Definition sample_without_quantlist : pydict := tl sample_params.

(** A dictionary that holds one regressor only. *)
Definition one_regressor (regressor transform : string) (option : pyval)
  : pydict :=
  [("regressors", VDict [(regressor, mkRegspec transform option)])].

(** Quantile lists: without 0.90, and with 0.9000001 in its place. *)
Definition quantlist_without_090 : list float64 :=
  [Fin lit_0_10; Fin lit_0_25; Fin lit_0_50; Fin lit_0_75].

Definition quantlist_near_090 : list float64 :=
  [Fin lit_0_10; Fin lit_0_25; Fin lit_0_50; Fin lit_0_75;
   Fin lit_0_9000001].

(* ================================================================== *)
(** ** The properties stated about the transforms *)

(** The cell of row [i] of a column, missing when [i] is not one of its
    rows. *)
Definition row_at (x : series) (i : Z) : float64 :=
  if ((0 <=? i) && (i <? Z.of_nat (List.length x)))%Z
  then nth (Z.to_nat i) x NaN
  else NaN.


(** The column computed by a transform, when it computes one. *)
Definition transformed (transform : string) (opt : pyval) (x y : series)
  : Prop :=
  transform_series transform opt x = inr (Some y).


(** Ten rows, 1 to 10. *)
Definition one_to_ten : series :=
  map (fun n => Fin (inject_Z n)) [1; 2; 3; 4; 5; 6; 7; 8; 9; 10]%Z.

(* ================================================================== *)
(** ** The properties stated about the regressor names *)

(** [c in s] for a character. *)
Fixpoint has_char (c : ascii) (s : string) : bool :=
  match s with
  | EmptyString => false
  | String c' s' => Ascii.eqb c c' || has_char c s'
  end.

Definition underscore_free (s : string) : Prop := has_char "_" s = false.

(** The keys of the rows, numbered from [i] on, in the order of the rows. *)
Fixpoint names_from (i : nat) (rows : list row) : list string :=
  match rows with
  | [] => []
  | (regressor, transform, _) :: rows' =>
      regressor_key regressor i transform :: names_from (S i) rows'
  end.

(** The entries of the rows, numbered from [i] on, in the order of the
    rows. *)
Fixpoint entries_from (i : nat) (rows : list row) : regdict :=
  match rows with
  | [] => []
  | (regressor, transform, option) :: rows' =>
      (regressor_key regressor i transform, mkRegspec transform option)
        :: entries_from (S i) rows'
  end.

Definition row_transform (r : row) : string := snd (fst r).

(** Two rows whose keys collide. *)
Definition colliding_rows : list row :=
  [("gdp", "X_trans_1_None", PyNone); ("gdp_trans_0_X", "None", PyNone)].

(** The same regressor with the same transform, declared twice. *)
Definition repeated_rows : list row :=
  [("gdp", "Lagged", PyFloat (Fin 1)); ("gdp", "Lagged", PyFloat (Fin 1))].

(* ================================================================== *)
(** ** Further properties of the validator *)

(** What a computation does to the messages shown: nothing when it ends
    normally or raises, one more message, the one it halts with, when it
    halts. *)
Definition quiet {A} (c : M A) : Prop :=
  forall s,
    match c s with
    | Done _ s' => shown s' = shown s
    | Halted m s' => shown s' = shown s ++ [m]
    | Raised _ s' => shown s' = shown s
    end.

(** The computation leaves the value stored under the key [k] as it is,
    however it ends. *)
Definition keeps {A} (k : string) (c : M A) : Prop :=
  forall s, dict_get k (params (final_state (c s))) = dict_get k (params s).

(** A regressor as the validator leaves it: no option for 'None', an int
    option for the five other transforms. *)
Definition normalised (e : regspec) : Prop :=
  (transform e = "None" /\ option_ e = PyNone)
  \/ (In (transform e) option_transforms /\ exists n, option_ e = PyInt n).

(** A dictionary with a 'Power' regressor whose option is NaN, and one with
    no sheet for the conditional quantiles. *)
Definition nan_option_params : pydict :=
  one_regressor "gdp_trans_0_Power" "Power" (PyFloat NaN).

Definition sheet_params (v : value) : pydict := [("sheet_cond_quant", v)].

(** A quantile list with an entry out of range and levels missing. *)
Definition quantlist_out_of_range : list float64 :=
  [Fin lit_0_10; Fin (3 # 2)].

(* ================================================================== *)
(** ** Further properties of the reader and of the transform loop *)

(** [sub in s] for strings: [sub] starts at some position of [s]. *)
Fixpoint occurs (sub s : string) : bool :=
  match s with
  | EmptyString => String.prefix sub s
  | String _ s' => String.prefix sub s || occurs sub s'
  end.

(** All the columns of the frame have [n] rows. *)
Definition rectangular (n : nat) (df : frame) : Prop :=
  Forall (fun p => List.length (snd p) = n) df.

(** Rows of a sheet of which the first two give the same key. *)
Definition overwritten_rows : list row :=
  [("gdp", "X_trans_1_None", PyFloat (Fin 3));
   ("gdp_trans_0_X", "None", PyNone);
   ("credit", "Lagged", PyFloat (Fin 1))].

Definition sample_frame : frame :=
  [("gdp", [Fin 1; Fin 2; Fin 3]); ("credit", [Fin 4; NaN; Fin 6])].

Definition sample_regressors_validated : regdict :=
  [("gdp_trans_0_Lagged", mkRegspec "Lagged" (PyInt 2));
   ("credit_trans_1_None", mkRegspec "None" PyNone)].




(* ================================================================== *)
(** ** [prerun_quantfit], [run_quantfit] and [do_quantfit]: the
       dictionaries *)

(** Lines 115-120 of [prerun_quantfit]: every global parameter is added to
    the validated dictionary; a key that is already there stops the run
    with a halting message that names it, here the left result.  The
    global parameters come from [read_parameters_global], which is not
    among the sources: they are an argument. *)
Fixpoint add_global_params {V} (dict_global_params dict_input_quantfit :
                                  list (string * V))
  : string + list (string * V) :=
  match dict_global_params with
  | [] => inr dict_input_quantfit
  | (key, val) :: rest =>
      if dict_mem key dict_input_quantfit then inl key
      else add_global_params rest (dict_set key val dict_input_quantfit)
  end.

(** Lines 320-322 of [run_quantfit]: the entries whose key contains
    ['sheet_'] are copied to the output dictionary. *)
Definition copy_sheet_names {V} (dict_input_quantfit : list (string * V))
  : list (string * V) :=
  fold_left (fun out kv =>
               if str_contains "sheet_" (fst kv)
               then dict_set (fst kv) (snd kv) out else out)
            dict_input_quantfit [].

(** Lines 337 and 374-377 of [run_quantfit]: the results stored in the
    output dictionary, whatever they are. *)
Definition add_results {V} (regressors qcoef cond_quant localprj figs : V)
           (out : list (string * V)) : list (string * V) :=
  dict_set "figs" figs
    (dict_set "localprj" localprj
       (dict_set "cond_quant" cond_quant
          (dict_set "qcoef" qcoef
             (dict_set "regressors" regressors out)))).

(** Line 74 of [do_quantfit]: the sheets named in the closing message. *)
Definition reported_sheets {V} (dict_output_quantfit : list (string * V))
  : list V :=
  map snd (filter (fun kv => str_contains "sheet" (fst kv))
                  dict_output_quantfit).

(** The entries of a dictionary whose key contains ['sheet_']. *)
Definition sheet_entries {V} (d : list (string * V)) : list (string * V) :=
  filter (fun kv => str_contains "sheet_" (fst kv)) d.

(** Validated parameters and global parameters, as samples. *)
Definition sample_input_params : list (string * string) :=
  [("quantlist", "levels"); ("sheet_input", "Output_partitions");
   ("sheet_quantreg", "Quant reg coefficients")].


(* ================================================================== *)
(** ** [partition_plot]: the tick labels and the normalised loadings *)

(** The body of the loops over [ytick]: a label of more than ten
    characters is cut to its first seven, followed by three dots. *)
Definition truncate_label (label : string) : string :=
  if (10 <? String.length label)%nat
  then (substring 0 7 label ++ "...")%string
  else label.

(** [for ind in range(len(ytick)): ...] *)
Definition tick_labels (ytick : list string) : list string :=
  map truncate_label ytick.

(** [np.absolute] on a cell. *)
Definition f_abs (x : float64) : float64 :=
  match x with
  | NaN => NaN
  | Inf _ => Inf false
  | Fin q => Fin (Qabs q)
  end.

(** [np.sum] of a pandas column, which is the [sum] of the column: the
    missing cells are skipped. *)
Definition column_sum (x : series) : float64 :=
  f_sum (filter (fun v => negb (isna v)) x).

(** [dl1['loadings']/np.sum(np.absolute(dl1.loadings))] *)
Definition norm_loadings (loadings : series) : series :=
  let sum_abs := column_sum (map f_abs loadings) in
  map (fun l => f_div l sum_abs) loadings.


(* ================================================================== *)
(** ** Reading, then validating *)

(** The run did not end by a KeyError. *)
Definition no_key_error {A} (o : outcome A) : Prop :=
  match o with
  | Raised (KeyError _) _ => False
  | _ => True
  end.

(* ================================================================== *)
(** ** The float literals *)

(** The constants are the doubles nearest to the decimal literals. *)
Lemma literals_nearest :
  Qabs (lit_1E_5 - (1 # 100000)) < 1 # 10 ^ 21
  /\ Qabs (lit_0_10 - (1 # 10)) < 1 # 10 ^ 17
  /\ Qabs (lit_0_90 - (9 # 10)) < 1 # 10 ^ 16
  /\ lit_0_25 == 25 # 100 /\ lit_0_50 == 5 # 10 /\ lit_0_75 == 75 # 100.
Proof. repeat split. Qed.

(* ================================================================== *)
(** ** Facts on numbers and lists *)

Lemma Qltb_lt (a b : Q) : Qltb a b = true <-> a < b.
Proof.
  unfold Qltb. rewrite negb_true_iff. split; intro H.
  - apply Qnot_le_lt. intro Hle. apply Qle_bool_iff in Hle. congruence.
  - destruct (Qle_bool b a) eqn:E; [|reflexivity].
    apply Qle_bool_iff in E. exfalso. exact (Qlt_not_le _ _ H E).
Qed.

Lemma Qltb_ge (a b : Q) : Qltb a b = false <-> b <= a.
Proof.
  unfold Qltb. rewrite negb_false_iff. apply Qle_bool_iff.
Qed.

Lemma f_lt_unit_iff (x : float64) :
  f_lt (Fin 0) x = true /\ f_lt x (Fin 1) = true <-> strictly_in_unit x.
Proof.
  unfold strictly_in_unit. split.
  - intros [H0 H1]. destruct x as [|[|]|q]; simpl in *; try discriminate.
    exists q. rewrite !Qltb_lt in *. auto.
  - intros (q & -> & H0 & H1). simpl. rewrite !Qltb_lt. auto.
Qed.

Lemma range_check_iff (l : list float64) :
  forallb (fun v => f_lt (Fin 0) v) l && forallb (fun v => f_lt v (Fin 1)) l
  = true <-> Forall strictly_in_unit l.
Proof.
  rewrite andb_true_iff, !forallb_forall, Forall_forall. split.
  - intros [H0 H1] x Hx. apply f_lt_unit_iff. auto.
  - intros H. split; intros x Hx; apply (f_lt_unit_iff x); auto.
Qed.

Lemma float_in_iff (c : Q) (l : list float64) :
  float_in (Fin c) l = true <-> present c l.
Proof.
  unfold float_in, present. rewrite existsb_exists. split.
  - intros (y & Hy & E). destruct y as [| |q]; simpl in E; try discriminate.
    exists q. split; [assumption|]. apply Qeq_bool_iff in E. now symmetry.
  - intros (q & Hq & E). exists (Fin q). split; [assumption|]. simpl.
    apply Qeq_bool_iff. now symmetry.
Qed.

Lemma necessary_vals_iff (l : list float64) :
  forallb (fun c => float_in c l) necessary_vals = true <-> canonical_present l.
Proof.
  unfold necessary_vals, canonical_present. simpl.
  rewrite !andb_true_iff, !float_in_iff. tauto.
Qed.

(* ================================================================== *)
(** ** Facts on the monad *)

(** A loop of halting checks: it runs through when every element passes,
    and stops at the first element that does not. *)
Lemma for_each_checks_pass {A} (p : A -> bool) (m : A -> message)
      (l : list A) (s : state) :
  forallb p l = true ->
  for_each l (fun a => when (negb (p a)) (show_message (m a) true)) s
  = Done tt s.
Proof.
  induction l as [|a l IH]; simpl; intro H; [reflexivity|].
  apply andb_true_iff in H as [Ha Hl].
  unfold bind. rewrite Ha. simpl. auto.
Qed.

Lemma for_each_checks_fail {A} (p : A -> bool) (m : A -> message)
      (l : list A) (s : state) :
  forallb p l = false ->
  exists l1 a l2,
    l = l1 ++ a :: l2 /\ forallb p l1 = true /\ p a = false
    /\ for_each l (fun a => when (negb (p a)) (show_message (m a) true)) s
       = Halted (m a) (shows (m a) s).
Proof.
  induction l as [|a l IH]; simpl; intro H; [discriminate|].
  destruct (p a) eqn:Ha.
  - simpl in H. destruct (IH H) as (l1 & b & l2 & -> & H1 & Hb & E).
    exists (a :: l1), b, l2. simpl. rewrite Ha.
    split; [reflexivity|]. split; [assumption|]. split; [assumption|].
    unfold bind. simpl. exact E.
  - exists [], a, l.
    split; [reflexivity|]. split; [reflexivity|]. split; [assumption|].
    simpl. unfold bind. reflexivity.
Qed.

(** The block run on a list of floats. *)
Lemma check_quantlist_done (l : list float64) (s : state) :
  Forall strictly_in_unit l -> canonical_present l ->
  check_quantlist (VList l) s = Done tt s.
Proof.
  intros Hr Hc. apply range_check_iff in Hr. apply necessary_vals_iff in Hc.
  unfold check_quantlist, bind. rewrite Hr. simpl when.
  change (ret tt s) with (Done tt s). cbv beta iota.
  now apply (for_each_checks_pass (fun c => float_in c l)).
Qed.

Lemma check_quantlist_halts (l : list float64) (s : state) :
  ~ (Forall strictly_in_unit l /\ canonical_present l) ->
  exists m, check_quantlist (VList l) s = Halted m (shows m s)
            /\ (m = QuantlistOutOfRange l
                \/ exists c, In c necessary_vals /\ m = QuantlistMissing c l).
Proof.
  intros Hn. unfold check_quantlist, bind.
  destruct (forallb (fun v => f_lt (Fin 0) v) l
            && forallb (fun v => f_lt v (Fin 1)) l) eqn:Hr.
  - simpl when. change (ret tt s) with (Done tt s). cbv beta iota.
    destruct (forallb (fun c => float_in c l) necessary_vals) eqn:Hc.
    + exfalso. apply Hn. split.
      * now apply range_check_iff.
      * now apply necessary_vals_iff.
    + destruct (for_each_checks_fail (fun c => float_in c l)
                  (fun c => QuantlistMissing c l) necessary_vals s Hc)
        as (l1 & c & l2 & El & _ & _ & E).
      exists (QuantlistMissing c l). split; [exact E|]. right. exists c.
      split; [|reflexivity]. rewrite El. apply in_elt.
  - exists (QuantlistOutOfRange l). split; [reflexivity|now left].
Qed.

(* ================================================================== *)
(** ** The updates of the parameter dictionary *)

Lemma Forall2_refl_on {A} (R : A -> A -> Prop) (l : list A) :
  (forall a, R a a) -> Forall2 R l l.
Proof. intro H. induction l; constructor; auto. Qed.

Lemma Forall2_trans_on {A} (R : A -> A -> Prop) :
  (forall a b c, R a b -> R b c -> R a c) ->
  forall l1 l2 l3, Forall2 R l1 l2 -> Forall2 R l2 l3 -> Forall2 R l1 l3.
Proof.
  intros HR l1 l2 l3 H12. revert l3.
  induction H12; intros l3 H23; inversion H23; subst; constructor; eauto.
Qed.

Lemma regspec_updated_refl (p : string * regspec) : regspec_updated p p.
Proof. repeat split. now left. Qed.

Lemma regspec_updated_trans (p1 p2 p3 : string * regspec) :
  regspec_updated p1 p2 -> regspec_updated p2 p3 -> regspec_updated p1 p3.
Proof.
  intros (K12 & T12 & O12) (K23 & T23 & O23).
  split; [congruence|]. split; [congruence|].
  destruct O12 as [E12|(Hin & q & E1 & E2)];
    destruct O23 as [E23|(Hin' & q' & E2' & E3)].
  - left. congruence.
  - right. rewrite T12 in Hin'. split; [assumption|]. exists q'.
    split; congruence.
  - right. split; [assumption|]. exists q. split; congruence.
  - congruence.
Qed.

Lemma entry_updated_refl (p : string * value) : entry_updated p p.
Proof. split; [reflexivity|now left]. Qed.

Lemma entry_updated_trans (p1 p2 p3 : string * value) :
  entry_updated p1 p2 -> entry_updated p2 p3 -> entry_updated p1 p3.
Proof.
  intros (K12 & V12) (K23 & V23). split; [congruence|].
  rewrite K12 in V23.
  destruct V12 as [E|[(n & E1 & Hd & E2)|(r & r' & Hk & E1 & E2 & HF)]].
  - rewrite E in V23. exact V23.
  - destruct V23 as [E|[(n' & E1' & _)|(r & r' & _ & E1' & _)]];
      try congruence.
    right; left. exists n. rewrite E. auto.
  - destruct V23 as [E|[(n' & E1' & _)|(r2 & r3 & _ & E2' & E3 & HF')]];
      try congruence.
    + right; right. exists r, r'. rewrite E. auto.
    + right; right. exists r, r3. repeat split; auto.
      assert (r2 = r') by congruence. subst r2.
      exact (Forall2_trans_on _ regspec_updated_trans _ _ _ HF HF').
Qed.

Lemma params_updated_refl (d : pydict) : params_updated d d.
Proof. apply Forall2_refl_on, entry_updated_refl. Qed.

Lemma params_updated_trans (d1 d2 d3 : pydict) :
  params_updated d1 d2 -> params_updated d2 d3 -> params_updated d1 d3.
Proof. apply Forall2_trans_on, entry_updated_trans. Qed.

(** Storing under a key that is there changes the first entry of that key
    and nothing else. *)
Lemma dict_set_Forall2 {V} (R : string * V -> string * V -> Prop)
      (k : string) (v v' : V) (d : list (string * V)) :
  (forall p, R p p) ->
  dict_get k d = Some v ->
  R (k, v) (k, v') ->
  Forall2 R d (dict_set k v' d).
Proof.
  intros Hrefl Hget HR. induction d as [|[k0 v0] d IH]; simpl in *.
  - discriminate.
  - destruct (String.eqb k k0) eqn:E.
    + apply String.eqb_eq in E. subst k0. injection Hget as ->.
      constructor; [exact HR|]. now apply Forall2_refl_on.
    + constructor; auto.
Qed.

(** Updated dictionaries have the same keys and, key by key, updated
    values. *)
Lemma params_updated_get (d d' : pydict) (k : string) :
  params_updated d d' ->
  match dict_get k d, dict_get k d' with
  | Some v, Some v' => value_updated k v v'
  | None, None => True
  | _, _ => False
  end.
Proof.
  induction 1 as [|[k0 v0] [k0' v0'] d d' [Hk Hv] HF IH]; simpl in *.
  - exact I.
  - subst k0'. destruct (String.eqb k k0) eqn:E; [|exact IH].
    apply String.eqb_eq in E. now subst k0.
Qed.

Lemma regdict_updated_get (r r' : regdict) (k : string) :
  Forall2 regspec_updated r r' ->
  match dict_get k r, dict_get k r' with
  | Some e, Some e' => transform e' = transform e /\ option_updated e e'
  | None, None => True
  | _, _ => False
  end.
Proof.
  induction 1 as [|[k0 v0] [k0' v0'] d d' (Hk & Ht & Ho) HF IH]; simpl in *.
  - exact I.
  - subst k0'. destruct (String.eqb k k0) eqn:E; [|exact IH]. auto.
Qed.

Lemma regdict_updated_keys (r r' : regdict) :
  Forall2 regspec_updated r r' -> dict_keys r' = dict_keys r.
Proof.
  unfold dict_keys. induction 1 as [|p p' r r' (Hk & _) _ IH]; simpl;
    congruence.
Qed.

Lemma params_updated_keys (d d' : pydict) :
  params_updated d d' -> dict_keys d' = dict_keys d.
Proof.
  unfold dict_keys. induction 1 as [|p p' r r' (Hk & _) _ IH]; simpl;
    congruence.
Qed.

(** The quantile list is never touched. *)
Lemma params_updated_quantlist (d d' : pydict) (k : string)
      (l : list float64) :
  params_updated d d' -> dict_get k d = Some (VList l) ->
  dict_get k d' = Some (VList l).
Proof.
  intros H Hget. pose proof (params_updated_get d d' k H) as G.
  rewrite Hget in G. destruct (dict_get k d') as [v'|]; [|contradiction].
  destruct G as [E|[(n & E & _)|(r & r' & _ & E & _)]]; congruence.
Qed.

(* ================================================================== *)
(** ** The steps of the validator *)

Lemma getitem_found (key : string) (v : value) (s : state) :
  dict_get key (params s) = Some v -> getitem key s = Done v s.
Proof. intro H. unfold getitem, bind, get_params. now rewrite H. Qed.

Lemma getitem_missing (key : string) (s : state) :
  dict_get key (params s) = None -> getitem key s = Raised (KeyError key) s.
Proof. intro H. unfold getitem, bind, get_params. now rewrite H. Qed.

Lemma option_transform_valid (t : string) :
  str_in t option_transforms = true ->
  str_in t valid_transforms = true /\ str_in t ["None"] = false.
Proof.
  unfold str_in at 1. rewrite existsb_exists. intros (u & Hu & E).
  apply String.eqb_eq in E. subst u.
  simpl in Hu. decompose [or] Hu; subst; try contradiction; split;
    reflexivity.
Qed.

Lemma valid_transform_cases (t : string) :
  str_in t valid_transforms = true ->
  t = "None" \/ str_in t option_transforms = true.
Proof.
  unfold str_in at 1. rewrite existsb_exists. intros (u & Hu & E).
  apply String.eqb_eq in E. subst u.
  simpl in Hu. decompose [or] Hu; subst; try contradiction; auto.
Qed.

Lemma str_in_In (x : string) (l : list string) :
  str_in x l = true <-> In x l.
Proof.
  unfold str_in. rewrite existsb_exists. split.
  - intros (u & Hu & E). apply String.eqb_eq in E. now subst.
  - intro H. exists x. split; [assumption|apply String.eqb_refl].
Qed.

(** The validator accepts the float [q] when its distance to its integer
    part is at most the tolerance. *)
Lemma not_intlike_float (q : Q) (s : state) :
  not_intlike (PyFloat (Fin q)) s
  = Done (Qltb lit_1E_5 (Qabs (inject_Z (Qtrunc q) - q))) s.
Proof. reflexivity. Qed.

Section OneRegressor.
Variables (regressor : string) (e : regspec) (r : regdict) (s : state).
Hypothesis Hregs : dict_get "regressors" (params s) = Some (VDict r).
Hypothesis Hentry : dict_get regressor r = Some e.

Lemma get_regressor_found : get_regressor regressor s = Done e s.
Proof.
  unfold get_regressor, bind. rewrite (getitem_found _ _ _ Hregs).
  now rewrite Hentry.
Qed.

Lemma set_regressor_option_found (o : pyval) :
  set_regressor_option regressor o s
  = Done tt (mkState
               (dict_set "regressors"
                  (VDict (dict_set regressor (mkRegspec (transform e) o) r))
                  (params s))
               (shown s)).
Proof.
  unfold set_regressor_option, bind. rewrite (getitem_found _ _ _ Hregs).
  rewrite Hentry. reflexivity.
Qed.

Lemma check_regressor_invalid :
  str_in (transform e) valid_transforms = false ->
  check_regressor regressor s
  = Halted (TransformInvalid regressor (transform e))
           (shows (TransformInvalid regressor (transform e)) s).
Proof.
  intro H. unfold check_regressor, bind. rewrite get_regressor_found.
  unfold check_transform. rewrite H. reflexivity.
Qed.

Lemma check_regressor_identity :
  transform e = "None" ->
  check_regressor regressor s
  = match option_ e with
    | PyNone => Done tt s
    | _ => Halted (OptionMustNotBeSet regressor "None")
                  (shows (OptionMustNotBeSet regressor "None") s)
    end.
Proof.
  intro H. unfold check_regressor, bind. rewrite get_regressor_found.
  rewrite H. destruct (option_ e); reflexivity.
Qed.

Lemma check_regressor_not_float :
  str_in (transform e) option_transforms = true ->
  (forall x, option_ e <> PyFloat x) ->
  check_regressor regressor s
  = Halted (OptionMustBeInt regressor (transform e) (option_ e))
           (shows (OptionMustBeInt regressor (transform e) (option_ e)) s).
Proof.
  intros H Hno. destruct (option_transform_valid _ H) as [Hv Hn].
  unfold check_regressor, bind. rewrite get_regressor_found.
  unfold check_transform, check_no_option, check_int_option.
  rewrite Hv, Hn, H. cbv [when negb bind ret].
  destruct (option_ e) as [|x| |]; try reflexivity.
  exfalso. now apply (Hno x).
Qed.

Lemma check_regressor_float (q : Q) :
  str_in (transform e) option_transforms = true ->
  option_ e = PyFloat (Fin q) ->
  check_regressor regressor s
  = if Qltb lit_1E_5 (Qabs (inject_Z (Qtrunc q) - q))
    then Halted (OptionMustBeInt regressor (transform e) (option_ e))
                (shows (OptionMustBeInt regressor (transform e) (option_ e))
                       s)
    else Done tt (mkState
                    (dict_set "regressors"
                       (VDict (dict_set regressor
                                 (mkRegspec (transform e)
                                            (PyInt (Qtrunc q))) r))
                       (params s))
                    (shown s)).
Proof.
  intros H Ho. destruct (option_transform_valid _ H) as [Hv Hn].
  unfold check_regressor, bind. rewrite get_regressor_found.
  unfold check_transform, check_no_option, check_int_option.
  rewrite Hv, Hn, H, Ho. cbv [when negb bind ret not_intlike py_int].
  destruct (Qltb lit_1E_5 (Qabs (inject_Z (Qtrunc q) - q))).
  - reflexivity.
  - apply set_regressor_option_found.
Qed.

Lemma check_regressor_not_finite (x : float64) :
  str_in (transform e) option_transforms = true ->
  option_ e = PyFloat x -> is_finite x = false ->
  check_regressor regressor s
  = Raised (match x with NaN => ValueError | _ => OverflowError end) s.
Proof.
  intros H Ho Hx. destruct (option_transform_valid _ H) as [Hv Hn].
  unfold check_regressor, bind. rewrite get_regressor_found.
  unfold check_transform, check_no_option, check_int_option.
  rewrite Hv, Hn, H, Ho. cbv [when negb bind ret].
  destruct x; try discriminate; reflexivity.
Qed.

(** Whatever the entry, the step leaves the dictionary as it was up to
    the updates of [params_updated]. *)
Lemma check_regressor_frame_found :
  params_updated (params s) (params (final_state (check_regressor regressor s))).
Proof.
  destruct (str_in (transform e) valid_transforms) eqn:Hv.
  - destruct (valid_transform_cases _ Hv) as [Hn|Ho].
    + rewrite (check_regressor_identity Hn).
      destruct (option_ e); apply params_updated_refl.
    + destruct (option_ e) as [|[| |q]| |] eqn:Eo.
      * rewrite (check_regressor_not_float Ho); [apply params_updated_refl|].
        rewrite Eo. discriminate.
      * rewrite (check_regressor_not_finite NaN Ho Eo eq_refl).
        apply params_updated_refl.
      * rewrite (check_regressor_not_finite (Inf negative) Ho Eo eq_refl).
        apply params_updated_refl.
      * rewrite (check_regressor_float q Ho Eo).
        destruct (Qltb lit_1E_5 (Qabs (inject_Z (Qtrunc q) - q)));
          [apply params_updated_refl|].
        simpl. apply (dict_set_Forall2 entry_updated "regressors" (VDict r));
          [apply entry_updated_refl|exact Hregs|].
        split; [reflexivity|]. right; right.
        eexists _, _. repeat split.
        apply (dict_set_Forall2 regspec_updated regressor e);
          [apply regspec_updated_refl|exact Hentry|].
        repeat split. right. split; [exact Ho|]. exists q. auto.
      * rewrite (check_regressor_not_float Ho); [apply params_updated_refl|].
        rewrite Eo. discriminate.
      * rewrite (check_regressor_not_float Ho); [apply params_updated_refl|].
        rewrite Eo. discriminate.
  - rewrite (check_regressor_invalid Hv). apply params_updated_refl.
Qed.
End OneRegressor.

(* ================================================================== *)
(** ** The frame of the validator *)

Lemma frames_bind {A B} (c : M A) (f : A -> M B) (s : state) :
  frames c s ->
  (forall a s', c s = Done a s' -> frames (f a) s') ->
  frames (bind c f) s.
Proof.
  unfold frames, bind. intros Hc Hf. destruct (c s) as [a s'| |] eqn:E;
    simpl in *; try assumption.
  eapply params_updated_trans; [exact Hc|]. now apply Hf.
Qed.

Lemma frames_same_params {A} (c : M A) (s : state) :
  params (final_state (c s)) = params s -> frames c s.
Proof. unfold frames. intros ->. apply params_updated_refl. Qed.

Lemma frames_for_each {A} (body : A -> M unit) (l : list A) :
  (forall a s, frames (body a) s) -> forall s, frames (for_each l body) s.
Proof.
  intros Hb. induction l as [|a l IH]; intro s; simpl.
  - apply frames_same_params. reflexivity.
  - apply frames_bind; auto.
Qed.

Lemma frames_show_message (m : message) (halt : bool) (s : state) :
  frames (show_message m halt) s.
Proof. apply frames_same_params. unfold show_message. now destruct halt. Qed.

Lemma frames_when (b : bool) (c : M unit) (s : state) :
  frames c s -> frames (when b c) s.
Proof.
  destruct b; simpl; [auto|]. intros _. now apply frames_same_params.
Qed.

(** The first loop always runs to its end, showing one message per missing
    key and halting on none. *)
Lemma check_keys_exist_runs (keys : list string) (s : state) :
  check_keys_exist keys s
  = Done tt (mkState (params s) (shown s ++ missing_keys (params s) keys)).
Proof.
  unfold check_keys_exist, missing_keys. revert s.
  induction keys as [|key keys IH]; intros [d sh]; simpl.
  - now rewrite app_nil_r.
  - unfold bind at 1. unfold bind at 1. simpl.
    destruct (dict_mem key d); simpl.
    + apply IH.
    + rewrite IH. simpl. now rewrite <- app_assoc.
Qed.

Lemma check_quantlist_params (val : value) (s : state) :
  params (final_state (check_quantlist val s)) = params s.
Proof.
  destruct val as [| |l|]; try reflexivity.
  unfold check_quantlist, bind.
  destruct (forallb (fun v => f_lt (Fin 0) v) l
            && forallb (fun v => f_lt v (Fin 1)) l); [|reflexivity].
  simpl when. change (ret tt s) with (Done tt s). cbv beta iota.
  destruct (forallb (fun c => float_in c l) necessary_vals) eqn:Hc.
  - now rewrite (for_each_checks_pass (fun c => float_in c l)).
  - destruct (for_each_checks_fail (fun c => float_in c l)
                (fun c => QuantlistMissing c l) necessary_vals s Hc)
      as (l1 & c & l2 & _ & _ & _ & E).
    now rewrite E.
Qed.

Lemma frames_check_regressor (regressor : string) (s : state) :
  frames (check_regressor regressor) s.
Proof.
  destruct (dict_get "regressors" (params s)) as [v|] eqn:Hr.
  - destruct v as [| | |r];
      try (apply frames_same_params; unfold check_regressor, get_regressor,
           bind; rewrite (getitem_found _ _ _ Hr); reflexivity).
    destruct (dict_get regressor r) as [e|] eqn:He.
    + exact (check_regressor_frame_found regressor e r s Hr He).
    + apply frames_same_params. unfold check_regressor, get_regressor, bind.
      rewrite (getitem_found _ _ _ Hr). unfold bind. now rewrite He.
  - apply frames_same_params. unfold check_regressor, get_regressor, bind.
    now rewrite (getitem_missing _ _ Hr).
Qed.

Lemma frames_check_regressors (val : value) (s : state) :
  frames (check_regressors val) s.
Proof.
  destruct val as [|u|l|r]; simpl.
  - now apply frames_same_params.
  - destruct u; now apply frames_same_params.
  - destruct l; now apply frames_same_params.
  - apply frames_for_each. intros. apply frames_check_regressor.
Qed.

Lemma frames_set_default (key name : string) (s : state) :
  dict_get key (params s) = Some VNone ->
  default_sheet key = Some name ->
  frames (setitem key (VStr name)) s.
Proof.
  intros Hg Hd. unfold frames, setitem, bind, get_params, put_params. simpl.
  apply (dict_set_Forall2 entry_updated key VNone);
    [apply entry_updated_refl|exact Hg|].
  split; [reflexivity|]. right; left. exists name. auto.
Qed.

Lemma frames_check_key (sheetnames : list string) (key : string) (s : state) :
  frames (check_key sheetnames key) s.
Proof.
  unfold check_key.
  destruct (dict_get key (params s)) as [val|] eqn:Hg.
  2:{ apply frames_same_params. unfold bind.
      now rewrite (getitem_missing _ _ Hg). }
  apply frames_bind.
  { apply frames_same_params. now rewrite (getitem_found _ _ _ Hg). }
  intros val' s' E. rewrite (getitem_found _ _ _ Hg) in E.
  injection E as <- <-.
  destruct (String.eqb key "quantlist") eqn:Eq.
  { apply String.eqb_eq in Eq. subst key. simpl.
    apply frames_bind.
    - apply frames_same_params, check_quantlist_params.
    - intros. now apply frames_same_params. }
  destruct (String.eqb key "regressors") eqn:Er.
  { apply String.eqb_eq in Er. subst key. simpl.
    apply frames_bind; [now apply frames_same_params|]. intros _ s1 _.
    apply frames_bind; [apply frames_check_regressors|]. intros.
    now apply frames_same_params. }
  simpl when. apply frames_bind; [now apply frames_same_params|].
  intros u1 s1 E1. injection E1 as _ E1. subst s1.
  apply frames_bind; [now apply frames_same_params|].
  intros u2 s2 E2. injection E2 as _ E2. subst s2.
  destruct (String.eqb key "sheet_input") eqn:Es.
  - unfold check_sheet_input. destruct val; try now apply frames_same_params.
    apply frames_bind.
    + apply frames_set_default; [exact Hg|]. unfold default_sheet.
      now rewrite Es.
    + intros. apply frames_when, frames_show_message.
  - apply frames_when. unfold check_sheet_output.
    destruct val; try now apply frames_same_params.
    + destruct (String.eqb key "sheet_quantreg") eqn:E1.
      * apply frames_set_default; [exact Hg|]. unfold default_sheet.
        now rewrite Es, E1.
      * destruct (String.eqb key "sheet_cond_quant") eqn:E2.
        -- apply frames_set_default; [exact Hg|]. unfold default_sheet.
           now rewrite Es, E1, E2.
        -- apply frames_show_message.
    + apply frames_when, frames_show_message.
Qed.

Lemma frames_check_parameters_quantfit (sheetnames keys : list string)
      (s : state) :
  frames (check_parameters_quantfit sheetnames keys) s.
Proof.
  unfold check_parameters_quantfit. apply frames_bind.
  - apply frames_same_params. now rewrite check_keys_exist_runs.
  - intros. apply frames_for_each. intros. apply frames_check_key.
Qed.

(* ================================================================== *)
(** ** Runs of the validator *)

(** In a loop that ran to its end, every element was processed to its end,
    from a state whose dictionary is an update of the initial one. *)
Lemma for_each_done {A} (body : A -> M unit) (l : list A) :
  (forall a s, frames (body a) s) ->
  forall s s', for_each l body s = Done tt s' ->
  forall a, In a l ->
  exists s1 s2, params_updated (params s) (params s1)
                /\ body a s1 = Done tt s2.
Proof.
  intros Hb. induction l as [|b l IH]; intros s s' E a Ha; [contradiction|].
  simpl in E. unfold bind in E.
  destruct (body b s) as [[] s1| |] eqn:Eb; try discriminate.
  destruct Ha as [->|Ha].
  - exists s, s1. split; [apply params_updated_refl|exact Eb].
  - destruct (IH _ _ E a Ha) as (s2 & s3 & Hu & E2).
    exists s2, s3. split; [|exact E2].
    eapply params_updated_trans; [|exact Hu].
    pose proof (Hb b s) as F. unfold frames in F. now rewrite Eb in F.
Qed.

Lemma dict_get_keys {V} (k : string) (v : V) (d : list (string * V)) :
  dict_get k d = Some v -> In k (dict_keys d).
Proof.
  induction d as [|[k0 v0] d IH]; simpl; [discriminate|].
  destruct (String.eqb k k0) eqn:E; [|auto].
  apply String.eqb_eq in E. auto.
Qed.

Lemma check_quantlist_done_valid (l : list float64) (s s' : state) :
  check_quantlist (VList l) s = Done tt s' -> valid_quantlist l.
Proof.
  unfold check_quantlist, bind.
  destruct (forallb (fun v => f_lt (Fin 0) v) l
            && forallb (fun v => f_lt v (Fin 1)) l) eqn:Hr;
    [|discriminate].
  simpl when. change (ret tt s) with (Done tt s). cbv beta iota.
  destruct (forallb (fun c => float_in c l) necessary_vals) eqn:Hc.
  - intros _. split; [now apply range_check_iff|now apply necessary_vals_iff].
  - destruct (for_each_checks_fail (fun c => float_in c l)
                (fun c => QuantlistMissing c l) necessary_vals s Hc)
      as (l1 & c & l2 & _ & _ & _ & E).
    rewrite E. discriminate.
Qed.

Lemma for_each_one {A} (body : A -> M unit) (a : A) (s : state) :
  for_each [a] body s = body a s.
Proof.
  simpl. unfold bind. destruct (body a s) as [[] ?|?|?]; reflexivity.
Qed.

Lemma missing_keys_found (d : pydict) (key : string) (v : value) :
  dict_get key d = Some v -> missing_keys d [key] = [].
Proof.
  intro H. unfold missing_keys, dict_mem. simpl. now rewrite H.
Qed.

(** The validator called for one key that is found. *)
Lemma validate_one_key (sheetnames : list string) (d : pydict)
      (key : string) (v : value) :
  dict_get key d = Some v ->
  validate sheetnames d [key] = check_key sheetnames key (mkState d []).
Proof.
  intro H. unfold validate, check_parameters_quantfit, bind.
  rewrite check_keys_exist_runs. cbn [params shown].
  rewrite (missing_keys_found _ _ _ H). cbn [app].
  apply for_each_one.
Qed.

(** The validator called for the quantile list alone. *)
Lemma validate_quantlist (sheetnames : list string) (d : pydict)
      (l : list float64) :
  dict_get "quantlist" d = Some (VList l) ->
  validate sheetnames d ["quantlist"]
  = check_quantlist (VList l) (mkState d []).
Proof.
  intro H. rewrite (validate_one_key _ _ _ _ H). unfold check_key, bind.
  rewrite (getitem_found "quantlist" (VList l)); [|exact H].
  cbv beta iota. generalize (check_quantlist (VList l)). intro c. simpl.
  destruct (c (mkState d [])) as [[] ?|?|?]; reflexivity.
Qed.

(** The validator called for the regressors alone, when there is one. *)
Lemma validate_one_regressor (sheetnames : list string) (d : pydict)
      (regressor : string) (e : regspec) :
  dict_get "regressors" d = Some (VDict [(regressor, e)]) ->
  validate sheetnames d ["regressors"]
  = check_regressor regressor (mkState d []).
Proof.
  intro H. rewrite (validate_one_key _ _ _ _ H). unfold check_key, bind.
  rewrite (getitem_found "regressors" (VDict [(regressor, e)])); [|exact H].
  cbv beta iota.
  assert (Hc : forall s0, check_regressors (VDict [(regressor, e)]) s0
                          = check_regressor regressor s0)
    by (intro s0; apply (for_each_one check_regressor regressor s0)).
  revert Hc. generalize (check_regressors (VDict [(regressor, e)])).
  intros c Hc. simpl. rewrite Hc.
  destruct (check_regressor regressor (mkState d [])) as [[] ?|?|?];
    reflexivity.
Qed.

(** A run that ends normally has processed every key to its end. *)
Lemma validate_done_key (sheetnames : list string) (d : pydict)
      (keys : list string) (s' : state) (key : string) :
  validate sheetnames d keys = Done tt s' -> In key keys ->
  exists s1 s2, params_updated d (params s1)
                /\ check_key sheetnames key s1 = Done tt s2.
Proof.
  unfold validate, check_parameters_quantfit, bind.
  rewrite check_keys_exist_runs. intros E Hin.
  destruct (for_each_done (check_key sheetnames) keys
              (frames_check_key sheetnames) _ _ E key Hin)
    as (s1 & s2 & Hu & E1).
  exists s1, s2. split; [exact Hu|exact E1].
Qed.

Lemma validate_done_quantlist (sheetnames : list string) (d : pydict)
      (keys : list string) (s' : state) (l : list float64) :
  validate sheetnames d keys = Done tt s' -> In "quantlist" keys ->
  dict_get "quantlist" d = Some (VList l) ->
  valid_quantlist l.
Proof.
  intros E Hin Hg.
  destruct (validate_done_key _ _ _ _ _ E Hin) as (s1 & s2 & Hu & E1).
  pose proof (params_updated_quantlist _ _ _ _ Hu Hg) as Hg1.
  unfold check_key, bind in E1. rewrite (getitem_found _ _ _ Hg1) in E1.
  cbv beta iota in E1.
  revert E1. generalize (check_quantlist_done_valid l s1).
  generalize (check_quantlist (VList l)). intros c Hc. simpl.
  destruct (c s1) as [[] s3| |] eqn:Eq; try discriminate. intros _.
  exact (Hc _ eq_refl).
Qed.

Lemma validate_done_regressor (sheetnames : list string) (d : pydict)
      (keys : list string) (s' : state) (r : regdict) (regressor : string)
      (e : regspec) :
  validate sheetnames d keys = Done tt s' -> In "regressors" keys ->
  dict_get "regressors" d = Some (VDict r) ->
  dict_get regressor r = Some e ->
  exists r1 e1 s1 s2,
    dict_get "regressors" (params s1) = Some (VDict r1)
    /\ dict_get regressor r1 = Some e1
    /\ transform e1 = transform e /\ option_updated e e1
    /\ check_regressor regressor s1 = Done tt s2.
Proof.
  intros E Hin Hg He.
  destruct (validate_done_key _ _ _ _ _ E Hin) as (s1 & s2 & Hu & E1).
  assert (Hreg : forall d1, params_updated d d1 ->
            exists r1 e1, dict_get "regressors" d1 = Some (VDict r1)
                          /\ dict_get regressor r1 = Some e1
                          /\ transform e1 = transform e
                          /\ option_updated e e1).
  { intros d1 Hu1. pose proof (params_updated_get d d1 "regressors" Hu1) as G.
    rewrite Hg in G. destruct (dict_get "regressors" d1) as [v1|];
      [|contradiction].
    destruct G as [->|[(n & E0 & _)|(r0 & r1 & _ & E0 & -> & HF)]];
      try discriminate.
    - exists r, e. repeat split; auto. now left.
    - injection E0 as <-. exists r1.
      pose proof (regdict_updated_get r r1 regressor HF) as G.
      rewrite He in G. destruct (dict_get regressor r1) as [e1|];
        [|contradiction].
      exists e1. tauto. }
  destruct (Hreg _ Hu) as (r1 & e1 & Hg1 & He1 & _).
  unfold check_key, bind in E1. rewrite (getitem_found _ _ _ Hg1) in E1.
  assert (Ef : exists s3, for_each (dict_keys r1) check_regressor s1
                          = Done tt s3).
  { cbv beta iota in E1. revert E1. unfold check_regressors.
    generalize (for_each (dict_keys r1) check_regressor). intro c. simpl.
    destruct (c s1) as [[] s3| |]; try discriminate. intros _. now exists s3. }
  destruct Ef as (s3 & Ef).
  destruct (for_each_done check_regressor (dict_keys r1)
              frames_check_regressor _ _ Ef regressor
              (dict_get_keys _ _ _ He1))
    as (sa & sb & Hua & Ea).
  destruct (Hreg (params sa)) as (ra & ea & Hga & Hea & Hta & Hoa).
  { eapply params_updated_trans; eassumption. }
  exists ra, ea, sa, sb. auto.
Qed.

(* ================================================================== *)
(** ** The quantile list (C1, C10) *)

(** C1. For every quantile list stored in the configuration, validation of
    the quantile list ends normally if and only if every quantile lies
    strictly between 0 and 1 and the five levels 0.10, 0.25, 0.50, 0.75 and
    0.90 all occur in it; a list that violates this halts the validator with
    a message (a fatal configuration error), and no run over keys that
    include the quantile list ends normally on such a list. *)
Theorem quantlist_validation (sheetnames : list string) (d : pydict)
        (l : list float64) :
  dict_get "quantlist" d = Some (VList l) ->
  ((exists s', validate sheetnames d ["quantlist"] = Done tt s')
   <-> valid_quantlist l)
  /\ (~ valid_quantlist l ->
      exists m, validate sheetnames d ["quantlist"]
                = Halted m (mkState d [m]))
  /\ (forall keys s',
        In "quantlist" keys -> validate sheetnames d keys = Done tt s' ->
        valid_quantlist l).
Proof.
  intro H. rewrite (validate_quantlist _ _ _ H).
  split; [split|split].
  - intros (s' & E). exact (check_quantlist_done_valid _ _ _ E).
  - intros (Hr & Hc). exists (mkState d []).
    now apply check_quantlist_done.
  - intro Hn. destruct (check_quantlist_halts l (mkState d []) Hn)
      as (m & E & _).
    exists m. exact E.
  - intros keys s' Hin E. exact (validate_done_quantlist _ _ _ _ _ E Hin H).
Qed.

Lemma quantlist_validation_witness :
  dict_get "quantlist" [("quantlist", VList quantlist_without_090)]
  = Some (VList quantlist_without_090)
  /\ ((exists s', validate [] [("quantlist", VList quantlist_without_090)]
                           ["quantlist"] = Done tt s')
      <-> valid_quantlist quantlist_without_090)
  /\ (~ valid_quantlist quantlist_without_090 ->
      exists m, validate [] [("quantlist", VList quantlist_without_090)]
                         ["quantlist"]
                = Halted m (mkState [("quantlist",
                                      VList quantlist_without_090)] [m]))
  /\ (forall keys s',
        In "quantlist" keys ->
        validate [] [("quantlist", VList quantlist_without_090)] keys
        = Done tt s' ->
        valid_quantlist quantlist_without_090).
Proof.
  split; [reflexivity|].
  apply (quantlist_validation [] [("quantlist", VList quantlist_without_090)]
           quantlist_without_090).
  reflexivity.
Defined.

(** The list without 0.90 is halted on, with the message for 0.90. *)
Example quantlist_without_090_halts :
  validate [] [("quantlist", VList quantlist_without_090)] ["quantlist"]
  = Halted (QuantlistMissing (Fin lit_0_90) quantlist_without_090)
           (mkState [("quantlist", VList quantlist_without_090)]
                    [QuantlistMissing (Fin lit_0_90) quantlist_without_090]).
Proof. reflexivity. Qed.

(** The five levels alone pass. *)
Example necessary_vals_pass :
  validate [] [("quantlist", VList necessary_vals)] ["quantlist"]
  = Done tt (mkState [("quantlist", VList necessary_vals)] []).
Proof. reflexivity. Qed.

(** C10. The five levels are looked for by exact equality: a quantile list
    whose entries all lie strictly between 0 and 1 but in which one of the
    levels has no entry equal to it, however close the entries come, halts
    the validator with the message for a level that has no equal. *)
Theorem canonical_levels_exact (sheetnames : list string) (d : pydict)
        (l : list float64) :
  dict_get "quantlist" d = Some (VList l) ->
  Forall strictly_in_unit l ->
  ~ canonical_present l ->
  exists c,
    In (Fin c) necessary_vals
    /\ (forall q, In (Fin q) l -> ~ q == c)
    /\ validate sheetnames d ["quantlist"]
       = Halted (QuantlistMissing (Fin c) l)
                (mkState d [QuantlistMissing (Fin c) l]).
Proof.
  intros H Hr Hn. rewrite (validate_quantlist _ _ _ H).
  apply range_check_iff in Hr. unfold check_quantlist, bind. rewrite Hr.
  simpl when. change (ret tt (mkState d [])) with (Done tt (mkState d [])).
  cbv beta iota.
  destruct (forallb (fun c => float_in c l) necessary_vals) eqn:Hc.
  { exfalso. apply Hn. now apply necessary_vals_iff. }
  destruct (for_each_checks_fail (fun c => float_in c l)
              (fun c => QuantlistMissing c l) necessary_vals
              (mkState d []) Hc)
    as (l1 & c & l2 & El & _ & Hf & E).
  assert (Hin : In c necessary_vals) by (rewrite El; apply in_elt).
  assert (exists q, c = Fin q) as (q & ->).
  { simpl in Hin. decompose [or] Hin; subst; try contradiction; eauto. }
  exists q. split; [exact Hin|]. split; [|exact E].
  intros q' Hq' Heq.
  assert (float_in (Fin q) l = true)
    by (apply float_in_iff; exists q'; auto).
  congruence.
Qed.

Lemma near_090_in_unit : Forall strictly_in_unit quantlist_near_090.
Proof. apply range_check_iff. reflexivity. Qed.

Lemma near_090_not_canonical : ~ canonical_present quantlist_near_090.
Proof. intro H. apply necessary_vals_iff in H. discriminate H. Qed.

Lemma canonical_levels_exact_witness :
  Qabs (lit_0_9000001 - lit_0_90) < 2 # 10000000
  /\ exists c,
      In (Fin c) necessary_vals
      /\ (forall q, In (Fin q) quantlist_near_090 -> ~ q == c)
      /\ validate [] [("quantlist", VList quantlist_near_090)] ["quantlist"]
         = Halted (QuantlistMissing (Fin c) quantlist_near_090)
                  (mkState [("quantlist", VList quantlist_near_090)]
                           [QuantlistMissing (Fin c) quantlist_near_090]).
Proof.
  split; [reflexivity|].
  apply (canonical_levels_exact [] [("quantlist", VList quantlist_near_090)]
           quantlist_near_090 eq_refl near_090_in_unit
           near_090_not_canonical).
Defined.

(** With 0.9000001 in the place of 0.90 the message is the one for 0.90. *)
Example quantlist_near_090_halts :
  validate [] [("quantlist", VList quantlist_near_090)] ["quantlist"]
  = Halted (QuantlistMissing (Fin lit_0_90) quantlist_near_090)
           (mkState [("quantlist", VList quantlist_near_090)]
                    [QuantlistMissing (Fin lit_0_90) quantlist_near_090]).
Proof. reflexivity. Qed.

(* ================================================================== *)
(** ** Missing keys (C9) and the caller's dictionary (C4) *)

Lemma params_updated_missing (d d' : pydict) (key : string) :
  params_updated d d' -> dict_get key d = None -> dict_get key d' = None.
Proof.
  intros H Hg. pose proof (params_updated_get d d' key H) as G.
  rewrite Hg in G. now destruct (dict_get key d').
Qed.




(** Without its quantile list the sample makes the validator show the
    message and then fail with KeyError. *)
Example sample_without_quantlist_raises :
  validate [] sample_without_quantlist quantfit_keys
  = Raised (KeyError "quantlist")
           (mkState sample_without_quantlist [KeyNotFound "quantlist"]).
Proof. reflexivity. Qed.

(** C4 as stated fails: the validated sample is not the sample. *)
Lemma validation_updates_record :
  validate [] sample_params quantfit_keys
  = Done tt (mkState sample_params_validated [])
  /\ sample_params_validated <> sample_params.
Proof. split; [reflexivity|discriminate]. Qed.

(** C4, amended.  However a run of the validator ends, the caller's
    dictionary has the same keys in the same order, and every value is the
    one passed in, except that a sheet name left unspecified has become its
    default, and that the float option of a regressor whose transform takes
    an option has become its integer part. *)
Theorem validation_frame (sheetnames : list string) (d : pydict)
        (keys : list string) :
  params_updated d (params (final_state (validate sheetnames d keys))).
Proof.
  exact (frames_check_parameters_quantfit sheetnames keys (mkState d [])).
Qed.

(* ================================================================== *)
(** ** The transform kind (C6) *)

(** C6. For every regressor of the dictionary, the check of its transform
    passes if and only if the transform is one of 'None', 'Lagged', 'MVA',
    'Power', 'Diff' and 'ChangeRate'; on any other transform the check halts
    with a message, and no run of the validator over keys that include the
    regressors ends normally. *)
Theorem transform_kind_checked (sheetnames : list string) (d : pydict)
        (keys : list string) (r : regdict) (regressor : string)
        (e : regspec) :
  dict_get "regressors" d = Some (VDict r) ->
  dict_get regressor r = Some e ->
  In "regressors" keys ->
  (forall s, check_transform regressor (transform e) s = Done tt s
             <-> In (transform e) valid_transforms)
  /\ (~ In (transform e) valid_transforms ->
      (forall s, check_transform regressor (transform e) s
                 = Halted (TransformInvalid regressor (transform e))
                          (shows (TransformInvalid regressor (transform e)) s))
      /\ forall s', validate sheetnames d keys <> Done tt s').
Proof.
  intros Hg He Hin. split.
  - intro s. rewrite <- str_in_In. unfold check_transform.
    destruct (str_in (transform e) valid_transforms); simpl.
    + split; reflexivity.
    + split; discriminate.
  - intro Hn. rewrite <- str_in_In in Hn.
    apply not_true_is_false in Hn. split.
    + intro s. unfold check_transform. now rewrite Hn.
    + intros s' E.
      destruct (validate_done_regressor _ _ _ _ _ _ _ E Hin Hg He)
        as (r1 & e1 & s1 & s2 & Hg1 & He1 & Ht & _ & E1).
      rewrite <- Ht in Hn.
      rewrite (check_regressor_invalid _ _ _ _ Hg1 He1 Hn) in E1.
      discriminate.
Qed.

Lemma transform_kind_checked_witness :
  dict_get "regressors" (one_regressor "gdp_trans_0_Log" "Log" PyNone)
  = Some (VDict [("gdp_trans_0_Log", mkRegspec "Log" PyNone)])
  /\ dict_get "gdp_trans_0_Log" [("gdp_trans_0_Log", mkRegspec "Log" PyNone)]
     = Some (mkRegspec "Log" PyNone)
  /\ In "regressors" ["regressors"]
  /\ (forall s, check_transform "gdp_trans_0_Log" "Log" s = Done tt s
                <-> In "Log" valid_transforms)
  /\ (~ In "Log" valid_transforms ->
      (forall s, check_transform "gdp_trans_0_Log" "Log" s
                 = Halted (TransformInvalid "gdp_trans_0_Log" "Log")
                          (shows (TransformInvalid "gdp_trans_0_Log" "Log") s))
      /\ forall s', validate [] (one_regressor "gdp_trans_0_Log" "Log" PyNone)
                             ["regressors"] <> Done tt s').
Proof.
  split; [reflexivity|]. split; [reflexivity|]. split; [simpl; auto|].
  apply (transform_kind_checked [] (one_regressor "gdp_trans_0_Log" "Log" PyNone)
           ["regressors"] [("gdp_trans_0_Log", mkRegspec "Log" PyNone)]
           "gdp_trans_0_Log" (mkRegspec "Log" PyNone));
    [reflexivity|reflexivity|simpl; auto].
Defined.

(** A transform outside the six halts the validator. *)
Example log_transform_halts :
  validate [] (one_regressor "gdp_trans_0_Log" "Log" PyNone) ["regressors"]
  = Halted (TransformInvalid "gdp_trans_0_Log" "Log")
           (mkState (one_regressor "gdp_trans_0_Log" "Log" PyNone)
                    [TransformInvalid "gdp_trans_0_Log" "Log"]).
Proof. reflexivity. Qed.

(* ================================================================== *)
(** ** The option of a transform (C2) *)

Lemma Qtrunc_floor (n : Z) (q : Q) :
  (0 <= n)%Z -> inject_Z n <= q -> q < inject_Z (n + 1) -> Qtrunc q = n.
Proof.
  destruct q as [a b]. unfold Qtrunc, Qle, Qlt. simpl. intros Hn H1 H2.
  rewrite Z.quot_div_nonneg by nia.
  symmetry. apply Z.div_unique with (r := (a - n * Zpos b)%Z); nia.
Qed.

Lemma Qtrunc_ceiling (n : Z) (q : Q) :
  (n <= 0)%Z -> inject_Z (n - 1) < q -> q <= inject_Z n -> Qtrunc q = n.
Proof.
  destruct q as [a b]. unfold Qtrunc, Qle, Qlt. simpl. intros Hn H1 H2.
  rewrite <- (Z.opp_involutive a) at 1.
  rewrite Z.quot_opp_l by discriminate.
  rewrite Z.quot_div_nonneg by nia.
  assert (E : (- a / Zpos b = - n)%Z).
  { symmetry. apply Z.div_unique with (r := (n * Zpos b - a)%Z); nia. }
  rewrite E. apply Z.opp_involutive.
Qed.

Lemma lit_1E_5_small : 0 < lit_1E_5 /\ lit_1E_5 < 1.
Proof. split; reflexivity. Qed.

Lemma just_beyond_Qtrunc (n : Z) (q : Q) : just_beyond n q -> Qtrunc q = n.
Proof.
  destruct lit_1E_5_small as [T0 T1].
  intros [(H0 & H1 & H2)|(H0 & H1 & H2)].
  - apply Qtrunc_floor; [|exact H1|].
    + unfold Qle in H0. simpl in H0. lia.
    + rewrite inject_Z_plus. change (inject_Z 1) with 1. lra.
  - apply Qtrunc_ceiling; [| |exact H2].
    + unfold Qle in H0. simpl in H0. lia.
    + unfold Z.sub. rewrite inject_Z_plus. change (inject_Z (Z.opp 1)) with (Qopp 1).
      lra.
Qed.

Lemma just_beyond_accepted (n : Z) (q : Q) :
  just_beyond n q ->
  Qltb lit_1E_5 (Qabs (inject_Z (Qtrunc q) - q)) = false.
Proof.
  intro H. rewrite (just_beyond_Qtrunc n q H). apply Qltb_ge.
  apply Qabs_Qle_condition.
  destruct H as [(H0 & H1 & H2)|(H0 & H1 & H2)]; split; lra.
Qed.

Lemma far_from_integers_rejected (q : Q) :
  far_from_integers q ->
  Qltb lit_1E_5 (Qabs (inject_Z (Qtrunc q) - q)) = true.
Proof.
  intro H. apply Qltb_lt. rewrite Qabs_Qminus. apply H.
Qed.

(** 2.5 is farther than the tolerance from every integer. *)
Lemma far_from_integers_2_5 : far_from_integers (5 # 2).
Proof.
  intro n. apply Qlt_le_trans with (1 # 2); [reflexivity|].
  destruct (Z_le_gt_dec n 2) as [Hle|Hgt].
  - apply Qle_trans with ((5 # 2) - inject_Z n); [|apply Qle_Qabs].
    assert (H : inject_Z n <= inject_Z 2) by (rewrite <- Zle_Qle; exact Hle).
    change (inject_Z 2) with 2 in H. lra.
  - rewrite Qabs_Qminus.
    apply Qle_trans with (inject_Z n - (5 # 2)); [|apply Qle_Qabs].
    assert (H : inject_Z 3 <= inject_Z n) by (rewrite <- Zle_Qle; lia).
    change (inject_Z 3) with 3 in H. lra.
Qed.

(** C2 as stated fails: an option that is the integer 2, and the float
    2.999999, which is within the tolerance of 3, are both halted on. *)
Lemma integer_like_options_rejected :
  validate [] (one_regressor "gdp_trans_0_Lagged" "Lagged" (PyInt 2))
           ["regressors"]
  = Halted (OptionMustBeInt "gdp_trans_0_Lagged" "Lagged" (PyInt 2))
           (mkState (one_regressor "gdp_trans_0_Lagged" "Lagged" (PyInt 2))
                    [OptionMustBeInt "gdp_trans_0_Lagged" "Lagged" (PyInt 2)])
  /\ within_tolerance 3 lit_2_999999
  /\ validate [] (one_regressor "gdp_trans_0_Lagged" "Lagged"
                                (PyFloat (Fin lit_2_999999)))
              ["regressors"]
     = Halted (OptionMustBeInt "gdp_trans_0_Lagged" "Lagged"
                               (PyFloat (Fin lit_2_999999)))
              (mkState (one_regressor "gdp_trans_0_Lagged" "Lagged"
                                      (PyFloat (Fin lit_2_999999)))
                       [OptionMustBeInt "gdp_trans_0_Lagged" "Lagged"
                                        (PyFloat (Fin lit_2_999999))]).
Proof.
  split; [reflexivity|]. split; [|reflexivity].
  unfold within_tolerance. apply Qle_bool_iff. reflexivity.
Qed.

(** C2, amended.  For every regressor of the dictionary, at the step that
    checks it: the transform 'None' passes exactly when the option is
    [None], and halts the validator otherwise.  For each of the five other
    transforms, a float option that lies at an integer [n], or beyond it on
    the side away from zero by at most the tolerance 1E-5, passes and is
    replaced in the dictionary by the int [n]; a float option farther than
    the tolerance from every integer halts the validator, and so does an
    option that is not a float. *)
Theorem option_rule (s : state) (r : regdict) (regressor : string)
        (e : regspec) :
  dict_get "regressors" (params s) = Some (VDict r) ->
  dict_get regressor r = Some e ->
  (transform e = "None" ->
   (check_regressor regressor s = Done tt s <-> option_ e = PyNone)
   /\ (option_ e <> PyNone ->
       check_regressor regressor s
       = Halted (OptionMustNotBeSet regressor "None")
                (shows (OptionMustNotBeSet regressor "None") s)))
  /\ (In (transform e) option_transforms ->
      (forall n q,
          option_ e = PyFloat (Fin q) -> just_beyond n q ->
          check_regressor regressor s
          = Done tt (mkState
                       (dict_set "regressors"
                          (VDict (dict_set regressor
                                    (mkRegspec (transform e) (PyInt n)) r))
                          (params s))
                       (shown s)))
      /\ (forall q,
             option_ e = PyFloat (Fin q) -> far_from_integers q ->
             check_regressor regressor s
             = Halted (OptionMustBeInt regressor (transform e) (option_ e))
                      (shows (OptionMustBeInt regressor (transform e)
                                              (option_ e)) s))
      /\ ((forall x, option_ e <> PyFloat x) ->
          check_regressor regressor s
          = Halted (OptionMustBeInt regressor (transform e) (option_ e))
                   (shows (OptionMustBeInt regressor (transform e)
                                           (option_ e)) s))).
Proof.
  intros Hs He. split.
  - intro Ht. rewrite (check_regressor_identity _ _ _ _ Hs He Ht).
    destruct (option_ e); split; try (split; congruence);
      try (intros _; reflexivity); intro Hn; congruence.
  - intro Hin. apply str_in_In in Hin. split; [|split].
    + intros n q Ho Hb.
      rewrite (check_regressor_float _ _ _ _ Hs He q Hin Ho).
      now rewrite (just_beyond_accepted n q Hb), (just_beyond_Qtrunc n q Hb).
    + intros q Ho Hf.
      rewrite (check_regressor_float _ _ _ _ Hs He q Hin Ho).
      now rewrite (far_from_integers_rejected q Hf).
    + intro Hno.
      now rewrite (check_regressor_not_float _ _ _ _ Hs He Hin Hno).
Qed.

Lemma option_rule_witness :
  dict_get "regressors"
           (one_regressor "gdp_trans_0_Lagged" "Lagged" (PyFloat (Fin (5 # 2))))
  = Some (VDict [("gdp_trans_0_Lagged",
                  mkRegspec "Lagged" (PyFloat (Fin (5 # 2))))])
  /\ dict_get "gdp_trans_0_Lagged"
              [("gdp_trans_0_Lagged",
                mkRegspec "Lagged" (PyFloat (Fin (5 # 2))))]
     = Some (mkRegspec "Lagged" (PyFloat (Fin (5 # 2))))
  /\ In "Lagged" option_transforms
  /\ far_from_integers (5 # 2)
  /\ check_regressor "gdp_trans_0_Lagged"
       (mkState (one_regressor "gdp_trans_0_Lagged" "Lagged"
                               (PyFloat (Fin (5 # 2)))) [])
     = Halted (OptionMustBeInt "gdp_trans_0_Lagged" "Lagged"
                               (PyFloat (Fin (5 # 2))))
              (mkState (one_regressor "gdp_trans_0_Lagged" "Lagged"
                                      (PyFloat (Fin (5 # 2))))
                       [OptionMustBeInt "gdp_trans_0_Lagged" "Lagged"
                                        (PyFloat (Fin (5 # 2)))]).
Proof.
  split; [reflexivity|]. split; [reflexivity|]. split; [simpl; auto|].
  split; [exact far_from_integers_2_5|].
  refine (proj1 (proj2 (proj2 (option_rule
            (mkState (one_regressor "gdp_trans_0_Lagged" "Lagged"
                                    (PyFloat (Fin (5 # 2)))) [])
            [("gdp_trans_0_Lagged",
              mkRegspec "Lagged" (PyFloat (Fin (5 # 2))))]
            "gdp_trans_0_Lagged" (mkRegspec "Lagged" (PyFloat (Fin (5 # 2))))
            eq_refl eq_refl) _)) (5 # 2) eq_refl far_from_integers_2_5).
  simpl; auto.
Defined.

(** The option 2.5 for 'Lagged' halts the validator. *)
Example option_2_5_halts :
  validate [] (one_regressor "gdp_trans_0_Lagged" "Lagged"
                             (PyFloat (Fin (5 # 2))))
           ["regressors"]
  = Halted (OptionMustBeInt "gdp_trans_0_Lagged" "Lagged"
                            (PyFloat (Fin (5 # 2))))
           (mkState (one_regressor "gdp_trans_0_Lagged" "Lagged"
                                   (PyFloat (Fin (5 # 2))))
                    [OptionMustBeInt "gdp_trans_0_Lagged" "Lagged"
                                     (PyFloat (Fin (5 # 2)))]).
Proof. reflexivity. Qed.

(** An option for the transform 'None' halts the validator. *)
Example identity_with_option_halts :
  validate [] (one_regressor "gdp_trans_0_None" "None" (PyFloat (Fin 1)))
           ["regressors"]
  = Halted (OptionMustNotBeSet "gdp_trans_0_None" "None")
           (mkState (one_regressor "gdp_trans_0_None" "None"
                                   (PyFloat (Fin 1)))
                    [OptionMustNotBeSet "gdp_trans_0_None" "None"]).
Proof. reflexivity. Qed.

(** An option a little above 2 is accepted and becomes the int 2. *)
Example option_above_two_normalised :
  validate [] (one_regressor "gdp_trans_0_MVA" "MVA"
                             (PyFloat (Fin (2000001 # 1000000))))
           ["regressors"]
  = Done tt (mkState (one_regressor "gdp_trans_0_MVA" "MVA" (PyInt 2)) []).
Proof. reflexivity. Qed.

(* ================================================================== *)
(** ** The columns computed by the transforms *)

Lemma shift_length (k : Z) (x : series) :
  List.length (shift k x) = List.length x.
Proof.
  unfold shift. destruct (0 <=? k)%Z.
  - rewrite length_firstn, length_app, repeat_length. lia.
  - rewrite length_app, length_skipn, repeat_length. lia.
Qed.

(** Row [t] of the shifted column is row [t - k] of the column. *)
Lemma shift_nth (k : Z) (x : series) (t : nat) :
  (t < List.length x)%nat ->
  nth t (shift k x) NaN = row_at x (Z.of_nat t - k).
Proof.
  intro Ht. unfold shift, row_at.
  destruct (Z.leb_spec 0 k) as [Hk|Hk].
  - rewrite nth_firstn. destruct (Nat.ltb_spec t (List.length x)); [|lia].
    destruct (Z.leb_spec 0 (Z.of_nat t - k)) as [H0|H0]; simpl.
    + destruct (Z.ltb_spec (Z.of_nat t - k) (Z.of_nat (List.length x)));
        [|lia].
      rewrite app_nth2 by (rewrite repeat_length; lia).
      rewrite repeat_length. f_equal. lia.
    + rewrite app_nth1 by (rewrite repeat_length; lia).
      apply nth_repeat.
  - destruct (Z.leb_spec 0 (Z.of_nat t - k)) as [H0|H0]; [|lia]. simpl.
    destruct (Z.ltb_spec (Z.of_nat t - k) (Z.of_nat (List.length x)))
      as [H1|H1].
    + rewrite app_nth1 by (rewrite length_skipn; lia).
      rewrite nth_skipn. f_equal. lia.
    + rewrite app_nth2 by (rewrite length_skipn; lia).
      apply nth_repeat.
Qed.

Lemma map2_length {A B C} (f : A -> B -> C) (x : list A) (y : list B) :
  List.length (map2 f x y) = Nat.min (List.length x) (List.length y).
Proof.
  revert y. induction x as [|a x IH]; intros [|b y]; simpl; auto.
Qed.

Lemma map2_nth {A B C} (f : A -> B -> C) (x : list A) (y : list B)
      (t : nat) (da : A) (db : B) (dc : C) :
  (t < List.length x)%nat -> (t < List.length y)%nat ->
  nth t (map2 f x y) dc = f (nth t x da) (nth t y db).
Proof.
  revert y t. induction x as [|a x IH]; intros [|b y] [|t]; simpl;
    try lia; auto.
  intros. apply IH; lia.
Qed.

Lemma diff_length (k : Z) (x : series) :
  List.length (diff k x) = List.length x.
Proof. unfold diff. rewrite map2_length, shift_length. lia. Qed.

Lemma diff_nth (k : Z) (x : series) (t : nat) :
  (t < List.length x)%nat ->
  nth t (diff k x) NaN = f_sub (nth t x NaN) (row_at x (Z.of_nat t - k)).
Proof.
  intro Ht. unfold diff.
  rewrite (map2_nth f_sub x (shift k x) t NaN NaN NaN);
    [|exact Ht|now rewrite shift_length].
  now rewrite shift_nth.
Qed.

Lemma pad_from_length (last : float64) (x : series) :
  List.length (pad_from last x) = List.length x.
Proof.
  revert last. induction x as [|a x IH]; intro last; simpl; [reflexivity|].
  destruct (isna a); simpl; now rewrite IH.
Qed.

(** A cell of the padded column: the cell of the column when it is not
    missing, the padded cell of the row before otherwise. *)
Lemma pad_from_nth (last : float64) (x : series) (t : nat) :
  (t < List.length x)%nat ->
  nth t (pad_from last x) NaN
  = if isna (nth t x NaN)
    then match t with
         | O => last
         | S t' => nth t' (pad_from last x) NaN
         end
    else nth t x NaN.
Proof.
  revert last t. induction x as [|a x IH]; intros last t Ht; simpl in Ht;
    [lia|].
  destruct t as [|t].
  - simpl. now destruct (isna a).
  - assert (Ht' : (t < List.length x)%nat) by lia.
    change (nth (S t) (a :: x) NaN) with (nth t x NaN).
    assert (E : forall l, nth (S t) (pad_from l (a :: x)) NaN
                          = nth t (pad_from (if isna a then l else a) x) NaN)
      by (intro l; simpl; now destruct (isna a)).
    rewrite E, (IH _ t Ht').
    destruct (isna (nth t x NaN)); [|reflexivity].
    destruct t as [|t]; [simpl; now destruct (isna a)|].
    simpl. now destruct (isna a).
Qed.

Lemma pad_nth (x : series) (t : nat) :
  (t < List.length x)%nat ->
  nth t (pad x) NaN
  = if isna (nth t x NaN)
    then match t with
         | O => NaN
         | S t' => nth t' (pad x) NaN
         end
    else nth t x NaN.
Proof. apply pad_from_nth. Qed.


Lemma pct_change_length (k : Z) (x : series) :
  List.length (pct_change k x) = List.length x.
Proof.
  unfold pct_change, pad. rewrite map2_length, shift_length, pad_from_length.
  lia.
Qed.

Lemma pct_change_nth (k : Z) (x : series) (t : nat) :
  (t < List.length x)%nat ->
  nth t (pct_change k x) NaN
  = f_sub (f_div (nth t (pad x) NaN) (row_at (pad x) (Z.of_nat t - k)))
          (Fin 1).
Proof.
  intro Ht. unfold pct_change.
  assert (Hp : (t < List.length (pad x))%nat)
    by (unfold pad; now rewrite pad_from_length).
  rewrite (map2_nth _ (pad x) (shift k (pad x)) t NaN NaN NaN);
    [|exact Hp|now rewrite shift_length].
  now rewrite shift_nth.
Qed.


Lemma rolling_mean_length (w : nat) (x : series) :
  List.length (rolling_mean w x) = List.length x.
Proof. unfold rolling_mean. now rewrite length_map, length_seq. Qed.

Lemma rolling_mean_nth (w : nat) (x : series) (t : nat) :
  (t < List.length x)%nat ->
  nth t (rolling_mean w x) NaN = mean_min_periods w (window_at w x t).
Proof.
  intro Ht. unfold rolling_mean.
  rewrite (nth_indep _ NaN (mean_min_periods w (window_at w x 0)))
    by (now rewrite length_map, length_seq).
  rewrite (map_nth (fun t => mean_min_periods w (window_at w x t))).
  now rewrite seq_nth.
Qed.

Lemma window_at_length (w : nat) (x : series) (t : nat) :
  (t < List.length x)%nat ->
  List.length (window_at w x t) = Nat.min w (t + 1).
Proof.
  intro Ht. unfold window_at. rewrite length_skipn, length_firstn. lia.
Qed.



(** The first [w - 1] rows of the rolling mean are missing. *)
Lemma rolling_mean_burn_in (w : nat) (x : series) (t : nat) :
  (t < List.length x)%nat -> (t + 1 < w)%nat ->
  nth t (rolling_mean w x) NaN = NaN.
Proof.
  intros Ht Hw. rewrite (rolling_mean_nth _ _ _ Ht).
  unfold mean_min_periods.
  pose proof (filter_length_le is_finite (window_at w x t)) as Hle.
  rewrite (window_at_length _ _ _ Ht) in Hle.
  destruct (Nat.leb_spec w (List.length (filter is_finite (window_at w x t))));
    [lia|reflexivity].
Qed.

(* ================================================================== *)
(** ** Lagged (C5) *)



Lemma transform_lagged (k : Z) (x : series) :
  transform_series "Lagged" (PyInt k) x = inr (Some (shift k x)).
Proof. reflexivity. Qed.

Lemma transform_mva (k : Z) (x : series) :
  transform_series "MVA" (PyInt k) x
  = if (k <? 0)%Z then inl NegativeWindow
    else inr (Some (rolling_mean (Z.to_nat k) x)).
Proof. reflexivity. Qed.


Lemma transform_diff (k : Z) (x : series) :
  transform_series "Diff" (PyInt k) x = inr (Some (diff k x)).
Proof. reflexivity. Qed.

Lemma transform_change_rate (k : Z) (x : series) :
  transform_series "ChangeRate" (PyInt k) x = inr (Some (pct_change k x)).
Proof. reflexivity. Qed.



(* ================================================================== *)
(** ** Diff, ChangeRate and missing cells (C3) *)




Lemma f_sub_missing (a b : float64) :
  a = NaN \/ b = NaN -> f_sub a b = NaN.
Proof. intros [->| ->]; [reflexivity|]. now destruct a as [|[|]|]. Qed.

Lemma f_div_missing (a b : float64) :
  a = NaN \/ b = NaN -> f_div a b = NaN.
Proof. intros [->| ->]; [reflexivity|]. now destruct a as [|[|]|]. Qed.


(** With the exponent 0 the transform 'Power' turns a missing cell into 1. *)
Example power_zero_of_missing :
  transformed "Power" (PyInt 0) [NaN; Fin 2] [Fin 1; Fin 1].
Proof. reflexivity. Qed.



(* ================================================================== *)
(** ** MVA (C7) *)


Lemma filter_all {A} (f : A -> bool) (l : list A) :
  Forall (fun a => f a = true) l -> filter f l = l.
Proof.
  induction 1 as [|a l Ha _ IH]; simpl; [reflexivity|].
  now rewrite Ha, IH.
Qed.





(* ================================================================== *)
(** ** The names of the regressors (C8) *)

Lemma str_append_assoc (a b c : string) :
  ((a ++ b) ++ c = a ++ (b ++ c))%string.
Proof. induction a as [|x a IH]; simpl; [reflexivity|now rewrite IH]. Qed.

Lemma has_char_append (c : ascii) (a b : string) :
  has_char c (a ++ b)%string = has_char c a || has_char c b.
Proof.
  induction a as [|x a IH]; simpl; [reflexivity|].
  now rewrite IH, orb_assoc.
Qed.

(** A string is cut in one way only at its last underscore. *)
Lemma cut_at_last_underscore (a1 a2 t1 t2 : string) :
  underscore_free t1 -> underscore_free t2 ->
  (a1 ++ String "_" t1 = a2 ++ String "_" t2)%string ->
  a1 = a2 /\ t1 = t2.
Proof.
  unfold underscore_free. intros H1 H2. revert a2.
  induction a1 as [|x a1 IH]; intros [|y a2] E; simpl in E.
  - injection E as E. auto.
  - injection E as Ey E. rewrite E, has_char_append in H1. simpl in H1.
    rewrite orb_true_r in H1. discriminate.
  - injection E as Ey E. rewrite <- E, has_char_append in H2. simpl in H2.
    rewrite orb_true_r in H2. discriminate.
  - injection E as Ex E. destruct (IH _ E) as [-> ->]. now subst.
Qed.

Lemma string_of_uint_underscore_free (d : Decimal.uint) :
  underscore_free (NilEmpty.string_of_uint d).
Proof. unfold underscore_free. induction d; simpl; auto. Qed.

Lemma str_of_nat_inj (i j : nat) : str_of_nat i = str_of_nat j -> i = j.
Proof.
  unfold str_of_nat. intro E. apply Unsigned.to_uint_inj.
  pose proof (NilEmpty.usu (Nat.to_uint i)) as Hi.
  rewrite E, NilEmpty.usu in Hi. now injection Hi.
Qed.

Lemma regressor_key_shape (regressor : string) (i : nat)
      (transform : string) :
  regressor_key regressor i transform
  = (((regressor ++ "_trans") ++ String "_" (str_of_nat i))
       ++ String "_" transform)%string.
Proof.
  unfold regressor_key. rewrite !str_append_assoc. reflexivity.
Qed.

(** Keys built with transforms that hold no underscore carry their index. *)
Lemma regressor_key_index (r1 r2 : string) (i j : nat) (t1 t2 : string) :
  underscore_free t1 -> underscore_free t2 ->
  regressor_key r1 i t1 = regressor_key r2 j t2 -> i = j.
Proof.
  intros H1 H2 E. rewrite !regressor_key_shape in E.
  destruct (cut_at_last_underscore _ _ _ _ H1 H2 E) as [E' _].
  destruct (cut_at_last_underscore _ _ _ _
              (string_of_uint_underscore_free _)
              (string_of_uint_underscore_free _) E') as [_ Ed].
  now apply str_of_nat_inj.
Qed.

Lemma valid_transform_underscore_free (t : string) :
  In t valid_transforms -> underscore_free t.
Proof.
  simpl. intros H. decompose [or] H; subst; try contradiction; reflexivity.
Qed.

Lemma names_from_entries (i : nat) (rows : list row) :
  dict_keys (entries_from i rows) = names_from i rows.
Proof.
  revert i. induction rows as [|[[r t] o] rows IH]; intro i; simpl;
    [reflexivity|].
  f_equal. apply IH.
Qed.

Lemma names_from_index (i : nat) (rows : list row) (k : string) :
  Forall (fun r => underscore_free (row_transform r)) rows ->
  In k (names_from i rows) ->
  exists r j t, (i <= j)%nat /\ underscore_free t /\ k = regressor_key r j t.
Proof.
  intros H. revert i. induction H as [|[[r t] o] rows Ht _ IH]; intros i Hin;
    simpl in Hin; [contradiction|].
  destruct Hin as [<-|Hin].
  - exists r, i, t. auto.
  - destruct (IH _ Hin) as (r' & j & t' & Hj & Hu & E).
    exists r', j, t'. split; [lia|auto].
Qed.

Lemma names_from_NoDup (i : nat) (rows : list row) :
  Forall (fun r => underscore_free (row_transform r)) rows ->
  NoDup (names_from i rows).
Proof.
  intros H. revert i. induction H as [|[[r t] o] rows Ht Hrows IH]; intro i;
    simpl; constructor; [|apply IH].
  intro Hin. destruct (names_from_index _ _ _ Hrows Hin)
    as (r' & j & t' & Hj & Hu & E).
  apply (regressor_key_index _ _ _ _ _ _ Ht Hu) in E. lia.
Qed.

Lemma dict_set_fresh {V} (k : string) (v : V) (d : list (string * V)) :
  ~ In k (dict_keys d) -> dict_set k v d = d ++ [(k, v)].
Proof.
  induction d as [|[k0 v0] d IH]; simpl; intro H; [reflexivity|].
  destruct (String.eqb_spec k k0) as [->|_]; [tauto|].
  rewrite IH; [reflexivity|tauto].
Qed.

(** When the keys are new and distinct, the loop appends the entries. *)
Lemma read_regressors_from_entries (i : nat) (rows : list row)
      (d : regdict) :
  NoDup (dict_keys d ++ names_from i rows) ->
  read_regressors_from i rows d = d ++ entries_from i rows.
Proof.
  revert i d. induction rows as [|[[r t] o] rows IH]; intros i d H; simpl.
  - now rewrite app_nil_r.
  - simpl in H. pose proof (NoDup_remove_2 _ _ _ H) as Hk.
    rewrite dict_set_fresh by (intro Hin; apply Hk, in_or_app; now left).
    rewrite IH.
    + now rewrite <- app_assoc.
    + unfold dict_keys in *. rewrite map_app, <- app_assoc. exact H.
Qed.

(** C8 as stated fails: two declarations whose keys are the same string
    (one of them with a transform that holds '_trans_') leave one feature. *)
Lemma colliding_rows_share_key :
  names_from 0 colliding_rows
  = ["gdp_trans_0_X_trans_1_None"; "gdp_trans_0_X_trans_1_None"]
  /\ dict_keys (read_regressors colliding_rows)
     = ["gdp_trans_0_X_trans_1_None"]
  /\ ~ NoDup (names_from 0 colliding_rows).
Proof.
  split; [reflexivity|]. split; [reflexivity|].
  intro H. inversion H as [|k l Hk _]; subst. apply Hk. now left.
Qed.

(** C8, amended.  For every list of declared regressors whose transforms
    hold no underscore, as is the case of the six valid ones: the keys
    [regressor + '_trans_' + str(i) + '_' + transform] are pairwise
    distinct, also when a regressor is declared twice with the same
    transform; the dictionary holds one entry per declaration, in the order
    of the declarations; and the transform loop of [run_quantfit] goes
    through the keys in that order. *)
Theorem regressor_names_distinct (rows : list row) :
  Forall (fun r => underscore_free (row_transform r)) rows ->
  NoDup (names_from 0 rows)
  /\ read_regressors rows = entries_from 0 rows
  /\ dict_keys (read_regressors rows) = names_from 0 rows
  /\ (forall df, run_transforms (read_regressors rows) df
                 = add_regressors (read_regressors rows) (names_from 0 rows)
                                  df).
Proof.
  intro H. pose proof (names_from_NoDup 0 rows H) as Hn.
  assert (E : read_regressors rows = entries_from 0 rows)
    by (unfold read_regressors; now rewrite read_regressors_from_entries).
  split; [exact Hn|]. split; [exact E|].
  assert (Ek : dict_keys (read_regressors rows) = names_from 0 rows)
    by (rewrite E; apply names_from_entries).
  split; [exact Ek|]. intro df. unfold run_transforms. now rewrite Ek.
Qed.

Lemma repeated_rows_underscore_free :
  Forall (fun r => underscore_free (row_transform r)) repeated_rows.
Proof. repeat constructor. Qed.

Lemma regressor_names_distinct_witness :
  Forall (fun r => underscore_free (row_transform r)) repeated_rows
  /\ NoDup (names_from 0 repeated_rows)
  /\ read_regressors repeated_rows = entries_from 0 repeated_rows
  /\ dict_keys (read_regressors repeated_rows) = names_from 0 repeated_rows
  /\ (forall df, run_transforms (read_regressors repeated_rows) df
                 = add_regressors (read_regressors repeated_rows)
                                  (names_from 0 repeated_rows) df).
Proof.
  split; [exact repeated_rows_underscore_free|].
  exact (regressor_names_distinct repeated_rows repeated_rows_underscore_free).
Defined.

(** The same regressor declared twice gives two features, in order. *)
Example repeated_rows_names :
  dict_keys (read_regressors repeated_rows)
  = ["gdp_trans_0_Lagged"; "gdp_trans_1_Lagged"].
Proof. reflexivity. Qed.

(** Rows with valid transforms are covered. *)
Lemma valid_rows_underscore_free (rows : list row) :
  Forall (fun r => In (row_transform r) valid_transforms) rows ->
  Forall (fun r => underscore_free (row_transform r)) rows.
Proof.
  apply Forall_impl. intros r. apply valid_transform_underscore_free.
Qed.

(* ================================================================== *)
(** ** The transform loop on the data frame *)

(** One pass of the loop adds the column computed from the source column,
    under the key of the regressor. *)
Lemma add_regressors_one (regs : regdict) (reg_long : string) (e : regspec)
      (x y : series) (df : frame) :
  dict_get reg_long regs = Some e ->
  str_in (transform e) valid_transforms = true ->
  dict_get (split_head "_trans_" reg_long) df = Some x ->
  transformed (transform e) (option_ e) x y ->
  add_regressors regs [reg_long] df = inr (dict_set reg_long y df).
Proof.
  intros He Hv Hx Hy. unfold transformed in Hy. cbn [add_regressors].
  now rewrite He, Hv, Hx, Hy.
Qed.

(** The validated sample on a frame with the two source columns. *)
Example sample_run :
  run_transforms
    [("gdp_trans_0_Lagged", mkRegspec "Lagged" (PyInt 2));
     ("credit_trans_1_None", mkRegspec "None" PyNone)]
    [("gdp", [Fin 1; Fin 2; Fin 3]); ("credit", [Fin 4; NaN; Fin 6])]
  = inr [("gdp", [Fin 1; Fin 2; Fin 3]);
         ("credit", [Fin 4; NaN; Fin 6]);
         ("gdp_trans_0_Lagged", [NaN; NaN; Fin 1]);
         ("credit_trans_1_None", [Fin 4; NaN; Fin 6])].
Proof. reflexivity. Qed.

Lemma transform_series_valid (transform : string) (opt : pyval) (x : series) :
  str_in transform valid_transforms = true ->
  transform_series transform opt x <> inr None.
Proof.
  intros Hv. destruct (valid_transform_cases _ Hv) as [->|Ho].
  - discriminate.
  - unfold transform_series.
    destruct (String.eqb transform "None"); [discriminate|].
    rewrite Ho. destruct opt; try discriminate.
    repeat match goal with
           | |- context [if ?b then _ else _] => destruct b
           end; discriminate.
Qed.

(** When every regressor has one of the six transforms and the keys are new
    and distinct, the loop appends one column per key, in the order of the
    keys. *)
Lemma add_regressors_columns (regs : regdict) (names : list string) :
  (forall name, In name names ->
                exists e, dict_get name regs = Some e
                          /\ str_in (transform e) valid_transforms = true) ->
  forall df df',
    NoDup (dict_keys df ++ names) ->
    add_regressors regs names df = inr df' ->
    dict_keys df' = dict_keys df ++ names.
Proof.
  induction names as [|name names IH]; intros Hv df df' Hn E.
  - simpl in E. injection E as <-. now rewrite app_nil_r.
  - cbn [add_regressors] in E.
    destruct (Hv name (or_introl eq_refl)) as (e & He & Ht).
    rewrite He, Ht in E.
    destruct (dict_get (split_head "_trans_" name) df) as [x|];
      [|discriminate].
    pose proof (transform_series_valid _ (option_ e) x Ht) as Hs.
    destruct (transform_series (transform e) (option_ e) x) as [err|[col|]];
      [discriminate| |contradiction].
    pose proof (NoDup_remove_2 _ _ _ Hn) as Hk.
    rewrite dict_set_fresh in E
      by (intro Hin; apply Hk, in_or_app; now left).
    assert (Hn' : NoDup (dict_keys (df ++ [(name, col)]) ++ names))
      by (unfold dict_keys in *; rewrite map_app, <- app_assoc; exact Hn).
    rewrite (IH (fun n Hin => Hv n (or_intror Hin)) _ _ Hn' E).
    unfold dict_keys. rewrite map_app, <- app_assoc. reflexivity.
Qed.

(* ================================================================== *)
(** ** The messages of a run *)

Lemma quiet_ret {A} (a : A) : quiet (ret a).
Proof. intro s. reflexivity. Qed.

Lemma quiet_raise {A} (e : exn) : quiet (@raise A e).
Proof. intro s. reflexivity. Qed.

Lemma quiet_bind {A B} (c : M A) (f : A -> M B) :
  quiet c -> (forall a, quiet (f a)) -> quiet (bind c f).
Proof.
  intros Hc Hf s. unfold bind. specialize (Hc s).
  destruct (c s) as [a s1|m s1|e s1]; try assumption.
  specialize (Hf a s1). destruct (f a s1); congruence.
Qed.

Lemma quiet_when (b : bool) (c : M unit) : quiet c -> quiet (when b c).
Proof. destruct b; simpl; [auto|]. intros _. apply quiet_ret. Qed.

Lemma quiet_for_each {A} (body : A -> M unit) (l : list A) :
  (forall a, quiet (body a)) -> quiet (for_each l body).
Proof.
  intro Hb. induction l as [|a l IH]; simpl; [apply quiet_ret|].
  apply quiet_bind; auto.
Qed.

Lemma quiet_halt (m : message) : quiet (show_message m true).
Proof. intro s. reflexivity. Qed.

Lemma quiet_getitem (key : string) : quiet (getitem key).
Proof.
  intro s. unfold getitem, bind, get_params.
  destruct (dict_get key (params s)); reflexivity.
Qed.

Lemma quiet_setitem (key : string) (v : value) : quiet (setitem key v).
Proof. intro s. reflexivity. Qed.

Lemma quiet_check_quantlist (val : value) : quiet (check_quantlist val).
Proof.
  destruct val as [| |l|]; try apply quiet_raise.
  unfold check_quantlist. apply quiet_bind.
  - apply quiet_when, quiet_halt.
  - intros _. apply quiet_for_each. intro c. apply quiet_when, quiet_halt.
Qed.

Lemma quiet_get_regressor (regressor : string) :
  quiet (get_regressor regressor).
Proof.
  unfold get_regressor. apply quiet_bind; [apply quiet_getitem|].
  intros [| | |r]; try apply quiet_raise.
  destruct (dict_get regressor r); [apply quiet_ret|apply quiet_raise].
Qed.

Lemma quiet_set_regressor_option (regressor : string) (o : pyval) :
  quiet (set_regressor_option regressor o).
Proof.
  unfold set_regressor_option. apply quiet_bind; [apply quiet_getitem|].
  intros [| | |r]; try apply quiet_raise.
  destruct (dict_get regressor r); [apply quiet_setitem|apply quiet_raise].
Qed.

Lemma quiet_py_int (option : pyval) : quiet (py_int option).
Proof.
  destruct option as [|[| |q]| |]; simpl;
    first [apply quiet_ret|apply quiet_raise].
Qed.

Lemma quiet_not_intlike (option : pyval) : quiet (not_intlike option).
Proof.
  destruct option as [|x| |]; unfold not_intlike; try apply quiet_ret.
  apply quiet_bind; [apply (quiet_py_int (PyFloat x))|].
  intro n. destruct x; apply quiet_ret.
Qed.

Lemma quiet_check_regressor (regressor : string) :
  quiet (check_regressor regressor).
Proof.
  unfold check_regressor. apply quiet_bind; [apply quiet_get_regressor|].
  intro e. apply quiet_bind; [apply quiet_when, quiet_halt|]. intros _.
  apply quiet_bind; [apply quiet_when, quiet_when, quiet_halt|]. intros _.
  apply quiet_when. apply quiet_bind; [apply quiet_not_intlike|].
  intro bad. apply quiet_bind; [apply quiet_when, quiet_halt|]. intros _.
  apply quiet_bind; [apply quiet_py_int|]. intro n.
  apply quiet_set_regressor_option.
Qed.

Lemma quiet_check_regressors (val : value) : quiet (check_regressors val).
Proof.
  destruct val as [|u|l|r]; simpl.
  - apply quiet_raise.
  - destruct u; [apply quiet_ret|apply quiet_raise].
  - destruct l; [apply quiet_ret|apply quiet_raise].
  - apply quiet_for_each, quiet_check_regressor.
Qed.

Lemma quiet_check_key (sheetnames : list string) (key : string) :
  quiet (check_key sheetnames key).
Proof.
  unfold check_key. apply quiet_bind; [apply quiet_getitem|]. intro val.
  apply quiet_bind; [apply quiet_when, quiet_check_quantlist|]. intros _.
  apply quiet_bind; [apply quiet_when, quiet_check_regressors|]. intros _.
  destruct (String.eqb key "sheet_input").
  - unfold check_sheet_input. destruct val; try apply quiet_ret.
    apply quiet_bind; [apply quiet_setitem|]. intros _.
    apply quiet_when, quiet_halt.
  - apply quiet_when. unfold check_sheet_output.
    destruct val; try apply quiet_ret.
    + destruct (String.eqb key "sheet_quantreg"); [apply quiet_setitem|].
      destruct (String.eqb key "sheet_cond_quant");
        [apply quiet_setitem|apply quiet_halt].
    + apply quiet_when, quiet_halt.
Qed.

Lemma validate_done_no_missing (sheetnames : list string) (d : pydict)
      (keys : list string) (s' : state) :
  validate sheetnames d keys = Done tt s' -> missing_keys d keys = [].
Proof.
  intro E. unfold missing_keys.
  assert (H : forall key, In key keys -> dict_mem key d = true).
  { intros key Hin.
    destruct (validate_done_key _ _ _ _ _ E Hin) as (s1 & s2 & Hu & E1).
    unfold dict_mem. destruct (dict_get key d) eqn:Hg; [reflexivity|].
    pose proof (params_updated_missing _ _ _ Hu Hg) as Hg1.
    unfold check_key, bind in E1. rewrite (getitem_missing _ _ Hg1) in E1.
    discriminate. }
  clear E. induction keys as [|key keys IH]; [reflexivity|]. simpl.
  rewrite (H key (or_introl eq_refl)). simpl.
  apply IH. intros k Hk. apply H. now right.
Qed.

Lemma validate_shown (sheetnames : list string) (d : pydict)
      (keys : list string) :
  match validate sheetnames d keys with
  | Done _ s' => shown s' = [] /\ missing_keys d keys = []
  | Halted m s' => shown s' = missing_keys d keys ++ [m]
  | Raised _ s' => shown s' = missing_keys d keys
  end.
Proof.
  pose proof (validate_done_no_missing sheetnames d keys) as Hdone.
  unfold validate, check_parameters_quantfit, bind in *.
  rewrite check_keys_exist_runs in *. cbn [params shown app] in *.
  pose proof (quiet_for_each (check_key sheetnames) keys
                (quiet_check_key sheetnames)
                (mkState d (missing_keys d keys))) as Hq.
  cbn [shown] in Hq.
  destruct (for_each keys (check_key sheetnames)
              (mkState d (missing_keys d keys))) as [[] s'|m s'|e s'];
    try exact Hq.
  rewrite Hq. pose proof (Hdone s' eq_refl) as Hm. now split.
Qed.

(** X1. A run of the validator that ends normally has shown no message at
    all (and no key was missing); a run that halts has shown the notices of
    the missing keys and then the message it halts with, and nothing else;
    a run that raises has shown the notices of the missing keys only. *)
Theorem validation_messages (sheetnames : list string) (d : pydict)
        (keys : list string) :
  match validate sheetnames d keys with
  | Done _ s' => shown s' = [] /\ missing_keys d keys = []
  | Halted m s' => shown s' = missing_keys d keys ++ [m]
  | Raised _ s' => shown s' = missing_keys d keys
  end.
Proof. apply validate_shown. Qed.

(* ================================================================== *)
(** ** What a run stores, and where *)

Lemma dict_get_set {V} (k k' : string) (v : V) (d : list (string * V)) :
  dict_get k (dict_set k' v d)
  = if String.eqb k k' then Some v else dict_get k d.
Proof.
  induction d as [|[k0 v0] d IH]; simpl.
  - reflexivity.
  - destruct (String.eqb_spec k' k0) as [->|Hne]; simpl.
    + destruct (String.eqb k k0); reflexivity.
    + rewrite IH. destruct (String.eqb_spec k k0) as [->|_];
        [|reflexivity].
      destruct (String.eqb_spec k0 k') as [E|_]; [|reflexivity].
      now subst.
Qed.

Lemma keeps_same_params {A} (k : string) (c : M A) :
  (forall s, params (final_state (c s)) = params s) -> keeps k c.
Proof. intros H s. now rewrite H. Qed.

Lemma keeps_bind {A B} (k : string) (c : M A) (f : A -> M B) :
  keeps k c -> (forall a, keeps k (f a)) -> keeps k (bind c f).
Proof.
  intros Hc Hf s. unfold bind. specialize (Hc s).
  destruct (c s) as [a s1| |]; simpl in *; try assumption.
  now rewrite (Hf a s1).
Qed.

Lemma keeps_when (k : string) (b : bool) (c : M unit) :
  keeps k c -> keeps k (when b c).
Proof. destruct b; simpl; [auto|]. intros _ s. reflexivity. Qed.

Lemma keeps_for_each {A} (k : string) (body : A -> M unit) (l : list A) :
  (forall a, In a l -> keeps k (body a)) -> keeps k (for_each l body).
Proof.
  induction l as [|a l IH]; intro Hb; simpl; [intro s; reflexivity|].
  apply keeps_bind.
  - apply Hb. now left.
  - intros _. apply IH. intros b Hin. apply Hb. now right.
Qed.

Lemma keeps_show_message (k : string) (m : message) (halt : bool) :
  keeps k (show_message m halt).
Proof. intro s. unfold show_message. now destruct halt. Qed.

Lemma keeps_getitem (k key : string) : keeps k (getitem key).
Proof.
  intro s. unfold getitem, bind, get_params.
  now destruct (dict_get key (params s)).
Qed.

Lemma keeps_setitem (k key : string) (v : value) :
  k <> key -> keeps k (setitem key v).
Proof.
  intros Hne s. unfold setitem, bind, get_params, put_params. simpl.
  rewrite dict_get_set. destruct (String.eqb_spec k key); [contradiction|].
  reflexivity.
Qed.

Lemma keeps_check_quantlist (k : string) (val : value) :
  keeps k (check_quantlist val).
Proof. apply keeps_same_params. apply check_quantlist_params. Qed.

Lemma keeps_py_int (k : string) (option : pyval) : keeps k (py_int option).
Proof. intro s. now destruct option as [|[| |q]| |]. Qed.

Lemma keeps_check_regressor (k regressor : string) :
  k <> "regressors" -> keeps k (check_regressor regressor).
Proof.
  intro Hne. unfold check_regressor.
  apply keeps_bind.
  { unfold get_regressor. apply keeps_bind; [apply keeps_getitem|].
    intros [|u|l|r]; try (intro st; reflexivity).
    intro s. now destruct (dict_get regressor r). }
  intro e. apply keeps_bind; [apply keeps_when, keeps_show_message|].
  intros _.
  apply keeps_bind; [apply keeps_when, keeps_when, keeps_show_message|].
  intros _. apply keeps_when. apply keeps_bind.
  { destruct (option_ e) as [|x| |]; unfold not_intlike;
      try (intro st; reflexivity).
    apply keeps_bind; [apply (keeps_py_int k (PyFloat x))|].
    intros n st. destruct x; reflexivity. }
  intro bad. apply keeps_bind; [apply keeps_when, keeps_show_message|].
  intros _. apply keeps_bind; [apply keeps_py_int|]. intro n.
  unfold set_regressor_option. apply keeps_bind; [apply keeps_getitem|].
  intros [|u|l|r]; try (intro st; reflexivity).
  destruct (dict_get regressor r); [|intro s; reflexivity].
  now apply keeps_setitem.
Qed.

Lemma keeps_check_regressors (k : string) (val : value) :
  k <> "regressors" -> keeps k (check_regressors val).
Proof.
  intro Hne. destruct val as [|u|l|r]; simpl.
  - intro s; reflexivity.
  - destruct u; intro s; reflexivity.
  - destruct l; intro s; reflexivity.
  - apply keeps_for_each. intros. now apply keeps_check_regressor.
Qed.

Lemma keeps_check_key (sheetnames : list string) (k key : string) :
  k <> key -> keeps k (check_key sheetnames key).
Proof.
  intro Hne. unfold check_key. apply keeps_bind; [apply keeps_getitem|].
  intro val.
  apply keeps_bind; [apply keeps_when, keeps_check_quantlist|]. intros _.
  apply keeps_bind.
  { destruct (String.eqb_spec key "regressors") as [->|_].
    - simpl. now apply keeps_check_regressors.
    - intro s. reflexivity. }
  intros _. destruct (String.eqb key "sheet_input").
  - unfold check_sheet_input. destruct val; try (intro st; reflexivity).
    apply keeps_bind; [now apply keeps_setitem|]. intros _.
    apply keeps_when, keeps_show_message.
  - apply keeps_when. unfold check_sheet_output.
    destruct val; try (intro st; reflexivity).
    + destruct (String.eqb key "sheet_quantreg");
        [now apply keeps_setitem|].
      destruct (String.eqb key "sheet_cond_quant");
        [now apply keeps_setitem|apply keeps_show_message].
    + apply keeps_when, keeps_show_message.
Qed.

(** X2. However a run of the validator ends, the value stored under a key
    that is not among the keys it was called with is the one passed in. *)
Theorem validation_keeps_other_keys (sheetnames : list string) (d : pydict)
        (keys : list string) (k : string) :
  ~ In k keys ->
  dict_get k (params (final_state (validate sheetnames d keys)))
  = dict_get k d.
Proof.
  intro Hk. unfold validate, check_parameters_quantfit.
  apply (keeps_bind k (check_keys_exist keys)).
  - intro s. now rewrite check_keys_exist_runs.
  - intros _. apply keeps_for_each. intros key Hin.
    apply keeps_check_key. intros ->. contradiction.
Qed.

Lemma validation_keeps_other_keys_witness :
  ~ In "regressors" ["quantlist"; "sheet_quantreg"]
  /\ dict_get "regressors"
       (params (final_state (validate [] sample_params
                                      ["quantlist"; "sheet_quantreg"])))
     = dict_get "regressors" sample_params.
Proof.
  assert (H : ~ In "regressors" ["quantlist"; "sheet_quantreg"]).
  { simpl. intros [E|[E|[]]]; discriminate E. }
  split; [exact H|].
  exact (validation_keeps_other_keys [] sample_params
           ["quantlist"; "sheet_quantreg"] "regressors" H).
Defined.

(* ================================================================== *)
(** ** The regressors after validation *)

(** As [for_each_done], with the state the loop ends in. *)
Lemma for_each_done_between {A} (body : A -> M unit) (l : list A) :
  (forall a s, frames (body a) s) ->
  forall s s', for_each l body s = Done tt s' ->
  forall a, In a l ->
  exists s1 s2, params_updated (params s) (params s1)
                /\ body a s1 = Done tt s2
                /\ params_updated (params s2) (params s').
Proof.
  intros Hb. induction l as [|b l IH]; intros s s' E a Ha; [contradiction|].
  simpl in E. unfold bind in E.
  destruct (body b s) as [[] s1| |] eqn:Eb; try discriminate.
  assert (Hs1 : params_updated (params s) (params s1)).
  { pose proof (Hb b s) as F. unfold frames in F. now rewrite Eb in F. }
  destruct Ha as [->|Ha].
  - exists s, s1. split; [apply params_updated_refl|]. split; [exact Eb|].
    pose proof (frames_for_each body l Hb s1) as F. unfold frames in F.
    now rewrite E in F.
  - destruct (IH _ _ E a Ha) as (s2 & s3 & Hu & E2 & Hu').
    exists s2, s3. split; [|split; assumption].
    eapply params_updated_trans; eassumption.
Qed.

Lemma validate_done_key_between (sheetnames : list string) (d : pydict)
      (keys : list string) (s' : state) (key : string) :
  validate sheetnames d keys = Done tt s' -> In key keys ->
  exists s1 s2, params_updated d (params s1)
                /\ check_key sheetnames key s1 = Done tt s2
                /\ params_updated (params s2) (params s').
Proof.
  unfold validate, check_parameters_quantfit, bind.
  rewrite check_keys_exist_runs. intros E Hin.
  exact (for_each_done_between (check_key sheetnames) keys
           (frames_check_key sheetnames) _ _ E key Hin).
Qed.

(** The regressors of an updated dictionary. *)
Lemma params_updated_regressors (d d' : pydict) (r : regdict) :
  params_updated d d' -> dict_get "regressors" d = Some (VDict r) ->
  exists r', dict_get "regressors" d' = Some (VDict r')
             /\ Forall2 regspec_updated r r'.
Proof.
  intros Hu Hg. pose proof (params_updated_get d d' "regressors" Hu) as G.
  rewrite Hg in G. destruct (dict_get "regressors" d') as [v1|];
    [|contradiction].
  destruct G as [->|[(n & E0 & _)|(r0 & r1 & _ & E0 & -> & HF)]];
    try discriminate.
  - exists r. split; [reflexivity|].
    apply Forall2_refl_on, regspec_updated_refl.
  - injection E0 as <-. now exists r1.
Qed.

Lemma normalised_updated (e e' : regspec) :
  normalised e -> transform e' = transform e -> option_updated e e' ->
  normalised e'.
Proof.
  intros Hn Ht Ho. unfold normalised in *. rewrite Ht.
  destruct Ho as [->|(_ & q & Eq & _)]; [exact Hn|].
  destruct Hn as [(_ & E)|(_ & n & E)]; congruence.
Qed.

(** A step that ends normally leaves its regressor normalised. *)
Lemma check_regressor_done_normalised (regressor : string) (s s' : state)
      (r : regdict) (e : regspec) :
  dict_get "regressors" (params s) = Some (VDict r) ->
  dict_get regressor r = Some e ->
  check_regressor regressor s = Done tt s' ->
  exists r' e', dict_get "regressors" (params s') = Some (VDict r')
                /\ dict_get regressor r' = Some e'
                /\ normalised e'.
Proof.
  intros Hs He E.
  destruct (str_in (transform e) valid_transforms) eqn:Hv.
  2:{ rewrite (check_regressor_invalid _ _ _ _ Hs He Hv) in E.
      discriminate. }
  destruct (valid_transform_cases _ Hv) as [Hn|Ho].
  - rewrite (check_regressor_identity _ _ _ _ Hs He Hn) in E.
    destruct (option_ e) eqn:Eo; try discriminate.
    injection E as <-. exists r, e. repeat split; auto. left. auto.
  - destruct (option_ e) as [|[| |q]| |] eqn:Eo.
    + rewrite (check_regressor_not_float _ _ _ _ Hs He Ho) in E;
        [discriminate|]. rewrite Eo. discriminate.
    + rewrite (check_regressor_not_finite _ _ _ _ Hs He NaN Ho Eo eq_refl)
        in E. discriminate.
    + rewrite (check_regressor_not_finite _ _ _ _ Hs He (Inf negative)
                 Ho Eo eq_refl) in E. discriminate.
    + rewrite (check_regressor_float _ _ _ _ Hs He q Ho Eo) in E.
      destruct (Qltb lit_1E_5 (Qabs (inject_Z (Qtrunc q) - q)));
        [discriminate|].
      injection E as <-. cbn [params].
      exists (dict_set regressor
                (mkRegspec (transform e) (PyInt (Qtrunc q))) r),
        (mkRegspec (transform e) (PyInt (Qtrunc q))).
      split; [now rewrite dict_get_set, String.eqb_refl|].
      split; [now rewrite dict_get_set, String.eqb_refl|].
      right. split; [now apply str_in_In|]. now exists (Qtrunc q).
    + rewrite (check_regressor_not_float _ _ _ _ Hs He Ho) in E;
        [discriminate|]. rewrite Eo. discriminate.
    + rewrite (check_regressor_not_float _ _ _ _ Hs He Ho) in E;
        [discriminate|]. rewrite Eo. discriminate.
Qed.

(** The entry of a regressor of an updated dictionary. *)
Lemma params_updated_entry (d d' : pydict) (r : regdict)
      (regressor : string) (e : regspec) :
  params_updated d d' -> dict_get "regressors" d = Some (VDict r) ->
  dict_get regressor r = Some e ->
  exists r' e', dict_get "regressors" d' = Some (VDict r')
                /\ dict_get regressor r' = Some e'
                /\ transform e' = transform e /\ option_updated e e'.
Proof.
  intros Hu Hg He.
  destruct (params_updated_regressors _ _ _ Hu Hg) as (r' & Hg' & HF).
  pose proof (regdict_updated_get r r' regressor HF) as G.
  rewrite He in G. destruct (dict_get regressor r') as [e'|] eqn:He';
    [|contradiction].
  destruct G as [Ht Ho]. exists r', e'. repeat split; auto.
Qed.

Lemma validate_done_normalised (sheetnames : list string) (d : pydict)
      (keys : list string) (s' : state) (r : regdict) :
  validate sheetnames d keys = Done tt s' -> In "regressors" keys ->
  dict_get "regressors" d = Some (VDict r) ->
  exists r',
    dict_get "regressors" (params s') = Some (VDict r')
    /\ Forall2 regspec_updated r r'
    /\ forall regressor e',
         dict_get regressor r' = Some e' -> normalised e'.
Proof.
  intros E Hin Hg.
  pose proof (frames_check_parameters_quantfit sheetnames keys (mkState d []))
    as Hfin.
  unfold frames in Hfin. fold (validate sheetnames d keys) in Hfin.
  rewrite E in Hfin. cbn [final_state params] in Hfin.
  destruct (params_updated_regressors _ _ _ Hfin Hg) as (r' & Hg' & HF).
  exists r'. split; [exact Hg'|]. split; [exact HF|].
  intros regressor e' He'.
  pose proof (regdict_updated_get r r' regressor HF) as G.
  rewrite He' in G. destruct (dict_get regressor r) as [e|] eqn:He;
    [|contradiction].
  destruct (validate_done_key_between _ _ _ _ _ E Hin)
    as (s1 & s2 & Hu1 & E1 & Hu2).
  destruct (params_updated_entry _ _ _ _ _ Hu1 Hg He)
    as (r1 & e1 & Hg1 & He1 & _).
  unfold check_key, bind in E1. rewrite (getitem_found _ _ _ Hg1) in E1.
  cbv beta iota in E1.
  assert (Ef : for_each (dict_keys r1) check_regressor s1 = Done tt s2).
  { revert E1. unfold check_regressors.
    generalize (for_each (dict_keys r1) check_regressor). intro c. simpl.
    destruct (c s1) as [[] s3| |]; try discriminate.
    intro E1. injection E1 as ->. reflexivity. }
  destruct (for_each_done_between check_regressor (dict_keys r1)
              frames_check_regressor _ _ Ef regressor
              (dict_get_keys _ _ _ He1))
    as (sa & sb & Hua & Ea & Hub).
  destruct (params_updated_entry _ _ _ _ _ Hua Hg1 He1)
    as (ra & ea & Hga & Hea & _).
  destruct (check_regressor_done_normalised _ _ _ _ _ Hga Hea Ea)
    as (rb & eb & Hgb & Heb & Hnb).
  assert (Hend : params_updated (params sb) (params s'))
    by (eapply params_updated_trans; eassumption).
  destruct (params_updated_entry _ _ _ _ _ Hend Hgb Heb)
    as (r'' & e'' & Hg'' & He'' & Ht'' & Ho'').
  rewrite Hg' in Hg''. injection Hg'' as <-.
  rewrite He' in He''. injection He'' as <-.
  exact (normalised_updated _ _ Hnb Ht'' Ho'').
Qed.

(** X3. When a run of the validator over keys that include 'regressors'
    ends normally, the dictionary holds the same regressors under the same
    names in the same order with the same transforms, and every one of them
    has a transform among the six, no option if the transform is 'None' and
    an int option otherwise. *)
Theorem validated_regressors (sheetnames : list string) (d : pydict)
        (keys : list string) (s' : state) (r : regdict) :
  validate sheetnames d keys = Done tt s' -> In "regressors" keys ->
  dict_get "regressors" d = Some (VDict r) ->
  exists r',
    dict_get "regressors" (params s') = Some (VDict r')
    /\ dict_keys r' = dict_keys r
    /\ map (fun p => transform (snd p)) r'
       = map (fun p => transform (snd p)) r
    /\ forall regressor e',
         dict_get regressor r' = Some e' -> normalised e'.
Proof.
  intros E Hin Hg.
  destruct (validate_done_normalised _ _ _ _ _ E Hin Hg)
    as (r' & Hg' & HF & Hn).
  exists r'. split; [exact Hg'|].
  split; [now apply regdict_updated_keys|]. split; [|exact Hn].
  clear - HF. induction HF as [|p p' r r' (_ & Ht & _) _ IH]; simpl;
    congruence.
Qed.

Lemma validated_regressors_witness :
  validate [] sample_params quantfit_keys
  = Done tt (mkState sample_params_validated [])
  /\ In "regressors" quantfit_keys
  /\ dict_get "regressors" sample_params
     = Some (VDict (read_regressors sample_rows))
  /\ exists r',
      dict_get "regressors" sample_params_validated = Some (VDict r')
      /\ dict_keys r' = dict_keys (read_regressors sample_rows)
      /\ map (fun p => transform (snd p)) r'
         = map (fun p => transform (snd p)) (read_regressors sample_rows)
      /\ forall regressor e',
           dict_get regressor r' = Some e' -> normalised e'.
Proof.
  assert (Hin : In "regressors" quantfit_keys) by (simpl; auto).
  split; [reflexivity|]. split; [exact Hin|]. split; [reflexivity|].
  exact (validated_regressors [] sample_params quantfit_keys
           (mkState sample_params_validated [])
           (read_regressors sample_rows) eq_refl Hin eq_refl).
Defined.

(** X4. Validation cannot be repeated: once a run over keys that include
    'regressors' has ended normally on a dictionary with a regressor whose
    transform takes an option, no later run over such keys on the
    dictionary it left ends normally (the option is an int by then). *)
Theorem validation_not_repeatable (sheetnames sheetnames' : list string)
        (d : pydict) (keys keys' : list string) (s' : state) (r : regdict)
        (regressor : string) (e : regspec) :
  validate sheetnames d keys = Done tt s' -> In "regressors" keys ->
  dict_get "regressors" d = Some (VDict r) ->
  dict_get regressor r = Some e ->
  In (transform e) option_transforms ->
  In "regressors" keys' ->
  forall s'', validate sheetnames' (params s') keys' <> Done tt s''.
Proof.
  intros E Hin Hg He Ht Hin' s'' E'.
  destruct (validate_done_normalised _ _ _ _ _ E Hin Hg)
    as (r' & Hg' & HF & Hn).
  pose proof (regdict_updated_get r r' regressor HF) as G.
  rewrite He in G. destruct (dict_get regressor r') as [e'|] eqn:He';
    [|contradiction].
  destruct G as [Ht' _].
  assert (Hint : exists n, option_ e' = PyInt n).
  { destruct (Hn _ _ He') as [(Hnone & _)|(_ & Hi)]; [|exact Hi].
    rewrite Ht' in Hnone. rewrite Hnone in Ht. simpl in Ht.
    decompose [or] Ht; try discriminate; contradiction. }
  destruct Hint as (n & Hi).
  destruct (validate_done_regressor _ _ _ _ _ _ _ E' Hin' Hg' He')
    as (r1 & e1 & s1 & s2 & Hg1 & He1 & Ht1 & Ho1 & E1).
  assert (Hi1 : option_ e1 = PyInt n).
  { destruct Ho1 as [->|(_ & q & Eq & _)]; [exact Hi|congruence]. }
  rewrite (check_regressor_not_float _ _ _ _ Hg1 He1) in E1.
  - discriminate.
  - apply str_in_In. now rewrite Ht1, Ht'.
  - intros x. rewrite Hi1. discriminate.
Qed.

Lemma validation_not_repeatable_witness :
  validate [] sample_params quantfit_keys
  = Done tt (mkState sample_params_validated [])
  /\ In "Lagged" option_transforms
  /\ forall s'', validate [] sample_params_validated quantfit_keys
                 <> Done tt s''.
Proof.
  assert (Hin : In "regressors" quantfit_keys) by (simpl; auto).
  assert (Ht : In "Lagged" option_transforms) by (simpl; auto).
  split; [reflexivity|]. split; [exact Ht|].
  exact (validation_not_repeatable [] [] sample_params quantfit_keys
           quantfit_keys (mkState sample_params_validated [])
           (read_regressors sample_rows) "gdp_trans_0_Lagged"
           (mkRegspec "Lagged" (PyFloat (Fin 2)))
           eq_refl Hin eq_refl eq_refl Ht Hin).
Defined.

(* ================================================================== *)
(** ** Options that are not finite, and the order of the checks *)

(** X5. A NaN or infinite option of a regressor whose transform takes an
    option makes [int(option)] raise: the step ends with an uncaught
    ValueError (NaN) or OverflowError (infinity), with nothing shown and
    nothing stored, and no run over keys that include 'regressors' ends
    normally. *)
Theorem non_finite_option_raises (sheetnames : list string) (d : pydict)
        (keys : list string) (r : regdict) (regressor : string)
        (e : regspec) (x : float64) :
  dict_get "regressors" d = Some (VDict r) ->
  dict_get regressor r = Some e ->
  In (transform e) option_transforms ->
  option_ e = PyFloat x -> is_finite x = false ->
  In "regressors" keys ->
  check_regressor regressor (mkState d [])
  = Raised (match x with NaN => ValueError | _ => OverflowError end)
           (mkState d [])
  /\ forall s', validate sheetnames d keys <> Done tt s'.
Proof.
  intros Hg He Ht Ho Hx Hin. apply str_in_In in Ht. split.
  - exact (check_regressor_not_finite regressor e r (mkState d []) Hg He
             x Ht Ho Hx).
  - intros s' E.
    destruct (validate_done_regressor _ _ _ _ _ _ _ E Hin Hg He)
      as (r1 & e1 & s1 & s2 & Hg1 & He1 & Ht1 & Ho1 & E1).
    assert (Ho' : option_ e1 = PyFloat x).
    { destruct Ho1 as [->|(_ & q & Eq & _)]; [exact Ho|].
      rewrite Ho in Eq. injection Eq as ->. discriminate. }
    rewrite <- Ht1 in Ht.
    rewrite (check_regressor_not_finite _ _ _ _ Hg1 He1 x Ht Ho' Hx) in E1.
    discriminate.
Qed.

Lemma non_finite_option_raises_witness :
  In "Power" option_transforms /\ is_finite NaN = false
  /\ In "regressors" ["regressors"]
  /\ check_regressor "gdp_trans_0_Power" (mkState nan_option_params [])
     = Raised ValueError (mkState nan_option_params [])
  /\ forall s', validate [] nan_option_params ["regressors"] <> Done tt s'.
Proof.
  assert (Ht : In "Power" option_transforms) by (simpl; auto).
  assert (Hin : In "regressors" ["regressors"]) by (simpl; auto).
  split; [exact Ht|]. split; [reflexivity|]. split; [exact Hin|].
  exact (non_finite_option_raises [] nan_option_params ["regressors"]
           [("gdp_trans_0_Power", mkRegspec "Power" (PyFloat NaN))]
           "gdp_trans_0_Power" (mkRegspec "Power" (PyFloat NaN)) NaN
           eq_refl eq_refl Ht eq_refl eq_refl Hin).
Defined.

Lemma for_each_checks_first {A} (p : A -> bool) (m : A -> message)
      (l1 l2 : list A) (a : A) (s : state) :
  forallb p l1 = true -> p a = false ->
  for_each (l1 ++ a :: l2)
           (fun a => when (negb (p a)) (show_message (m a) true)) s
  = Halted (m a) (shows (m a) s).
Proof.
  intros H1 Ha. induction l1 as [|b l1 IH]; simpl in *.
  - unfold bind. now rewrite Ha.
  - apply andb_true_iff in H1 as [Hb H1]. unfold bind. rewrite Hb. simpl.
    now apply IH.
Qed.

(** X6. The quantile list is checked in a fixed order.  A list with an
    entry outside (0,1) halts the validator with the message on the range,
    whatever levels it lacks; a list within the range halts with the
    message for the first of 0.10, 0.25, 0.50, 0.75, 0.90 that has no equal
    entry. *)
Theorem quantlist_check_order (sheetnames : list string) (d : pydict)
        (l : list float64) :
  dict_get "quantlist" d = Some (VList l) ->
  (~ Forall strictly_in_unit l ->
   validate sheetnames d ["quantlist"]
   = Halted (QuantlistOutOfRange l) (mkState d [QuantlistOutOfRange l]))
  /\ (Forall strictly_in_unit l ->
      forall before c after,
        necessary_vals = before ++ Fin c :: after ->
        (forall b, In (Fin b) before -> present b l) ->
        ~ present c l ->
        validate sheetnames d ["quantlist"]
        = Halted (QuantlistMissing (Fin c) l)
                 (mkState d [QuantlistMissing (Fin c) l])).
Proof.
  intro H. rewrite (validate_quantlist _ _ _ H).
  unfold check_quantlist, bind. split.
  - intro Hn.
    destruct (forallb (fun v => f_lt (Fin 0) v) l
              && forallb (fun v => f_lt v (Fin 1)) l) eqn:Hr.
    + exfalso. apply Hn. now apply range_check_iff.
    + reflexivity.
  - intros Hr before c after Hsplit Hbefore Hc.
    apply range_check_iff in Hr. rewrite Hr.
    simpl when. change (ret tt (mkState d [])) with (Done tt (mkState d [])).
    cbv beta iota. rewrite Hsplit.
    apply (for_each_checks_first (fun c => float_in c l)
             (fun c => QuantlistMissing c l)).
    + apply forallb_forall. intros b Hb.
      assert (exists q, b = Fin q) as (q & ->).
      { assert (Hin : In b necessary_vals)
          by (rewrite Hsplit; apply in_or_app; now left).
        simpl in Hin. decompose [or] Hin; subst; try contradiction; eauto. }
      apply float_in_iff. now apply Hbefore.
    + destruct (float_in (Fin c) l) eqn:E; [|reflexivity].
      apply float_in_iff in E. contradiction.
Qed.

Lemma quantlist_check_order_witness :
  dict_get "quantlist" [("quantlist", VList quantlist_out_of_range)]
  = Some (VList quantlist_out_of_range)
  /\ ~ Forall strictly_in_unit quantlist_out_of_range
  /\ ~ canonical_present quantlist_out_of_range
  /\ validate [] [("quantlist", VList quantlist_out_of_range)] ["quantlist"]
     = Halted (QuantlistOutOfRange quantlist_out_of_range)
              (mkState [("quantlist", VList quantlist_out_of_range)]
                       [QuantlistOutOfRange quantlist_out_of_range]).
Proof.
  assert (Hr : ~ Forall strictly_in_unit quantlist_out_of_range).
  { intro H. apply range_check_iff in H. discriminate H. }
  split; [reflexivity|]. split; [exact Hr|]. split.
  - intro H. apply necessary_vals_iff in H. discriminate H.
  - exact (proj1 (quantlist_check_order []
                    [("quantlist", VList quantlist_out_of_range)]
                    quantlist_out_of_range eq_refl) Hr).
Defined.

(* ================================================================== *)
(** ** The sheet names *)

Lemma sheet_key_not_special (key : string) :
  str_contains "sheet_" key = true ->
  String.eqb key "quantlist" = false /\ String.eqb key "regressors" = false.
Proof.
  intro H. split.
  - destruct (String.eqb_spec key "quantlist") as [->|_];
      [discriminate H|reflexivity].
  - destruct (String.eqb_spec key "regressors") as [->|_];
      [discriminate H|reflexivity].
Qed.

(** On a key that holds 'sheet_' and is not 'sheet_input', the body of the
    loop is the check of an output sheet. *)
Lemma check_key_sheet_output (sheetnames : list string) (key : string)
      (v : value) (s : state) :
  dict_get key (params s) = Some v ->
  str_contains "sheet_" key = true ->
  String.eqb key "sheet_input" = false ->
  check_key sheetnames key s = check_sheet_output key v s.
Proof.
  intros Hg Hc Hi. destruct (sheet_key_not_special _ Hc) as [Hq Hr].
  unfold check_key, bind. rewrite (getitem_found _ _ _ Hg).
  now rewrite Hq, Hr, Hi, Hc.
Qed.

Lemma check_key_sheet_input (sheetnames : list string) (v : value)
      (s : state) :
  dict_get "sheet_input" (params s) = Some v ->
  check_key sheetnames "sheet_input" s
  = check_sheet_input sheetnames "sheet_input" v s.
Proof.
  intros Hg. unfold check_key, bind. now rewrite (getitem_found _ _ _ Hg).
Qed.

Lemma default_output_sheet (key name : string) :
  String.eqb key "sheet_input" = false ->
  default_sheet key = Some name -> ~ In name input_sheets.
Proof.
  unfold default_sheet. intros ->.
  destruct (String.eqb key "sheet_quantreg").
  - intros [= <-]. simpl. intros H. decompose [or] H; discriminate || auto.
  - destruct (String.eqb key "sheet_cond_quant"); [|discriminate].
    intros [= <-]. simpl. intros H. decompose [or] H; discriminate || auto.
Qed.

(** A sheet name, once there, stays. *)
Lemma params_updated_sheet (d d' : pydict) (key name : string) :
  params_updated d d' -> dict_get key d = Some (VStr name) ->
  dict_get key d' = Some (VStr name).
Proof.
  intros H Hg. pose proof (params_updated_get d d' key H) as G.
  rewrite Hg in G. destruct (dict_get key d') as [v'|]; [|contradiction].
  destruct G as [E|[(n & E & _)|(r & r' & _ & E & _)]]; congruence.
Qed.

(** X7. When a run of the validator ends normally, every key it was called
    with that holds 'sheet_', other than 'sheet_input', and whose value was
    a name or was left unspecified, maps to a sheet name that is none of
    the five input sheets: the name passed in, or the fixed default of the
    key when none was. *)
Theorem validated_output_sheet (sheetnames : list string) (d : pydict)
        (keys : list string) (s' : state) (key : string) (v : value) :
  validate sheetnames d keys = Done tt s' -> In key keys ->
  str_contains "sheet_" key = true -> key <> "sheet_input" ->
  dict_get key d = Some v ->
  (v = VNone \/ exists name, v = VStr name) ->
  exists name,
    dict_get key (params s') = Some (VStr name)
    /\ ~ In name input_sheets
    /\ (v = VStr name \/ (v = VNone /\ default_sheet key = Some name)).
Proof.
  intros E Hin Hc Hne Hg Hv.
  assert (Hi : String.eqb key "sheet_input" = false)
    by (destruct (String.eqb_spec key "sheet_input"); [contradiction|auto]).
  destruct (validate_done_key_between _ _ _ _ _ E Hin)
    as (s1 & s2 & Hu1 & E1 & Hu2).
  pose proof (params_updated_get d (params s1) key Hu1) as G.
  rewrite Hg in G. destruct (dict_get key (params s1)) as [v1|] eqn:Hg1;
    [|contradiction].
  rewrite (check_key_sheet_output _ _ _ _ Hg1 Hc Hi) in E1.
  destruct Hv as [->|(name & ->)].
  - (* unspecified *)
    assert (Hcase : v1 = VNone
                    \/ exists name, v1 = VStr name
                                    /\ default_sheet key = Some name).
    { destruct G as [->|[(n & _ & Hd & ->)|(r & r' & _ & E0 & _)]];
        [now left|right; eauto|discriminate]. }
    destruct Hcase as [->|(name & -> & Hd)].
    + unfold check_sheet_output in E1. unfold default_sheet. rewrite Hi.
      destruct (String.eqb key "sheet_quantreg").
      * injection E1 as <-. eexists. split; [|split; [|right; eauto]].
        -- apply (params_updated_sheet _ _ _ _ Hu2). cbn [params].
           now rewrite dict_get_set, String.eqb_refl.
        -- simpl. intros H. decompose [or] H; discriminate || auto.
      * destruct (String.eqb key "sheet_cond_quant"); [|discriminate].
        injection E1 as <-. eexists. split; [|split; [|right; eauto]].
        -- apply (params_updated_sheet _ _ _ _ Hu2). cbn [params].
           now rewrite dict_get_set, String.eqb_refl.
        -- simpl. intros H. decompose [or] H; discriminate || auto.
    + unfold check_sheet_output in E1.
      destruct (str_in name input_sheets) eqn:Hs; [discriminate|].
      injection E1 as <-. exists name.
      split; [exact (params_updated_sheet _ _ _ _ Hu2 Hg1)|].
      split; [exact (default_output_sheet _ _ Hi Hd)|auto].
  - (* a name *)
    assert (v1 = VStr name) as ->.
    { destruct G as [->|[(n & E0 & _)|(r & r' & _ & E0 & _)]];
        [reflexivity|discriminate|discriminate]. }
    unfold check_sheet_output in E1.
    destruct (str_in name input_sheets) eqn:Hs; [discriminate|].
    injection E1 as <-. exists name.
    split; [exact (params_updated_sheet _ _ _ _ Hu2 Hg1)|].
    split; [|now left].
    intro H. apply str_in_In in H. congruence.
Qed.

Lemma validated_output_sheet_witness :
  validate [] sample_params quantfit_keys
  = Done tt (mkState sample_params_validated [])
  /\ exists name,
      dict_get "sheet_quantreg" sample_params_validated = Some (VStr name)
      /\ ~ In name input_sheets
      /\ (VNone = VStr name
          \/ (VNone = VNone /\ default_sheet "sheet_quantreg" = Some name)).
Proof.
  split; [reflexivity|].
  assert (Hin : In "sheet_quantreg" quantfit_keys) by (simpl; auto).
  assert (Hne : "sheet_quantreg" <> "sheet_input") by discriminate.
  exact (validated_output_sheet [] sample_params quantfit_keys
           (mkState sample_params_validated []) "sheet_quantreg" VNone
           eq_refl Hin eq_refl Hne eq_refl (or_introl eq_refl)).
Defined.

(** An output sheet named as an input sheet halts the validator. *)
Example output_sheet_named_data_halts :
  validate [] (sheet_params (VStr "Data")) ["sheet_cond_quant"]
  = Halted (SheetIsInput "sheet_cond_quant" "Data")
           (mkState (sheet_params (VStr "Data"))
                    [SheetIsInput "sheet_cond_quant" "Data"]).
Proof. reflexivity. Qed.

(** X8. The input sheet.  When it is left unspecified the validator stores
    the default 'Output_partitions' and then looks for that sheet in the
    workbook: the run ends normally when it is there, and halts otherwise,
    with the default already stored.  A name that is given is accepted as
    it is, whether or not the workbook has such a sheet. *)
Theorem input_sheet_rule (sheetnames : list string) (d : pydict)
        (v : value) :
  dict_get "sheet_input" d = Some v ->
  (v = VNone ->
   (In "Output_partitions" sheetnames ->
    validate sheetnames d ["sheet_input"]
    = Done tt (mkState (dict_set "sheet_input" (VStr "Output_partitions") d)
                       []))
   /\ (~ In "Output_partitions" sheetnames ->
       validate sheetnames d ["sheet_input"]
       = Halted (InputSheetMissing "Output_partitions")
                (mkState (dict_set "sheet_input" (VStr "Output_partitions") d)
                         [InputSheetMissing "Output_partitions"])))
  /\ (forall name, v = VStr name ->
                   validate sheetnames d ["sheet_input"]
                   = Done tt (mkState d [])).
Proof.
  intro Hg. rewrite (validate_one_key _ _ _ _ Hg).
  rewrite (check_key_sheet_input sheetnames v (mkState d []) Hg).
  split.
  - intros ->. unfold check_sheet_input, bind, setitem, bind, get_params,
      put_params. cbn [params shown]. split; intro H.
    + apply str_in_In in H. now rewrite H.
    + destruct (str_in "Output_partitions" sheetnames) eqn:E;
        [apply str_in_In in E; contradiction|reflexivity].
  - intros name ->. reflexivity.
Qed.

Lemma input_sheet_rule_witness :
  dict_get "sheet_input" [("sheet_input", VNone)] = Some VNone
  /\ ~ In "Output_partitions" ["Data"; "Readme"]
  /\ validate ["Data"; "Readme"] [("sheet_input", VNone)] ["sheet_input"]
     = Halted (InputSheetMissing "Output_partitions")
              (mkState [("sheet_input", VStr "Output_partitions")]
                       [InputSheetMissing "Output_partitions"]).
Proof.
  assert (H : ~ In "Output_partitions" ["Data"; "Readme"]).
  { simpl. intros [E|[E|[]]]; discriminate E. }
  split; [reflexivity|]. split; [exact H|].
  exact (proj2 (proj1 (input_sheet_rule ["Data"; "Readme"]
                         [("sheet_input", VNone)] VNone eq_refl) eq_refl) H).
Defined.

(* ================================================================== *)
(** ** What the reader stores *)

(** The entry found under a key after the loop of the reader: that of the
    last row that gives the key, the one of the initial dictionary else. *)
Lemma read_regressors_from_get (k : string) (rows : list row) :
  forall (i : nat) (d : regdict),
    dict_get k (read_regressors_from i rows d)
    = match dict_get k (read_regressors_from i rows []) with
      | Some e => Some e
      | None => dict_get k d
      end.
Proof.
  induction rows as [|[[r t] o] rows IH]; intros i d; simpl.
  - reflexivity.
  - rewrite (IH (S i) (dict_set _ _ d)).
    rewrite (IH (S i) [(regressor_key r i t, mkRegspec t o)]).
    destruct (dict_get k (read_regressors_from (S i) rows [])); [reflexivity|].
    rewrite dict_get_set. simpl.
    now destruct (String.eqb k (regressor_key r i t)).
Qed.

Lemma read_regressors_from_absent (k : string) (rows : list row) :
  forall i, ~ In k (names_from i rows) ->
            dict_get k (read_regressors_from i rows []) = None.
Proof.
  induction rows as [|[[r t] o] rows IH]; intros i H; simpl in *.
  - reflexivity.
  - rewrite read_regressors_from_get. rewrite IH by tauto. simpl.
    destruct (String.eqb_spec k (regressor_key r i t)) as [->|_];
      [|reflexivity].
    tauto.
Qed.

Lemma read_regressors_from_app (i : nat) (rows1 rows2 : list row)
      (d : regdict) :
  read_regressors_from i (rows1 ++ rows2) d
  = read_regressors_from (i + List.length rows1) rows2
      (read_regressors_from i rows1 d).
Proof.
  revert i d. induction rows1 as [|[[r t] o] rows1 IH]; intros i d; simpl.
  - now rewrite Nat.add_0_r.
  - rewrite IH. f_equal. lia.
Qed.

Lemma read_regressors_from_origin (k : string) (e : regspec)
      (rows : list row) :
  forall i d,
    dict_get k (read_regressors_from i rows d) = Some e ->
    dict_get k d = Some e
    \/ exists j r o,
        nth_error rows j = Some (r, transform e, o)
        /\ k = regressor_key r (i + j) (transform e) /\ option_ e = o.
Proof.
  induction rows as [|[[r t] o] rows IH]; intros i d H; simpl in H.
  - now left.
  - destruct (IH _ _ H) as [H0|(j & r' & o' & Hn & Hk & Ho)].
    + rewrite dict_get_set in H0.
      destruct (String.eqb_spec k (regressor_key r i t)) as [->|_].
      * injection H0 as <-. right. exists 0%nat, r, o. simpl.
        rewrite Nat.add_0_r. auto.
      * now left.
    + right. exists (S j), r', o'. simpl. split; [exact Hn|].
      split; [|exact Ho]. rewrite Hk. f_equal. lia.
Qed.

(** X9. What the reader stores.  Every entry of the dictionary of
    regressors comes from a row of the sheet: its key is the key of that
    row, built with the position of the row, and it holds the transform and
    the option of that row.  Conversely the row at position [i] is found
    under its key with its own transform and option, provided no later row
    gives the same key. *)
Theorem reader_entries (before after : list row) (regressor t : string)
        (o : pyval) :
  ~ In (regressor_key regressor (List.length before) t)
       (names_from (S (List.length before)) after) ->
  dict_get (regressor_key regressor (List.length before) t)
           (read_regressors (before ++ (regressor, t, o) :: after))
  = Some (mkRegspec t o)
  /\ forall k e,
      dict_get k (read_regressors (before ++ (regressor, t, o) :: after))
      = Some e ->
      exists j r' o',
        nth_error (before ++ (regressor, t, o) :: after) j
        = Some (r', transform e, o')
        /\ k = regressor_key r' j (transform e)
        /\ option_ e = o'.
Proof.
  intro Hlast. split.
  - unfold read_regressors. rewrite read_regressors_from_app. simpl.
    rewrite read_regressors_from_get.
    rewrite (read_regressors_from_absent _ _ _ Hlast).
    now rewrite dict_get_set, String.eqb_refl.
  - intros k e H. unfold read_regressors in H.
    destruct (read_regressors_from_origin _ _ _ _ _ H)
      as [H0|(j & r' & o' & Hn & Hk & Ho)]; [discriminate|].
    exists j, r', o'. auto.
Qed.

Lemma reader_entries_witness :
  ~ In (regressor_key "gdp_trans_0_X" (List.length (firstn 1 overwritten_rows))
                      "None")
       (names_from (S (List.length (firstn 1 overwritten_rows)))
                   (skipn 2 overwritten_rows))
  /\ dict_get "gdp_trans_0_X_trans_1_None" (read_regressors overwritten_rows)
     = Some (mkRegspec "None" PyNone).
Proof.
  assert (H : ~ In (regressor_key "gdp_trans_0_X"
                      (List.length (firstn 1 overwritten_rows)) "None")
                   (names_from (S (List.length (firstn 1 overwritten_rows)))
                               (skipn 2 overwritten_rows))).
  { simpl. intros [E|[]]. discriminate E. }
  split; [exact H|].
  exact (proj1 (reader_entries (firstn 1 overwritten_rows)
                  (skipn 2 overwritten_rows) "gdp_trans_0_X" "None"
                  PyNone H)).
Defined.

(** When two rows give the same key, the later one is what the key holds,
    at the place of the earlier one. *)
Example later_row_overwrites :
  read_regressors overwritten_rows
  = [("gdp_trans_0_X_trans_1_None", mkRegspec "None" PyNone);
     ("credit_trans_2_Lagged", mkRegspec "Lagged" (PyFloat (Fin 1)))].
Proof. reflexivity. Qed.

(* ================================================================== *)
(** ** The source column of a regressor *)

Lemma prefix_app (a u : string) : String.prefix a (a ++ u) = true.
Proof.
  induction a as [|c a IH]; simpl.
  - now destruct u.
  - destruct (ascii_dec c c); [exact IH|contradiction].
Qed.

Lemma prefix_true (a s : string) :
  String.prefix a s = true -> exists u, s = (a ++ u)%string.
Proof.
  revert s. induction a as [|c a IH]; intros s H.
  - exists s. reflexivity.
  - destruct s as [|c' s]; simpl in H; [discriminate|].
    destruct (ascii_dec c c') as [<-|_]; [|discriminate].
    destruct (IH _ H) as (u & ->). now exists u.
Qed.

(** After a name in which '_trans' does not start, '_trans_' is not found
    before the end of the name. *)
Lemma no_early_separator (r rest : string) :
  r <> EmptyString ->
  String.prefix "_trans" r = false ->
  String.prefix "_trans_" (r ++ "_trans_" ++ rest) = false.
Proof.
  intros Hne Hp.
  destruct (String.prefix "_trans_" (r ++ "_trans_" ++ rest)) eqn:E;
    [|reflexivity].
  exfalso. apply prefix_true in E as (u & E).
  destruct r as [|c1 r]; [contradiction|].
  simpl in E. injection E as -> E.
  destruct r as [|c2 r]; [discriminate E|]. simpl in E. injection E as -> E.
  destruct r as [|c3 r]; [discriminate E|]. simpl in E. injection E as -> E.
  destruct r as [|c4 r]; [discriminate E|]. simpl in E. injection E as -> E.
  destruct r as [|c5 r]; [discriminate E|]. simpl in E. injection E as -> E.
  destruct r as [|c6 r]; [discriminate E|]. simpl in E. injection E as -> E.
  change (String "_" (String "t" (String "r" (String "a" (String "n"
            (String "s" r))))))
    with ("_trans" ++ r)%string in Hp.
  rewrite prefix_app in Hp. discriminate.
Qed.

Lemma split_head_separator (rest : string) :
  split_head "_trans_" ("_trans_" ++ rest) = EmptyString.
Proof.
  change ("_trans_" ++ rest)%string
    with (String "_" ("trans_" ++ rest))%string.
  cbn [split_head].
  change (String "_" ("trans_" ++ rest))%string
    with ("_trans_" ++ rest)%string.
  now rewrite prefix_app.
Qed.

Lemma split_head_name (r rest : string) :
  occurs "_trans" r = false ->
  split_head "_trans_" (r ++ "_trans_" ++ rest) = r.
Proof.
  induction r as [|c r IH]; intro H.
  - apply split_head_separator.
  - cbn [occurs] in H. apply orb_false_iff in H as [Hp Ho].
    change ((String c r ++ "_trans_" ++ rest)%string)
      with (String c (r ++ "_trans_" ++ rest))%string.
    cbn [split_head].
    change (String c (r ++ "_trans_" ++ rest))%string
      with ((String c r ++ "_trans_" ++ rest)%string).
    rewrite (no_early_separator (String c r) rest) by (discriminate || easy).
    now rewrite (IH Ho).
Qed.

(** X10. For a regressor in whose name '_trans' does not occur, the
    transform loop recovers the name from the key: the part of the key
    before the first '_trans_' is the name of the regressor, whatever the
    position and the transform. *)
Theorem source_column_name (regressor : string) (i : nat) (t : string) :
  occurs "_trans" regressor = false ->
  split_head "_trans_" (regressor_key regressor i t) = regressor.
Proof.
  intro H. unfold regressor_key.
  apply (split_head_name regressor (str_of_nat i ++ "_" ++ t) H).
Qed.

Lemma source_column_name_witness :
  occurs "_trans" "gdp_growth" = false
  /\ split_head "_trans_" (regressor_key "gdp_growth" 12 "ChangeRate")
     = "gdp_growth".
Proof.
  split; [reflexivity|].
  exact (source_column_name "gdp_growth" 12 "ChangeRate" eq_refl).
Defined.

(** A name that ends with '_trans', or that holds '_trans_', is cut short:
    the loop then reads another column. *)
Example source_column_cut_short :
  split_head "_trans_" (regressor_key "gdp_trans" 0 "None") = "gdp"
  /\ split_head "_trans_" (regressor_key "a_trans_b" 0 "None") = "a".
Proof. split; reflexivity. Qed.

(* ================================================================== *)
(** ** The frame after the transform loop *)

Lemma transform_series_length (t : string) (opt : pyval) (x y : series) :
  transform_series t opt x = inr (Some y) -> List.length y = List.length x.
Proof.
  unfold transform_series.
  destruct (String.eqb t "None"); [intros [= <-]; reflexivity|].
  destruct (str_in t option_transforms); [|discriminate].
  destruct opt as [| |k|]; try discriminate.
  destruct (String.eqb t "Lagged"); [intros [= <-]; apply shift_length|].
  destruct (String.eqb t "MVA").
  { destruct (k <? 0)%Z; [discriminate|].
    intros [= <-]. apply rolling_mean_length. }
  destruct (String.eqb t "Power").
  { intros [= <-]. unfold power. apply length_map. }
  destruct (String.eqb t "Diff"); [intros [= <-]; apply diff_length|].
  intros [= <-]. apply pct_change_length.
Qed.

Lemma dict_get_Forall {V} (P : string * V -> Prop) (k : string) (v : V)
      (d : list (string * V)) :
  Forall P d -> dict_get k d = Some v -> P (k, v).
Proof.
  induction 1 as [|[k0 v0] d Hp _ IH]; simpl; [discriminate|].
  destruct (String.eqb_spec k k0) as [->|_]; [|exact IH].
  now intros [= <-].
Qed.

Lemma dict_set_Forall {V} (P : string * V -> Prop) (k : string) (v : V)
      (d : list (string * V)) :
  Forall P d -> P (k, v) -> Forall P (dict_set k v d).
Proof.
  intros H Hv. induction H as [|[k0 v0] d Hp Hd IH]; simpl.
  - now constructor.
  - destruct (String.eqb_spec k k0) as [->|_]; constructor; auto.
Qed.

Lemma add_regressors_rectangular (n : nat) (regs : regdict)
      (names : list string) :
  forall df df',
    rectangular n df -> add_regressors regs names df = inr df' ->
    rectangular n df'.
Proof.
  induction names as [|name names IH]; intros df df' Hr E.
  - simpl in E. now injection E as <-.
  - cbn [add_regressors] in E.
    destruct (dict_get name regs) as [e|]; [|discriminate].
    destruct (str_in (transform e) valid_transforms); [|now apply (IH df)].
    destruct (dict_get (split_head "_trans_" name) df) as [x|] eqn:Hx;
      [|discriminate].
    destruct (transform_series (transform e) (option_ e) x)
      as [err|[col|]] eqn:Et; [discriminate| |now apply (IH df)].
    apply (IH _ _ (dict_set_Forall _ name col df Hr
                     (eq_trans (transform_series_length _ _ _ _ Et)
                               (dict_get_Forall _ _ _ _ Hr Hx))) E).
Qed.

(** X11. The transform loop keeps the frame aligned: when every column of
    the frame has [n] rows and the loop runs to its end, every column of
    the result, the added ones included, has [n] rows. *)
Theorem frame_stays_rectangular (n : nat) (regs : regdict) (df df' : frame) :
  rectangular n df -> run_transforms regs df = inr df' -> rectangular n df'.
Proof. apply add_regressors_rectangular. Qed.

Lemma sample_frame_rectangular : rectangular 3 sample_frame.
Proof. repeat constructor. Qed.

Lemma frame_stays_rectangular_witness :
  rectangular 3 sample_frame
  /\ exists df', run_transforms sample_regressors_validated sample_frame
                 = inr df'
                 /\ List.length df' = 4%nat /\ rectangular 3 df'.
Proof.
  split; [exact sample_frame_rectangular|].
  eexists. split; [reflexivity|]. split; [reflexivity|].
  exact (frame_stays_rectangular 3 sample_regressors_validated sample_frame
           _ sample_frame_rectangular eq_refl).
Defined.

Lemma add_regressors_other (regs : regdict) (names : list string)
      (c : string) :
  ~ In c names ->
  forall df df', add_regressors regs names df = inr df' ->
                 dict_get c df' = dict_get c df.
Proof.
  induction names as [|name names IH]; intros Hc df df' E.
  - simpl in E. now injection E as <-.
  - cbn [add_regressors] in E.
    assert (Hc' : ~ In c names) by (intro; apply Hc; now right).
    destruct (dict_get name regs) as [e|]; [|discriminate].
    destruct (str_in (transform e) valid_transforms); [|now apply IH].
    destruct (dict_get (split_head "_trans_" name) df) as [x|];
      [|discriminate].
    destruct (transform_series (transform e) (option_ e) x)
      as [err|[col|]]; [discriminate| |now apply IH].
    rewrite (IH Hc' _ _ E), dict_get_set.
    destruct (String.eqb_spec c name) as [->|_]; [|reflexivity].
    exfalso. apply Hc. now left.
Qed.

Lemma add_regressors_feature (regs : regdict) (names : list string) :
  NoDup names ->
  (forall n m, In n names -> In m names -> split_head "_trans_" n <> m) ->
  forall df df', add_regressors regs names df = inr df' ->
  forall name, In name names ->
  exists e,
    dict_get name regs = Some e
    /\ (str_in (transform e) valid_transforms = true ->
        exists x y,
          dict_get (split_head "_trans_" name) df = Some x
          /\ transformed (transform e) (option_ e) x y
          /\ dict_get name df' = Some y).
Proof.
  induction names as [|a names IH]; intros Hnd Hsrc df df' E name Hin;
    [contradiction|].
  cbn [add_regressors] in E.
  inversion Hnd as [|a' l Ha Hnd']; subst.
  assert (Hsrc' : forall n m, In n names -> In m names ->
                              split_head "_trans_" n <> m)
    by (intros n m Hn Hm; apply Hsrc; now right).
  destruct (dict_get a regs) as [ea|] eqn:Hea; [|discriminate].
  destruct (str_in (transform ea) valid_transforms) eqn:Hva.
  - destruct (dict_get (split_head "_trans_" a) df) as [x|] eqn:Hx;
      [|discriminate].
    pose proof (transform_series_valid _ (option_ ea) x Hva) as Hs.
    destruct (transform_series (transform ea) (option_ ea) x)
      as [err|[col|]] eqn:Et; [discriminate| |contradiction].
    destruct Hin as [<-|Hin].
    + exists ea. split; [exact Hea|]. intros _. exists x, col.
      split; [exact Hx|]. split; [exact Et|].
      rewrite (add_regressors_other regs names a Ha _ _ E).
      now rewrite dict_get_set, String.eqb_refl.
    + destruct (IH Hnd' Hsrc' _ _ E name Hin) as (e & He & Hf).
      exists e. split; [exact He|]. intro Hv.
      destruct (Hf Hv) as (x' & y & Hx' & Hy & Hd).
      exists x', y. split; [|auto].
      rewrite dict_get_set in Hx'.
      destruct (String.eqb_spec (split_head "_trans_" name) a) as [Heq|_];
        [|exact Hx'].
      exfalso. apply (Hsrc name a); [now right|now left|exact Heq].
  - destruct Hin as [<-|Hin].
    + exists ea. split; [exact Hea|]. rewrite Hva. discriminate.
    + exact (IH Hnd' Hsrc' _ _ E name Hin).
Qed.

(** X12. When the transform loop runs to its end on a dictionary whose keys
    are distinct and none of which is the source name of a key: every
    column whose name is not a key of a regressor is as it was, and for
    every regressor with one of the six transforms the column added under
    its key is the transform of the column that the frame passed in held
    under the part of the key before '_trans_'. *)
Theorem transform_loop_columns (regs : regdict) (df df' : frame) :
  NoDup (dict_keys regs) ->
  (forall n m, In n (dict_keys regs) -> In m (dict_keys regs) ->
               split_head "_trans_" n <> m) ->
  run_transforms regs df = inr df' ->
  (forall c, ~ In c (dict_keys regs) -> dict_get c df' = dict_get c df)
  /\ (forall name e,
         dict_get name regs = Some e ->
         In (transform e) valid_transforms ->
         exists x y,
           dict_get (split_head "_trans_" name) df = Some x
           /\ transformed (transform e) (option_ e) x y
           /\ dict_get name df' = Some y).
Proof.
  intros Hnd Hsrc E. split.
  - intros c Hc. exact (add_regressors_other regs _ c Hc _ _ E).
  - intros name e He Hv.
    destruct (add_regressors_feature regs (dict_keys regs) Hnd Hsrc _ _ E
                name (dict_get_keys _ _ _ He)) as (e' & He' & Hf).
    rewrite He in He'. injection He' as <-.
    apply Hf. now apply str_in_In.
Qed.

Lemma sample_regressors_sources :
  forall n m, In n (dict_keys sample_regressors_validated) ->
              In m (dict_keys sample_regressors_validated) ->
              split_head "_trans_" n <> m.
Proof.
  simpl. intros n m [<-|[<-|[]]] [<-|[<-|[]]]; discriminate.
Qed.

Lemma transform_loop_columns_witness :
  NoDup (dict_keys sample_regressors_validated)
  /\ exists df',
      run_transforms sample_regressors_validated sample_frame = inr df'
      /\ dict_get "gdp" df' = dict_get "gdp" sample_frame
      /\ exists x y,
          dict_get "gdp" sample_frame = Some x
          /\ transformed "Lagged" (PyInt 2) x y
          /\ dict_get "gdp_trans_0_Lagged" df' = Some y.
Proof.
  assert (Hnd : NoDup (dict_keys sample_regressors_validated)).
  { simpl. repeat constructor; simpl; intuition discriminate. }
  split; [exact Hnd|].
  eexists. split; [reflexivity|].
  destruct (transform_loop_columns sample_regressors_validated sample_frame
              _ Hnd sample_regressors_sources eq_refl) as [Hother Hfeat].
  split.
  - apply Hother. simpl. intuition discriminate.
  - exact (Hfeat "gdp_trans_0_Lagged" (mkRegspec "Lagged" (PyInt 2)) eq_refl
             (or_intror (or_introl eq_refl))).
Defined.

(* ================================================================== *)
(** ** The transform loop after validation *)

Lemma dict_keys_get {V} (k : string) (d : list (string * V)) :
  In k (dict_keys d) -> exists v, dict_get k d = Some v.
Proof.
  induction d as [|[k0 v0] d IH]; simpl; [contradiction|].
  intros [->|H].
  - rewrite String.eqb_refl. eauto.
  - destruct (String.eqb k k0); eauto.
Qed.






Lemma add_regressors_skipped (regs : regdict) (names : list string)
      (df : frame) :
  (forall name, In name names ->
                exists e, dict_get name regs = Some e
                          /\ ~ In (transform e) valid_transforms) ->
  add_regressors regs names df = inr df.
Proof.
  induction names as [|name names IH]; intro H; [reflexivity|].
  cbn [add_regressors].
  destruct (H name (or_introl eq_refl)) as (e & He & Hv).
  rewrite He. destruct (str_in (transform e) valid_transforms) eqn:Es.
  - apply str_in_In in Es. contradiction.
  - apply IH. intros m Hm. apply H. now right.
Qed.

(** X14. The transform loop has no branch for a transform outside the six:
    on a dictionary that was not validated and whose regressors all have
    such a transform, it ends normally and returns the frame as it is, with
    no column added and no source column read. *)
Theorem unknown_transforms_skipped (regs : regdict) (df : frame) :
  (forall name e, dict_get name regs = Some e ->
                  ~ In (transform e) valid_transforms) ->
  run_transforms regs df = inr df.
Proof.
  intro H. apply add_regressors_skipped. intros name Hin.
  destruct (dict_keys_get name regs Hin) as (e & He).
  exists e. split; [exact He|]. exact (H _ _ He).
Qed.

Lemma unknown_transforms_skipped_witness :
  (forall name e,
      dict_get name [("gdp_trans_0_Log", mkRegspec "Log" PyNone)] = Some e ->
      ~ In (transform e) valid_transforms)
  /\ run_transforms [("gdp_trans_0_Log", mkRegspec "Log" PyNone)] []
     = inr [].
Proof.
  assert (H : forall name e,
             dict_get name [("gdp_trans_0_Log", mkRegspec "Log" PyNone)]
             = Some e -> ~ In (transform e) valid_transforms).
  { intros name e. simpl.
    destruct (String.eqb name "gdp_trans_0_Log"); [|discriminate].
    intros [= <-]. simpl. intuition discriminate. }
  split; [exact H|].
  exact (unknown_transforms_skipped
           [("gdp_trans_0_Log", mkRegspec "Log" PyNone)] [] H).
Defined.

(* ================================================================== *)
(** ** More on the columns of the transforms *)


Lemma row_at_out (x : series) (i : Z) :
  (i < 0 \/ Z.of_nat (List.length x) <= i)%Z -> row_at x i = NaN.
Proof.
  intro H. unfold row_at.
  destruct (Z.leb_spec 0 i); [|reflexivity].
  destruct (Z.ltb_spec i (Z.of_nat (List.length x))); [lia|reflexivity].
Qed.




(** X16. Burn-in rows.  With a lag [k > 0] the rows before row [k] of the
    columns computed by 'Lagged', 'Diff' and 'ChangeRate' are missing,
    whatever the column holds; with a window [k] the rows before row
    [k - 1] of the column computed by 'MVA' are missing. *)
Theorem burn_in_rows (x : series) (k : Z) (t : nat) :
  (t < List.length x)%nat -> (Z.of_nat t < k)%Z ->
  (forall y, transformed "Lagged" (PyInt k) x y -> nth t y NaN = NaN)
  /\ (forall y, transformed "Diff" (PyInt k) x y -> nth t y NaN = NaN)
  /\ (forall y, transformed "ChangeRate" (PyInt k) x y -> nth t y NaN = NaN)
  /\ (forall y, transformed "MVA" (PyInt k) x y ->
                (Z.of_nat t + 1 < k)%Z -> nth t y NaN = NaN).
Proof.
  intros Ht Hk.
  assert (Hout : forall z : series, row_at z (Z.of_nat t - k) = NaN)
    by (intro z; apply row_at_out; lia).
  split; [|split; [|split]]; intros y Hy; unfold transformed in Hy.
  - rewrite transform_lagged in Hy. injection Hy as <-.
    now rewrite shift_nth.
  - rewrite transform_diff in Hy. injection Hy as <-.
    rewrite diff_nth by assumption. apply f_sub_missing. now right.
  - rewrite transform_change_rate in Hy. injection Hy as <-.
    rewrite pct_change_nth by assumption.
    rewrite (f_div_missing _ _ (or_intror (Hout _))). reflexivity.
  - intro Hw. rewrite transform_mva in Hy.
    destruct (Z.ltb_spec k 0); [lia|]. injection Hy as <-.
    apply rolling_mean_burn_in; [assumption|lia].
Qed.

Lemma burn_in_rows_witness :
  (1 < List.length one_to_ten)%nat /\ (Z.of_nat 1 < 2)%Z
  /\ (forall y, transformed "Lagged" (PyInt 2) one_to_ten y ->
                nth 1 y NaN = NaN)
  /\ (forall y, transformed "Diff" (PyInt 2) one_to_ten y ->
                nth 1 y NaN = NaN)
  /\ (forall y, transformed "ChangeRate" (PyInt 2) one_to_ten y ->
                nth 1 y NaN = NaN)
  /\ (forall y, transformed "MVA" (PyInt 2) one_to_ten y ->
                (Z.of_nat 1 + 1 < 2)%Z -> nth 1 y NaN = NaN).
Proof.
  assert (H1 : (1 < List.length one_to_ten)%nat) by (repeat constructor).
  assert (H2 : (Z.of_nat 1 < 2)%Z) by reflexivity.
  split; [exact H1|]. split; [exact H2|].
  exact (burn_in_rows one_to_ten 2 1 H1 H2).
Defined.

Lemma isna_true (v : float64) : isna v = true <-> v = NaN.
Proof. destruct v; simpl; split; congruence. Qed.

Lemma pad_from_idempotent (x : series) :
  forall last, pad_from last (pad_from last x) = pad_from last x.
Proof.
  induction x as [|a x IH]; intro last; simpl; [reflexivity|].
  destruct (isna a) eqn:Ea; simpl.
  - destruct (isna last) eqn:El; now rewrite IH.
  - rewrite Ea. now rewrite IH.
Qed.

Lemma pad_missing_iff (x : series) (t : nat) :
  (t < List.length x)%nat ->
  (nth t (pad x) NaN = NaN
   <-> forall u, (u <= t)%nat -> nth u x NaN = NaN).
Proof.
  induction t as [|t IH]; intro Ht; rewrite pad_nth by assumption.
  - destruct (isna (nth 0 x NaN)) eqn:E.
    + apply isna_true in E. split; [|reflexivity].
      intros _ u Hu. now replace u with 0%nat by lia.
    + split.
      * intro H. rewrite H in E. discriminate.
      * intro H. apply H. lia.
  - destruct (isna (nth (S t) x NaN)) eqn:E.
    + apply isna_true in E. rewrite IH by lia. split.
      * intros H u Hu. destruct (Nat.eq_dec u (S t)) as [->|Hne];
          [exact E|apply H; lia].
      * intros H u Hu. apply H. lia.
    + split.
      * intro H. rewrite H in E. discriminate.
      * intro H. apply H. lia.
Qed.

(** X17. Padding, as 'ChangeRate' applies it before taking ratios.  The
    padded column has the length of the column; padding it again changes
    nothing; and a cell of the padded column is missing exactly when the
    cell of the column and all the cells before it are missing, so that
    only the leading missing cells stay missing. *)
Theorem padding_properties (x : series) (t : nat) :
  (t < List.length x)%nat ->
  List.length (pad x) = List.length x
  /\ pad (pad x) = pad x
  /\ (nth t (pad x) NaN = NaN
      <-> forall u, (u <= t)%nat -> nth u x NaN = NaN).
Proof.
  intro Ht. split; [apply pad_from_length|].
  split; [apply pad_from_idempotent|]. now apply pad_missing_iff.
Qed.

Lemma padding_properties_witness :
  (2 < List.length [NaN; Fin 1; NaN])%nat
  /\ pad [NaN; Fin 1; NaN] = [NaN; Fin 1; Fin 1]
  /\ (nth 2 (pad [NaN; Fin 1; NaN]) NaN = NaN
      <-> forall u, (u <= 2)%nat -> nth u [NaN; Fin 1; NaN] NaN = NaN).
Proof.
  assert (H : (2 < List.length [NaN; Fin 1; NaN])%nat)
    by (repeat constructor).
  split; [exact H|]. split; [reflexivity|].
  exact (proj2 (proj2 (padding_properties [NaN; Fin 1; NaN] 2 H))).
Defined.

(* ================================================================== *)
(** ** The moving average for any window, and powers *)







(** An infinite cell in the window makes the moving average missing, not
    infinite. *)
Example infinite_cell_in_window :
  rolling_mean 2 [Fin 1; Inf false; Fin 3; Fin 5]
  = [NaN; NaN; NaN; Fin ((3 + 5) / inject_Z 2)].
Proof. reflexivity. Qed.




(* ================================================================== *)
(** ** Merging the global parameters and reporting the sheets *)


Lemma dict_keys_app {V} (d d' : list (string * V)) :
  dict_keys (d ++ d') = (dict_keys d ++ dict_keys d')%list.
Proof. unfold dict_keys. apply map_app. Qed.





(** A global parameter named like a validated one stops the run. *)
Example global_key_clash :
  add_global_params [("horizon", "4"); ("sheet_input", "Data")]
                    sample_input_params
  = inl "sheet_input".
Proof. reflexivity. Qed.

Lemma substring_sheet (s : string) :
  forall m, substring m 6 s = "sheet_" -> substring m 5 s = "sheet".
Proof.
  induction s as [|c s IH]; intros [|m] H; simpl in H; try discriminate.
  - injection H as -> H.
    do 5 (destruct s as [|? s]; simpl in H; [discriminate|];
          injection H as -> H).
    reflexivity.
  - simpl. now apply IH.
Qed.

Lemma contains_sheet (key : string) :
  str_contains "sheet_" key = true -> str_contains "sheet" key = true.
Proof.
  unfold str_contains.
  destruct (index 0 "sheet_" key) as [m|] eqn:E; [|discriminate].
  intros _. apply index_correct1 in E. apply substring_sheet in E.
  destruct (index 0 "sheet" key) eqn:E'; [reflexivity|].
  exfalso. apply (index_correct3 0 m _ _ E'); [discriminate|lia|exact E].
Qed.

Lemma copy_sheet_names_fold {V} (d : list (string * V)) :
  forall acc,
    NoDup (dict_keys d) ->
    (forall k, In k (dict_keys d) -> ~ In k (dict_keys acc)) ->
    fold_left (fun out kv =>
                 if str_contains "sheet_" (fst kv)
                 then dict_set (fst kv) (snd kv) out else out) d acc
    = (acc ++ sheet_entries d)%list.
Proof.
  induction d as [|[k v] d IH]; intros acc Hnd Hfresh; simpl.
  - now rewrite app_nil_r.
  - simpl in Hnd. apply NoDup_cons_iff in Hnd as [Hnk Hnd].
    destruct (str_contains "sheet_" k) eqn:E.
    + rewrite (dict_set_fresh k v acc) by (apply Hfresh; now left).
      rewrite IH; [now rewrite <- app_assoc|assumption|].
      intros k' Hk'. rewrite dict_keys_app. simpl. intro Hin.
      apply in_app_or in Hin as [Hin|[<-|[]]]; [|contradiction].
      apply (Hfresh k'); [now right|assumption].
    + apply IH; [assumption|].
      intros k' Hk'. apply Hfresh. now right.
Qed.

Lemma filter_dict_set {V} (p : string -> bool) (k : string) (v : V)
      (d : list (string * V)) :
  p k = false ->
  filter (fun kv => p (fst kv)) (dict_set k v d)
  = filter (fun kv => p (fst kv)) d.
Proof.
  intro Hk. induction d as [|[k0 v0] d IH]; simpl; [now rewrite Hk|].
  destruct (String.eqb_spec k k0) as [<-|_]; simpl.
  - now rewrite Hk.
  - now rewrite IH.
Qed.

Lemma filter_sheet_entries {V} (d : list (string * V)) :
  filter (fun kv => str_contains "sheet" (fst kv)) (sheet_entries d)
  = sheet_entries d.
Proof.
  unfold sheet_entries. induction d as [|[k v] d IH]; simpl; [reflexivity|].
  destruct (str_contains "sheet_" k) eqn:E; [|exact IH].
  simpl. now rewrite (contains_sheet k E), IH.
Qed.

Lemma sheet_entries_get {V} (k : string) (v : V) (d : list (string * V)) :
  dict_get k d = Some v -> str_contains "sheet_" k = true ->
  In (k, v) (sheet_entries d).
Proof.
  intros Hg Hk. unfold sheet_entries. apply filter_In. split; [|exact Hk].
  induction d as [|[k0 v0] d IH]; simpl in *; [discriminate|].
  destruct (String.eqb_spec k k0) as [->|_].
  - injection Hg as ->. now left.
  - right. now apply IH.
Qed.

(** X21. The sheets of the closing message ([run_quantfit], [do_quantfit]).
    The keys of the parameters are distinct.  The sheets [do_quantfit]
    reports as holding the output are the values of all the parameters
    whose key contains 'sheet_', in their order, whatever results the run
    has stored; the sheet given under 'sheet_input' is among them, although
    it is the sheet the data were read from. *)
Theorem closing_message_sheets {V} (dict_input_quantfit : list (string * V))
        (regressors qcoef cond_quant localprj figs sheet : V) :
  NoDup (dict_keys dict_input_quantfit) ->
  dict_get "sheet_input" dict_input_quantfit = Some sheet ->
  reported_sheets (add_results regressors qcoef cond_quant localprj figs
                               (copy_sheet_names dict_input_quantfit))
  = map snd (sheet_entries dict_input_quantfit)
  /\ In sheet
        (reported_sheets (add_results regressors qcoef cond_quant localprj
                                      figs
                                      (copy_sheet_names dict_input_quantfit))).
Proof.
  intros Hnd Hs.
  assert (E : reported_sheets
                (add_results regressors qcoef cond_quant localprj figs
                             (copy_sheet_names dict_input_quantfit))
              = map snd (sheet_entries dict_input_quantfit)).
  { unfold reported_sheets, add_results.
    rewrite !(filter_dict_set (str_contains "sheet")) by reflexivity.
    unfold copy_sheet_names.
    rewrite copy_sheet_names_fold by (assumption || (intros ? ? [])).
    simpl. now rewrite filter_sheet_entries. }
  split; [exact E|]. rewrite E.
  apply (in_map snd _ ("sheet_input"%string, sheet)).
  now apply sheet_entries_get.
Qed.

Lemma closing_message_sheets_witness :
  NoDup (dict_keys sample_input_params)
  /\ dict_get "sheet_input" sample_input_params = Some "Output_partitions"
  /\ reported_sheets (add_results "r" "q" "c" "l" "f"
                                  (copy_sheet_names sample_input_params))
     = ["Output_partitions"; "Quant reg coefficients"].
Proof.
  assert (H : NoDup (dict_keys sample_input_params)).
  { repeat constructor; simpl; intuition discriminate. }
  split; [exact H|]. split; [reflexivity|].
  exact (proj1 (closing_message_sheets sample_input_params
                  "r" "q" "c" "l" "f" "Output_partitions" H eq_refl)).
Defined.

(* ================================================================== *)
(** ** Tick labels of the partition plot *)

Lemma string_length_append (s1 s2 : string) :
  String.length (s1 ++ s2)%string = (String.length s1 + String.length s2)%nat.
Proof. induction s1 as [|c s1 IH]; simpl; [reflexivity|now rewrite IH]. Qed.

Lemma substring_length (s : string) :
  forall n, (n <= String.length s)%nat ->
            String.length (substring 0 n s) = n.
Proof.
  induction s as [|c s IH]; intros [|n] H; simpl in *;
    try reflexivity; try lia.
  rewrite IH; lia.
Qed.

Lemma truncate_label_long (label : string) :
  (10 < String.length label)%nat ->
  truncate_label label = (substring 0 7 label ++ "...")%string
  /\ String.length (truncate_label label) = 10%nat.
Proof.
  intro H. unfold truncate_label.
  destruct (Nat.ltb_spec 10 (String.length label)); [|lia].
  split; [reflexivity|].
  rewrite string_length_append, substring_length by lia. reflexivity.
Qed.

Lemma truncate_label_short (label : string) :
  (String.length label <= 10)%nat -> truncate_label label = label.
Proof.
  intro H. unfold truncate_label.
  destruct (Nat.ltb_spec 10 (String.length label)); [lia|reflexivity].
Qed.



Lemma tick_labels_twice (ytick : list string) :
  tick_labels (tick_labels ytick) = tick_labels ytick.
Proof.
  unfold tick_labels. rewrite map_map. apply map_ext. intro a.
  apply truncate_label_short.
  destruct (Nat.le_gt_cases (String.length a) 10) as [H|H].
  - now rewrite truncate_label_short.
  - destruct (truncate_label_long a H) as [_ ->]. lia.
Qed.

(* ================================================================== *)
(** ** Normalised loadings of the partition plot *)













(** Loadings that are all zero have no normalised loadings to plot. *)
Example zero_loadings_missing :
  norm_loadings [Fin 0; Fin 0] = [NaN; NaN].
Proof. reflexivity. Qed.

(* ================================================================== *)
(** ** The validator on the dictionary of the reader *)

Lemma nke_bind {A B} (c : M A) (f : A -> M B) (s : state) :
  no_key_error (c s) ->
  (forall a s', c s = Done a s' -> no_key_error (f a s')) ->
  no_key_error (bind c f s).
Proof.
  unfold bind. intros Hc Hf. destruct (c s) as [a s'|m s'|e s'];
    [now apply Hf|exact I|exact Hc].
Qed.

Lemma nke_when_halt (b : bool) (m : message) (s : state) :
  no_key_error (when b (show_message m true) s).
Proof. destruct b; exact I. Qed.

Lemma when_halt_done (b : bool) (m : message) (s s' : state) (u : unit) :
  when b (show_message m true) s = Done u s' -> s' = s.
Proof. destruct b; simpl; [discriminate|]. now intros [= _ ->]. Qed.

Lemma nke_for_each {A} (body : A -> M unit) (l : list A) :
  (forall a s, no_key_error (body a s)) ->
  forall s, no_key_error (for_each l body s).
Proof.
  intro Hb. induction l as [|a l IH]; intro s; simpl; [exact I|].
  apply nke_bind; [apply Hb|]. intros. apply IH.
Qed.

Lemma nke_check_quantlist (val : value) (s : state) :
  no_key_error (check_quantlist val s).
Proof.
  destruct val as [|u|l|r]; try exact I.
  unfold check_quantlist. apply nke_bind; [apply nke_when_halt|].
  intros _ s' _. apply nke_for_each. intros. apply nke_when_halt.
Qed.

Lemma py_int_done (o : pyval) (s s' : state) (n : Z) :
  py_int o s = Done n s' -> s' = s.
Proof.
  destruct o as [|[|b|q]|k|u]; simpl; try discriminate;
    now intros [= _ ->].
Qed.

Lemma nke_py_int (o : pyval) (s : state) : no_key_error (py_int o s).
Proof. destruct o as [|[|b|q]|k|u]; exact I. Qed.

Lemma not_intlike_done (o : pyval) (s s' : state) (b : bool) :
  not_intlike o s = Done b s' -> s' = s.
Proof.
  destruct o as [|[|c|q]|k|u]; simpl; try discriminate;
    now intros [= _ ->].
Qed.

Lemma nke_not_intlike (o : pyval) (s : state) :
  no_key_error (not_intlike o s).
Proof. destruct o as [|[|b|q]|k|u]; exact I. Qed.

(** A regressor that is in the dictionary is checked without a
    KeyError. *)
Lemma nke_check_regressor (regressor : string) (e : regspec) (r : regdict)
      (s : state) :
  dict_get "regressors" (params s) = Some (VDict r) ->
  dict_get regressor r = Some e ->
  no_key_error (check_regressor regressor s).
Proof.
  intros Hr He. unfold check_regressor. apply nke_bind.
  { now rewrite (get_regressor_found regressor e r s Hr He). }
  intros a s0 E. rewrite (get_regressor_found regressor e r s Hr He) in E.
  injection E as <- <-.
  apply nke_bind; [apply nke_when_halt|].
  intros u1 s1 E1. apply when_halt_done in E1. subst s1.
  apply nke_bind.
  { unfold check_no_option.
    destruct (str_in (transform e) ["None"]); [apply nke_when_halt|exact I]. }
  intros u2 s2 E2.
  assert (s2 = s) as ->.
  { unfold check_no_option in E2.
    destruct (str_in (transform e) ["None"]);
      [now apply when_halt_done in E2|now injection E2]. }
  unfold check_int_option.
  destruct (str_in (transform e) option_transforms); [|exact I].
  cbn [when]. apply nke_bind; [apply nke_not_intlike|].
  intros bad s3 E3. apply not_intlike_done in E3. subst s3.
  apply nke_bind; [apply nke_when_halt|].
  intros u4 s4 E4. apply when_halt_done in E4. subst s4.
  apply nke_bind; [apply nke_py_int|].
  intros n s5 E5. apply py_int_done in E5. subst s5.
  now rewrite (set_regressor_option_found regressor e r s Hr He).
Qed.

(** Where a loop raises: in the body, on one of the elements, in a state
    the validator has reached. *)
Lemma for_each_raised {A} (body : A -> M unit) (l : list A) :
  (forall a s, frames (body a) s) ->
  forall s e s', for_each l body s = Raised e s' ->
  exists a s1, In a l /\ params_updated (params s) (params s1)
               /\ body a s1 = Raised e s'.
Proof.
  intro Hf. induction l as [|a l IH]; intros s e s'; simpl; [discriminate|].
  unfold bind. destruct (body a s) as [u s2|m s2|e2 s2] eqn:E;
    [|discriminate|].
  - intro H. destruct (IH _ _ _ H) as (b & s1 & Hin & Hu & Hb).
    exists b, s1. split; [now right|]. split; [|exact Hb].
    apply (params_updated_trans _ (params s2)); [|exact Hu].
    pose proof (Hf a s) as F. unfold frames in F. now rewrite E in F.
  - intros [= <- <-]. exists a, s. split; [now left|].
    split; [apply params_updated_refl|exact E].
Qed.

Lemma nke_check_regressors (val : value) (s : state) :
  dict_get "regressors" (params s) = Some val ->
  no_key_error (check_regressors val s).
Proof.
  intro Hg. destruct val as [|u|l|r].
  - exact I.
  - destruct u; exact I.
  - destruct l; exact I.
  - unfold check_regressors.
    destruct (for_each (dict_keys r) check_regressor s)
      as [u s'|m s'|[k| | |] s'] eqn:E; try exact I.
    destruct (for_each_raised check_regressor (dict_keys r)
                frames_check_regressor _ _ _ E)
      as (a & s1 & Hin & Hu & Hb).
    destruct (params_updated_regressors _ _ _ Hu Hg) as (r1 & Hg1 & HF).
    rewrite <- (regdict_updated_keys _ _ HF) in Hin.
    destruct (dict_keys_get a r1 Hin) as (e1 & He1).
    pose proof (nke_check_regressor a e1 r1 s1 Hg1 He1) as N.
    now rewrite Hb in N.
Qed.

Lemma nke_check_key (sheetnames : list string) (key : string) (val : value)
      (s : state) :
  dict_get key (params s) = Some val ->
  no_key_error (check_key sheetnames key s).
Proof.
  intro Hg. unfold check_key. apply nke_bind.
  { now rewrite (getitem_found _ _ _ Hg). }
  intros v s0 E. rewrite (getitem_found _ _ _ Hg) in E.
  injection E as <- <-.
  destruct (String.eqb_spec key "quantlist") as [->|Hq].
  { cbn [when String.eqb Ascii.eqb Bool.eqb]. apply nke_bind;
      [apply nke_check_quantlist|].
    intros u1 s1 _. apply nke_bind; [exact I|]. intros u2 s2 _. exact I. }
  cbn [when]. apply nke_bind; [exact I|].
  intros u1 s1 [= _ <-].
  destruct (String.eqb_spec key "regressors") as [->|Hr].
  { cbn [when]. apply nke_bind; [now apply nke_check_regressors|].
    intros u2 s2 _. exact I. }
  cbn [when]. apply nke_bind; [exact I|].
  intros u2 s2 [= _ <-].
  destruct (String.eqb key "sheet_input").
  - unfold check_sheet_input. destruct val; try exact I.
    apply nke_bind; [exact I|]. intros. apply nke_when_halt.
  - destruct (str_contains "sheet_" key); [|exact I]. cbn [when].
    unfold check_sheet_output. destruct val; try exact I.
    + destruct (String.eqb key "sheet_quantreg"); [exact I|].
      destruct (String.eqb key "sheet_cond_quant"); exact I.
    + apply nke_when_halt.
Qed.

Lemma nke_validate (sheetnames : list string) (d : pydict)
      (keys : list string) :
  (forall key, In key keys -> dict_mem key d = true) ->
  no_key_error (validate sheetnames d keys).
Proof.
  intro Hk. unfold validate, check_parameters_quantfit, bind.
  rewrite check_keys_exist_runs. cbn [params shown].
  destruct (for_each keys (check_key sheetnames) _)
    as [u s'|m s'|[k| | |] s'] eqn:E; try exact I.
  destruct (for_each_raised (check_key sheetnames) keys
              (frames_check_key sheetnames) _ _ _ E)
    as (key & s1 & Hin & Hu & Hb).
  cbn [params] in Hu. specialize (Hk key Hin). unfold dict_mem in Hk.
  destruct (dict_get key d) as [v|] eqn:Hg; [|discriminate].
  pose proof (params_updated_get d (params s1) key Hu) as G.
  rewrite Hg in G.
  destruct (dict_get key (params s1)) as [v1|] eqn:Hg1; [|contradiction].
  pose proof (nke_check_key sheetnames key v1 s1 Hg1) as N.
  now rewrite Hb in N.
Qed.

Lemma missing_keys_none (d : pydict) (keys : list string) :
  (forall key, In key keys -> dict_mem key d = true) ->
  missing_keys d keys = [].
Proof.
  intro H. unfold missing_keys.
  induction keys as [|key keys IH]; [reflexivity|]. simpl.
  rewrite (H key (or_introl eq_refl)). simpl.
  apply IH. intros k Hk. apply H. now right.
Qed.

Lemma reader_has_keys (quantlist : value) (rows : list row)
      (sheet_quantreg sheet_cond_quant sheet_input : value) (key : string) :
  In key quantfit_keys ->
  dict_mem key (read_parameters_quantfit quantlist rows sheet_quantreg
                                         sheet_cond_quant sheet_input)
  = true.
Proof. intros [<-|[<-|[<-|[<-|[<-|[]]]]]]; reflexivity. Qed.

(** X24. Reading, then validating, as [prerun_quantfit] does.  Whatever the
    cells of the sheet hold, the dictionary of the reader has the five keys
    the validator is given; so the validator reports no missing key, never
    ends by a KeyError, and shows at most one message, the one it halts
    with. *)
Theorem prerun_keys_found (sheetnames : list string) (quantlist : value)
        (rows : list row)
        (sheet_quantreg sheet_cond_quant sheet_input : value) :
  let d := read_parameters_quantfit quantlist rows sheet_quantreg
                                    sheet_cond_quant sheet_input in
  forallb (fun key => dict_mem key d) quantfit_keys = true
  /\ missing_keys d quantfit_keys = []
  /\ no_key_error (validate sheetnames d quantfit_keys)
  /\ match validate sheetnames d quantfit_keys with
     | Done _ s' => shown s' = []
     | Halted m s' => shown s' = [m]
     | Raised _ s' => shown s' = []
     end.
Proof.
  intro d.
  assert (Hk : forall key, In key quantfit_keys -> dict_mem key d = true)
    by (intro key; apply reader_has_keys).
  pose proof (missing_keys_none d quantfit_keys Hk) as Hm.
  split; [reflexivity|]. split; [exact Hm|].
  split; [now apply nke_validate|].
  pose proof (validate_shown sheetnames d quantfit_keys) as Hs.
  rewrite Hm in Hs.
  destruct (validate sheetnames d quantfit_keys); [tauto|exact Hs|exact Hs].
Qed.

(** A quantile cell that holds a text is read as a string, not as a list:
    the validator then ends by a TypeError, which is not a KeyError, and
    shows nothing. *)
Example single_quantile_cell :
  exists s',
    validate [] (read_parameters_quantfit (VStr "0.5") [] VNone VNone VNone)
             quantfit_keys
    = Raised TypeError s' /\ shown s' = [].
Proof. eexists. split; reflexivity. Qed.
